(** * MetaTrader client layer: enumeration, order dispatch, position queries

    A shallow embedding of

    - [client/types.py]            (class [OrderType], [OrderFilling], [OrderTime]),
    - [client/functions/send_order.py]   (function [send_order]),
    - [client/orders.py]           (method [MT5Orders._getPositions]),
    - [client/order/close_all_profittable_positions.py],
    - [client/history/get_deals.py]   (function [get_deals], in [Module History]).

    Conventions of the embedding.

    - Python values that reach the enumeration helpers are elements of the
      universe [pyval] (str, int, bool, None, enum members). [Module
      PyObject] repeats [OrderType.to_code] on [pyval] extended with
      [bytes] and [bytearray], the other builtin types with an [upper]
      method.
    - Python [str] is [string]; [str.upper] acts on the ASCII letters, which
      is all the member names are made of. On a str with other characters
      ([is_ascii] false) Python's [upper] can do more than [upper] here.
    - The numeric arguments of [send_order] (volume, price, stop loss, take
      profit, bid, ask) have the annotated type [float]. The first model,
      [send_order], takes finite numbers compared exactly: they are [Q].
      [Module PyFloat] repeats the function on all floats (finite numbers,
      the two infinities and NaN, for which every comparison is false) and
      on the other values [float()] is applied to (int, bool, str, None),
      for which a comparison of line 107 or [float(x)] can raise;
      [send_order_agrees] shows that the two models run alike on finite
      floats.
    - A Python call either returns or raises: [res].
    - The terminal ([MetaTrader5] module, [MT5Market]) is an external
      collaborator: an abstract world state with one response function per
      call; every call is appended to a log. *)

From Stdlib Require Import String Ascii List ZArith QArith Bool Lia DecimalString.
Import ListNotations.

Local Open Scope string_scope.
Local Open Scope Z_scope.

(* ====================================================================== *)
(** ** Python values *)

(** [class OrderType(Enum)], types.py lines 103-111. *)
Inductive OrderType : Type :=
| BUY | SELL | BUY_LIMIT | SELL_LIMIT | BUY_STOP | SELL_STOP
| BUY_STOP_LIMIT | SELL_STOP_LIMIT | CLOSE_BY.

(** Modelled from the spec: [TradeRequestActions] is imported by
    send_order.py from [..types] but its declaration is not in the sources;
    the members are the six action kinds of the spec (section 3) under the
    names send_order.py and its docstring use, with the codes of
    [TradeAction] (types.py lines 211-216). *)
Inductive TradeRequestActions : Type :=
| DEAL | PENDING | SLTP | MODIFY | REMOVE | ACT_CLOSE_BY.

Inductive pyval : Type :=
| VNone
| VBool (b : bool)
| VInt (z : Z)
| VStr (s : string)
| VOrderType (o : OrderType)
| VAction (a : TradeRequestActions).

(** Exceptions that the modelled code can raise. *)
Inductive exn : Type :=
| KeyError (key : pyval)
| AttributeError (attr : string)
| NameError (name : string)
| ValueError
| TypeError (msg : string)
| OverflowError
| InvalidEnumValue (what : string) (given : pyval).

Inductive res (A : Type) : Type :=
| Ret (a : A)
| Raise (e : exn).
Arguments Ret {A} a.
Arguments Raise {A} e.

(** [str(z)] for an int. *)
Definition str_of_int (z : Z) : string := NilZero.string_of_int (Z.to_int z).

Definition OrderType_name (o : OrderType) : string :=
  match o with
  | BUY => "BUY" | SELL => "SELL"
  | BUY_LIMIT => "BUY_LIMIT" | SELL_LIMIT => "SELL_LIMIT"
  | BUY_STOP => "BUY_STOP" | SELL_STOP => "SELL_STOP"
  | BUY_STOP_LIMIT => "BUY_STOP_LIMIT" | SELL_STOP_LIMIT => "SELL_STOP_LIMIT"
  | CLOSE_BY => "CLOSE_BY"
  end.

Definition OrderType_value (o : OrderType) : Z :=
  match o with
  | BUY => 0 | SELL => 1 | BUY_LIMIT => 2 | SELL_LIMIT => 3
  | BUY_STOP => 4 | SELL_STOP => 5 | BUY_STOP_LIMIT => 6
  | SELL_STOP_LIMIT => 7 | CLOSE_BY => 8
  end.

(** Iteration order of [for order_type in cls]: definition order. *)
Definition OrderType_members : list OrderType :=
  [BUY; SELL; BUY_LIMIT; SELL_LIMIT; BUY_STOP; SELL_STOP;
   BUY_STOP_LIMIT; SELL_STOP_LIMIT; CLOSE_BY].

Definition Action_name (a : TradeRequestActions) : string :=
  match a with
  | DEAL => "DEAL" | PENDING => "PENDING" | SLTP => "SLTP"
  | MODIFY => "MODIFY" | REMOVE => "REMOVE" | ACT_CLOSE_BY => "CLOSE_BY"
  end.

Definition Action_value (a : TradeRequestActions) : Z :=
  match a with
  | DEAL => 1 | PENDING => 5 | SLTP => 6
  | MODIFY => 7 | REMOVE => 8 | ACT_CLOSE_BY => 10
  end.

Definition Action_members : list TradeRequestActions :=
  [DEAL; PENDING; SLTP; MODIFY; REMOVE; ACT_CLOSE_BY].

Definition OrderType_eqb (a b : OrderType) : bool :=
  OrderType_value a =? OrderType_value b.

(** [str.upper] on ASCII letters. *)
Definition upper_ascii (c : ascii) : ascii :=
  let n := nat_of_ascii c in
  if (andb (Nat.leb 97 n) (Nat.leb n 122)) then ascii_of_nat (n - 32) else c.

Fixpoint upper (s : string) : string :=
  match s with
  | EmptyString => EmptyString
  | String c r => String (upper_ascii c) (upper r)
  end.


(** [int_value == v] for an int on the left: an int equals an int or a bool
    of the same value and nothing else of the universe. *)
Definition int_eq_py (n : Z) (v : pyval) : bool :=
  match v with
  | VInt z => n =? z
  | VBool b => n =? (if b then 1 else 0)
  | _ => false
  end.

(** Truth value of an object ([default or ...]). *)
Definition truthy (v : pyval) : bool :=
  match v with
  | VNone => false
  | VBool b => b
  | VInt z => negb (z =? 0)
  | VStr s => negb (String.eqb s "")
  | VOrderType _ | VAction _ => true
  end.

(** [f"{v}"]. *)
Definition format_py (v : pyval) : string :=
  match v with
  | VNone => "None"
  | VBool b => if b then "True" else "False"
  | VInt z => str_of_int z
  | VStr s => s
  | VOrderType o => "OrderType." ++ OrderType_name o
  | VAction a => "TradeRequestActions." ++ Action_name a
  end.

(* ====================================================================== *)
(** ** Enumeration layer: [OrderType] class methods (types.py) *)

(** [cls[key]]: member lookup by name; any other key is a [KeyError]. *)
Definition OrderType_getitem (key : pyval) : res OrderType :=
  match key with
  | VStr s =>
      match find (fun o => String.eqb (OrderType_name o) s) OrderType_members with
      | Some o => Ret o
      | None => Raise (KeyError key)
      end
  | _ => Raise (KeyError key)
  end.

(** [name.upper()]: only str has the attribute in the universe. *)
Definition call_upper (v : pyval) : res pyval :=
  match v with
  | VStr s => Ret (VStr (upper s))
  | _ => Raise (AttributeError "upper")
  end.

(** [OrderType.to_string(code, default=None)], types.py lines 113-128. *)
Definition to_string (code : pyval) (default : pyval) : pyval :=
  match find (fun o => int_eq_py (OrderType_value o) code) OrderType_members with
  | Some o => VStr (OrderType_name o)
  | None => if truthy default then default
            else VStr ("UNKNOWN_" ++ format_py code)
  end.

(** [OrderType.to_code(name, default=None)], types.py lines 130-145.
    The body of the [try] is [to_code_try]; the handler catches
    [KeyError] and [AttributeError] only. *)
Definition to_code_try (name : pyval) : res pyval :=
  match call_upper name with
  | Raise e => Raise e
  | Ret k =>
      match OrderType_getitem k with
      | Raise e => Raise e
      | Ret o => Ret (VInt (OrderType_value o))
      end
  end.

Definition to_code (name : pyval) (default : pyval) : res pyval :=
  match to_code_try name with
  | Ret v => Ret v
  | Raise (KeyError _) => Ret default
  | Raise (AttributeError _) => Ret default
  | Raise e => Raise e
  end.

(** [OrderType.exists(key)], types.py lines 147-166. *)
Definition exists_ (key : pyval) : bool :=
  match key with
  | VInt _ | VBool _ =>
      existsb (fun o => int_eq_py (OrderType_value o) key) OrderType_members
  | VStr s =>
      match OrderType_getitem (VStr (upper s)) with
      | Ret _ => true
      | Raise _ => false
      end
  | _ => false
  end.

(** Modelled from the spec: the [validate] class method that send_order.py
    calls on [OrderType] and [TradeRequestActions] is not in the sources.
    Spec 4.1 (c): it accepts a name (case-insensitive), a code, or an
    already-typed enum value and returns the canonical typed value, failing
    with an [InvalidEnumValue] error when the input matches none of the
    known names or codes. *)
Definition OrderType_validate (v : pyval) : res OrderType :=
  match v with
  | VOrderType o => Ret o
  | VStr s =>
      match find (fun o => String.eqb (OrderType_name o) (upper s)) OrderType_members with
      | Some o => Ret o
      | None => Raise (InvalidEnumValue "OrderType" v)
      end
  | VInt z =>
      match find (fun o => OrderType_value o =? z) OrderType_members with
      | Some o => Ret o
      | None => Raise (InvalidEnumValue "OrderType" v)
      end
  | _ => Raise (InvalidEnumValue "OrderType" v)
  end.

(** Modelled from the spec: as [OrderType_validate], for the action kinds. *)
Definition Action_validate (v : pyval) : res TradeRequestActions :=
  match v with
  | VAction a => Ret a
  | VStr s =>
      match find (fun a => String.eqb (Action_name a) (upper s)) Action_members with
      | Some a => Ret a
      | None => Raise (InvalidEnumValue "TradeRequestActions" v)
      end
  | VInt z =>
      match find (fun a => Action_value a =? z) Action_members with
      | Some a => Ret a
      | None => Raise (InvalidEnumValue "TradeRequestActions" v)
      end
  | _ => Raise (InvalidEnumValue "TradeRequestActions" v)
  end.

(** [OrderFilling.FOK.value], [OrderTime.GTC.value], [OrderTime.SPECIFIED.value]
    (types.py lines 178, 193, 195). *)
Definition OrderFilling_FOK : Z := 0.
Definition OrderTime_GTC : Z := 0.
Definition OrderTime_SPECIFIED : Z := 2.

(* ====================================================================== *)
(** ** The terminal gateway and the call monad *)

(** Comparisons of numbers, named after the Python operators. *)
Definition Qlt_bool (a b : Q) : bool := negb (Qle_bool b a).
Definition Qgt_bool (a b : Q) : bool := negb (Qle_bool a b).
Definition Qge_bool (a b : Q) : bool := Qle_bool b a.

(** A quote as returned by [mt5.symbol_info_tick]. *)
Record Tick : Type := { bid : Q; ask : Q }.

(** Value stored under ["expiration"] in a pending request:
    [expiration if expiration else 0]. *)
Inductive Expiration : Type :=
| ExpZero
| ExpAt (t : Z).

(** The request dictionary handed to [mt5.order_send]. The keys
    ["type_time"] and ["expiration"] exist for pending orders only. *)
Record TradeRequest : Type := {
  req_action : TradeRequestActions;
  req_symbol : string;
  req_volume : Q;
  req_type : OrderType;
  req_price : Q;
  req_sl : Q;
  req_tp : Q;
  req_deviation : Z;
  req_comment : string;
  req_type_filling : Z;
  req_type_time : option Z;
  req_expiration : option Expiration
}.

(** A row of the terminal's position collection, and its normalized
    projection. *)
Record RawPosition : Type := {
  raw_ticket : Z;
  raw_symbol : string;
  raw_type : Z;
  raw_profit : Q
}.

Record PositionRecord : Type := {
  id : Z;
  symbol : string;
  type_code : Z;
  type_name : pyval;
  profit : Q
}.

(** A DataFrame of positions is the list of its rows; [pd.DataFrame()] is
    the empty list. *)
Definition DataFrame : Type := list PositionRecord.

(** Keyword argument of [mt5.positions_get]. *)
Inductive PosFilter : Type :=
| ByTicket (ticket : Z)
| BySymbol (symbol : string)
| ByGroup (group : string)
| NoFilter.

(** Calls that leave the client. *)
Inductive Call : Type :=
| CGetSymbols (pattern : string)
| CSymbolSelect (symbol : string) (enable : bool)
| CSymbolInfoTick (symbol : string)
| COrderSend (request : TradeRequest)
| CLastError
| CPositionsGet (filter : PosFilter)
| CGetAllPositions
| CClosePosition (id : Z).

(** The terminal: a state and the response of each call in a state.
    [gw_get_symbols] is [MT5Market.get_symbols]; the [mt5.*] functions are
    the MetaTrader5 package. *)
Record Terminal : Type := {
  World : Type;
  gw_get_symbols : string -> World -> list string * World;
  gw_symbol_select : string -> bool -> World -> bool * World;
  gw_symbol_info_tick : string -> World -> option Tick * World;
  gw_order_send : TradeRequest -> World -> World;
  gw_last_error : World -> (Z * string) * World;
  gw_positions_get : PosFilter -> World -> option (list RawPosition) * World;
  (** Modelled from the spec: [get_all_positions] (spec 4.3 with no filter)
      and [close_position] (spec 4.4, the single-position close operation)
      are imported by close_all_profittable_positions.py and are not in
      the sources. A close returns a success flag or raises. *)
  gw_get_all_positions : World -> DataFrame * World;
  gw_close_position : Z -> World -> res bool * World
}.

Section Client.

Context {T : Terminal}.

Record St : Type := { world : World T; calls : list Call }.

Definition M (A : Type) : Type := St -> res A * St.

Definition ret {A} (a : A) : M A := fun st => (Ret a, st).

Definition raise {A} (e : exn) : M A := fun st => (Raise e, st).

Definition bind {A B} (m : M A) (k : A -> M B) : M B :=
  fun st =>
    match m st with
    | (Ret a, st') => k a st'
    | (Raise e, st') => (Raise e, st')
    end.

Definition lift {A} (r : res A) : M A := fun st => (r, st).

Definition perform {A} (c : Call) (f : World T -> A * World T) : M A :=
  fun st =>
    let r := f (world st) in
    (Ret (fst r), {| world := snd r; calls := calls st ++ [c] |}).

Definition get_symbols (pattern : string) : M (list string) :=
  perform (CGetSymbols pattern) (gw_get_symbols T pattern).

Definition symbol_select (symbol : string) (enable : bool) : M bool :=
  perform (CSymbolSelect symbol enable) (gw_symbol_select T symbol enable).

Definition symbol_info_tick (symbol : string) : M (option Tick) :=
  perform (CSymbolInfoTick symbol) (gw_symbol_info_tick T symbol).

Definition order_send (request : TradeRequest) : M unit :=
  perform (COrderSend request) (fun w => (tt, gw_order_send T request w)).

Definition last_error : M (Z * string) :=
  perform CLastError (gw_last_error T).

Definition positions_get (filter : PosFilter) : M (option (list RawPosition)) :=
  perform (CPositionsGet filter) (gw_positions_get T filter).

Definition get_all_positions : M DataFrame :=
  perform CGetAllPositions (gw_get_all_positions T).

Definition close_position (id : Z) : M bool :=
  fun st =>
    let r := gw_close_position T id (world st) in
    (fst r, {| world := snd r; calls := calls st ++ [CClosePosition id] |}).

(** Evaluating a name that has no binding in the function or the module. *)
Definition unbound_name {A} (name : string) : M A := raise (NameError name).

End Client.

Arguments St T : clear implicits.
Arguments M T A : clear implicits.

Notation "x <- c ;; k" := (bind c (fun x => k))
  (at level 61, c at next level, right associativity).
Notation "' pat <- c ;; k" := (bind c (fun x => match x with pat => k end))
  (at level 61, pat pattern, c at next level, right associativity).

(** Initial state of a run: a world and an empty log. *)
Definition start {T : Terminal} (w : World T) : St T :=
  {| world := w; calls := [] |}.

Definition is_order_send (c : Call) : bool :=
  match c with COrderSend _ => true | _ => false end.

Definition is_positions_get (c : Call) : bool :=
  match c with CPositionsGet _ => true | _ => false end.

Definition is_close_position (c : Call) : bool :=
  match c with CClosePosition _ => true | _ => false end.

(* ====================================================================== *)
(** ** Order validator and dispatcher: send_order.py *)

(** The dictionary that [send_order] returns. The two-key form
    [{ "success", "message" }] is [reply]; the form returned at the end of
    the function (lines 277-283) is [unknown_error], whose ["request"] and
    ["result"] are [None]. *)
Record Outcome : Type := {
  success : bool;
  message : option string;
  return_code : option Z;
  return_message : option string
}.

Definition reply (ok : bool) (msg : string) : Outcome :=
  {| success := ok; message := Some msg;
     return_code := None; return_message := None |}.

Definition unknown_error : Outcome :=
  {| success := false; message := None;
     return_code := Some (-1); return_message := Some "Unknown error" |}.

Definition buy_side : list OrderType := [BUY; BUY_LIMIT; BUY_STOP].
Definition sell_side : list OrderType := [SELL; SELL_LIMIT; SELL_STOP].

(** [x in [..]] on enum members. *)
Definition member_of (o : OrderType) (l : list OrderType) : bool :=
  existsb (OrderType_eqb o) l.

(** send_order.py lines 122-136 on finite numbers: the message of the
    first failing stop/target comparison, [None] when control reaches
    line 138. *)
Definition sl_tp_check (order_type : OrderType) (price stop_loss take_profit : Q)
  : option string :=
  if member_of order_type buy_side then
    if Qge_bool stop_loss price then Some "Stop loss must be below the price"
    else if Qle_bool take_profit price then Some "Take profit must be above the price"
    else if Qgt_bool stop_loss take_profit then Some "Stop loss must be below the take profit"
    else None
  else if member_of order_type sell_side then
    if Qle_bool stop_loss price then Some "Stop loss must be above the price"
    else if Qge_bool take_profit price then Some "Take profit must be below the price"
    else if Qlt_bool stop_loss take_profit then Some "Stop loss must be above the take profit"
    else None
  else None.

(** send_order.py lines 185-197: the message of a price that is on the
    wrong side of the quote, [None] when control reaches line 199. *)
Definition pending_price_check (order_type : OrderType) (price : Q) (tick : Tick)
  : option string :=
  match order_type with
  | BUY_LIMIT =>
      if Qgt_bool price (ask tick)
      then Some "Invalid price, must be above current ask" else None
  | SELL_LIMIT =>
      if Qlt_bool price (bid tick)
      then Some "Invalid price, must be below current bid" else None
  | BUY_STOP =>
      if Qlt_bool price (ask tick)
      then Some "Invalid price, must be above current ask" else None
  | SELL_STOP =>
      if Qgt_bool price (bid tick)
      then Some "Invalid price, must be below current bid" else None
  | _ => None
  end.

(** The request of lines 151-162 (market execution). *)
Definition deal_request (action : TradeRequestActions) (symbol : string)
    (volume : Q) (order_type : OrderType) (price : Q) (comment : string)
    (sl tp : Q) : TradeRequest :=
  {| req_action := action; req_symbol := symbol; req_volume := volume;
     req_type := order_type; req_price := price; req_sl := sl; req_tp := tp;
     req_deviation := 20; req_comment := comment;
     req_type_filling := 0 (* mt5.ORDER_FILLING_FOK *);
     req_type_time := None; req_expiration := None |}.

(** The request of lines 199-212 (pending order). *)
Definition pending_request (action : TradeRequestActions) (symbol : string)
    (volume : Q) (order_type : OrderType) (price stop_loss take_profit : Q)
    (deviation : Z) (comment : string) (expiration : option Z) : TradeRequest :=
  {| req_action := action; req_symbol := symbol; req_volume := volume;
     req_type := order_type; req_price := price;
     req_sl := stop_loss; req_tp := take_profit;
     req_deviation := deviation; req_comment := comment;
     req_type_filling := OrderFilling_FOK;
     req_type_time :=
       Some (match expiration with
             | Some _ => OrderTime_SPECIFIED | None => OrderTime_GTC end);
     req_expiration :=
       Some (match expiration with
             | Some t => ExpAt t | None => ExpZero end) |}.

(** Lines 166-171 and 216-221: the outcome read off the last-error
    channel. *)
Definition outcome_of_last_error (err : Z * string) : Outcome :=
  let (error_code, error_description) := err in
  if error_code <? 0
  then reply false ("Error " ++ str_of_int error_code ++ ": " ++ error_description)
  else reply true "Order sent successfully".

Section SendOrder.

Context {T : Terminal}.

(** The [match action:] statement and what follows it, send_order.py
    lines 141-283. [REMOVE] has no case; the cases of [SLTP], [MODIFY]
    and [CLOSE_BY] only print. All four end at the final [return]. *)
Definition dispatch (action : TradeRequestActions) (order_type : OrderType)
    (symbol : string) (volume price stop_loss take_profit : Q) (deviation : Z)
    (comment : string) (expiration : option Z) : M T Outcome :=
  match action with
  | DEAL =>
      if negb (member_of order_type [BUY; SELL])
      then ret (reply false "Invalid order type, must be BUY or SELL") else
      (* lines 159-160 read the names [sl] and [tp] *)
      sl <- unbound_name "sl" ;;
      tp <- unbound_name "tp" ;;
      let request :=
        deal_request action symbol volume order_type price comment sl tp in
      _ <- order_send request ;;
      err <- last_error ;;
      ret (outcome_of_last_error err)
  | PENDING =>
      if negb (member_of order_type [BUY_LIMIT; SELL_LIMIT; BUY_STOP; SELL_STOP])
      then ret (reply false
        "Invalid order type, must be BUY_LIMIT, SELL_LIMIT, BUY_STOP, or SELL_STOP")
      else
      tick <- symbol_info_tick symbol ;;
      match match tick with
            | Some tk => pending_price_check order_type price tk
            | None => None
            end with
      | Some msg => ret (reply false msg)
      | None =>
          let request :=
            pending_request action symbol volume order_type price
              stop_loss take_profit deviation comment expiration in
          _ <- order_send request ;;
          err <- last_error ;;
          ret (outcome_of_last_error err)
      end
  | SLTP | MODIFY | ACT_CLOSE_BY | REMOVE => ret unknown_error
  end.

(** [send_order], send_order.py lines 24-283, on finite numbers. The
    parameters [magic], [position], [position_by], [order], [type_filling],
    [type_time] and [stoplimit] are not read by the body. [float(x)] is the
    identity on the numbers of the model, so the [isinstance] tests of
    lines 114 and 120 hold; the [print] calls are not modelled.
    [PyFloat.send_order] is the same function on all floats and on the
    other values [float()] is applied to. *)
Definition send_order (action order_type : pyval) (symbol : string)
    (volume price stop_loss take_profit : Q) (deviation : Z)
    (comment : string) (expiration : option Z) : M T Outcome :=
  action <- lift (Action_validate action) ;;
  order_type <- lift (OrderType_validate order_type) ;;
  symbols <- get_symbols symbol ;;
  if (length symbols =? 0)%nat then ret (reply false "Invalid symbol") else
  selected <- symbol_select symbol true ;;
  if negb selected then ret (reply false ("Failed to select " ++ symbol)) else
  if Qle_bool volume 0 || Qgt_bool volume 100 then ret (reply false "Invalid volume") else
  match sl_tp_check order_type price stop_loss take_profit with
  | Some msg => ret (reply false msg)
  | None =>
      dispatch action order_type symbol volume price stop_loss take_profit
        deviation (if negb (String.eqb comment "") then comment else "MCP")
        expiration
  end.

End SendOrder.

(* ====================================================================== *)
(** ** Position query layer: orders.py *)

(** The [ticket] argument, [Union[int, str]]. *)
Inductive Ticket : Type :=
| TInt (n : Z)
| TStr (s : string).

(** Modelled from the spec: [convert_positions_to_dataframe] is imported
    from [.utils] and is not in the sources. Spec section 3: each row is
    projected to ticket, symbol, type code, type name, profit. *)
Definition convert_positions_to_dataframe (positions : list RawPosition) : DataFrame :=
  map (fun p => {| id := raw_ticket p; symbol := raw_symbol p;
                   type_code := raw_type p;
                   type_name := to_string (VInt (raw_type p)) VNone;
                   profit := raw_profit p |}) positions.

(** [if s:] for an optional string. *)
Definition nonempty (s : option string) : bool :=
  match s with
  | Some x => negb (String.eqb x "")
  | None => false
  end.

Section Orders.

Context {T : Terminal}.

(** The builtin [int] on a str: [None] stands for [ValueError]. *)
Variable int_of_str : string -> option Z.

(** Lines 60-71: [true] when the function returns the empty DataFrame
    from the pre-check. *)
Definition precheck (symbol_name group : option string) : M T bool :=
  stop1 <-
    (if nonempty symbol_name then
       symbols <- get_symbols (match symbol_name with Some s => s | None => "" end) ;;
       ret (negb (length symbols =? 1)%nat)
     else ret false) ;;
  if (stop1 : bool) then ret true else
  if nonempty group then
    symbols <- get_symbols (match group with Some g => g | None => "" end) ;;
    ret (length symbols =? 0)%nat
  else ret false.

(** Lines 99-109: the optional [order_type] filter. Every row of the
    model has the [type_code] column, so the test of line 108 holds. *)
Definition filter_by_type (order_type : option pyval) (result : DataFrame)
  : res DataFrame :=
  match order_type with
  | Some ot =>
      if negb (length result =? 0)%nat then
        match (match ot with
               | VStr _ => to_code ot VNone
               | VOrderType o => Ret (VInt (OrderType_value o))
               | _ => Ret ot
               end) with
        | Raise e => Raise e
        | Ret tc => Ret (filter (fun r => int_eq_py (type_code r) tc) result)
        end
      else Ret result
  | None => Ret result
  end.

(** [MT5Orders._getPositions], orders.py lines 49-112. *)
Definition _getPositions (ticket : option Ticket) (symbol_name group : option string)
    (order_type : option pyval) : M T DataFrame :=
  stop <- (match ticket with
           | Some _ => precheck symbol_name group
           | None => ret false
           end) ;;
  if (stop : bool) then ret [] else
  let fetch (f : PosFilter) : M T DataFrame :=
    positions <- positions_get f ;;
    match positions with
    | Some ps => lift (filter_by_type order_type (convert_positions_to_dataframe ps))
    | None => ret []
    end in
  match ticket with
  | Some (TInt n) => fetch (ByTicket n)
  | Some (TStr s) =>
      match int_of_str s with
      | Some n => fetch (ByTicket n)
      | None => ret []
      end
  | None =>
      match symbol_name, group with
      | Some s, _ => fetch (BySymbol s)
      | None, Some g => fetch (ByGroup g)
      | None, None => fetch NoFilter
      end
  end.

End Orders.

(* ====================================================================== *)
(** ** Aggregate operation: close_all_profittable_positions.py *)

(** The returned dictionary; ["data"] is always [None]. *)
Record Summary : Type := { error : bool; summary_message : string }.

Section CloseAll.

Context {T : Terminal}.

(** Lines 18-20: the loop over [positions["id"]]. *)
Fixpoint close_each (ids : list Z) (count : nat) : M T nat :=
  match ids with
  | [] => ret count
  | i :: rest =>
      _ <- close_position i ;;
      close_each rest (count + 1)%nat
  end.

(** [close_all_profittable_positions], lines 4-21. *)
Definition close_all_profittable_positions : M T Summary :=
  positions <- get_all_positions ;;
  let positions := filter (fun p => Qge_bool (profit p) 0) positions in
  count <- close_each (map id positions) 0%nat ;;
  ret {| error := false;
         summary_message :=
           "Close " ++ str_of_int (Z.of_nat count) ++ " profittable positions success" |}.

End CloseAll.

(* ====================================================================== *)
(** ** A concrete terminal for evaluating the client *)

(** A terminal with a symbol table (pattern, matching names), one quote
    for every symbol, a fixed last-error pair, a position collection, and
    the tickets whose close reports failure. It records what was sent. *)
Record SimWorld : Type := {
  sim_symbols : list (string * list string);
  sim_quote : option Tick;
  sim_error : Z * string;
  sim_positions : list RawPosition;
  sim_failing : list Z;
  sim_sent : list TradeRequest
}.

Definition sim_resolve (pattern : string) (w : SimWorld) : list string :=
  match find (fun e => String.eqb (fst e) pattern) (sim_symbols w) with
  | Some e => snd e
  | None => []
  end.

Definition sim_select (p : PosFilter) (r : RawPosition) : bool :=
  match p with
  | ByTicket n => raw_ticket r =? n
  | BySymbol s => String.eqb (raw_symbol r) s
  | ByGroup _ | NoFilter => true
  end.

Definition sim : Terminal := {|
  World := SimWorld;
  gw_get_symbols := fun p w => (sim_resolve p w, w);
  gw_symbol_select := fun s _ w => (negb (length (sim_resolve s w) =? 0)%nat, w);
  gw_symbol_info_tick := fun _ w => (sim_quote w, w);
  gw_order_send := fun r w =>
    {| sim_symbols := sim_symbols w; sim_quote := sim_quote w;
       sim_error := sim_error w; sim_positions := sim_positions w;
       sim_failing := sim_failing w; sim_sent := sim_sent w ++ [r] |};
  gw_last_error := fun w => (sim_error w, w);
  gw_positions_get := fun p w => (Some (filter (sim_select p) (sim_positions w)), w);
  gw_get_all_positions := fun w => (convert_positions_to_dataframe (sim_positions w), w);
  gw_close_position := fun i w => (Ret (negb (existsb (Z.eqb i) (sim_failing w))), w)
|}.

Definition sim_world : SimWorld := {|
  sim_symbols := [("XAUUSD", ["XAUUSD"]); ("EURUSD", ["EURUSD"]);
                  ("*USD*", ["XAUUSD"; "EURUSD"])];
  sim_quote := Some {| bid := 3990; ask := 3991 |};
  sim_error := (1, "Success");
  sim_positions :=
    [ {| raw_ticket := 123; raw_symbol := "XAUUSD"; raw_type := 0; raw_profit := 12.5 |};
      {| raw_ticket := 124; raw_symbol := "EURUSD"; raw_type := 1; raw_profit := -3 |};
      {| raw_ticket := 125; raw_symbol := "XAUUSD"; raw_type := 1; raw_profit := 0 |} ];
  sim_failing := [123];
  sim_sent := []
|}.

(** The same terminal without a quote. *)
Definition sim_world_no_quote : SimWorld := {|
  sim_symbols := sim_symbols sim_world;
  sim_quote := None;
  sim_error := sim_error sim_world;
  sim_positions := sim_positions sim_world;
  sim_failing := sim_failing sim_world;
  sim_sent := []
|}.

(** A decimal reading of a ticket string, enough for digit strings. *)
Definition sim_int_of_str (s : string) : option Z :=
  match NilEmpty.int_of_string s with
  | Some d => Some (Z.of_int d)
  | None => None
  end.

(* ====================================================================== *)
(** ** Vocabulary of the statements *)

Section Vocabulary.

Context {T : Terminal}.

(** The symbol lookup finds the symbol and the terminal marks it active:
    lines 99-104 of send_order.py are passed. *)
Definition symbol_ok (symbol : string) (w : World T) : Prop :=
  fst (gw_get_symbols T symbol w) <> [] /\
  fst (gw_symbol_select T symbol true (snd (gw_get_symbols T symbol w))) = true.

(** The state in which [send_order] reaches its volume check. *)
Definition checked (symbol : string) (w : World T) : St T :=
  {| world := snd (gw_symbol_select T symbol true (snd (gw_get_symbols T symbol w)));
     calls := [CGetSymbols symbol; CSymbolSelect symbol true] |}.

(** No request was submitted during a run. *)
Definition no_submission (st : St T) : Prop :=
  existsb is_order_send (calls st) = false.

(** A run ended in the non-success outcome with message [msg] and no
    request was submitted. *)
Definition rejected_with (msg : string) (r : res Outcome * St T) : Prop :=
  fst r = Ret (reply false msg) /\ no_submission (snd r).

(** No close operation raises: each returns its success flag. *)
Definition closes_return : Prop :=
  forall (i : Z) (w : World T), exists b, fst (gw_close_position T i w) = Ret b.

(** Number of closes that report success when the tickets [ids] are
    closed one after the other from the world [w]. *)
Fixpoint successful_closes (ids : list Z) (w : World T) : nat :=
  match ids with
  | [] => 0%nat
  | i :: rest =>
      ((match fst (gw_close_position T i w) with
        | Ret true => 1
        | _ => 0
        end) + successful_closes rest (snd (gw_close_position T i w)))%nat
  end.

(** The symbol pre-check of a ticket query stops the call: a non-empty
    symbol name that does not resolve to exactly one instrument. *)
Definition symbol_stops (symbol_name : option string) (w : World T) : bool :=
  match symbol_name with
  | Some s =>
      negb (String.eqb s "") &&
      negb (length (fst (gw_get_symbols T s w)) =? 1)%nat
  | None => false
  end.

(** The world in which the group pre-check runs. *)
Definition world_after_symbol (symbol_name : option string) (w : World T)
  : World T :=
  match symbol_name with
  | Some s => if String.eqb s "" then w else snd (gw_get_symbols T s w)
  | None => w
  end.

(** The group pre-check stops the call: a non-empty group that resolves
    to no instrument. *)
Definition group_stops (group : option string) (w : World T) : bool :=
  match group with
  | Some g =>
      negb (String.eqb g "") &&
      (length (fst (gw_get_symbols T g w)) =? 0)%nat
  | None => false
  end.

(** The position queries among the calls of a run. *)
Definition position_queries (st : St T) : list Call :=
  filter is_positions_get (calls st).

End Vocabulary.

(** The integer a ticket stands for, when it has one. *)
Definition ticket_number (int_of_str : string -> option Z) (t : Ticket)
  : option Z :=
  match t with
  | TInt n => Some n
  | TStr s => int_of_str s
  end.

(** The summary for [n] closed positions. *)
Definition closed_summary (n : nat) : Summary :=
  {| error := false;
     summary_message :=
       "Close " ++ str_of_int (Z.of_nat n) ++ " profittable positions success" |}.

(** Volume within (0, 100]. *)
Definition volume_in_range (v : Q) : Prop := (0 < v /\ v <= 100)%Q.

(** The stop/target ordering that lets control pass line 136: below and
    above the price for the buy side, mirrored for the sell side, and no
    constraint for the other order types. *)
Definition levels_valid (o : OrderType) (price stop_loss take_profit : Q) : Prop :=
  (In o buy_side -> (stop_loss < price /\ price < take_profit)%Q) /\
  (In o sell_side -> (price < stop_loss /\ take_profit < price)%Q).

(** The buy-side violations named by the specification. *)
Definition buy_violation (price stop_loss take_profit : Q) : Prop :=
  (price <= stop_loss \/ take_profit <= price \/ take_profit < stop_loss)%Q.

(** Price against the market for a pending order: a buy limit above the
    ask, a sell limit below the bid, a buy stop below the ask, a sell stop
    above the bid. *)
Definition market_violation (o : OrderType) (price : Q) (tick : Tick) : Prop :=
  match o with
  | BUY_LIMIT => (ask tick < price)%Q
  | SELL_LIMIT => (price < bid tick)%Q
  | BUY_STOP => (price < ask tick)%Q
  | SELL_STOP => (bid tick < price)%Q
  | _ => False
  end.

(** The message of a market violation: it names the ask for the buy
    orders and the bid for the sell orders. *)
Definition market_message (o : OrderType) : string :=
  match o with
  | BUY_LIMIT | BUY_STOP => "Invalid price, must be above current ask"
  | _ => "Invalid price, must be below current bid"
  end.

Definition pending_types : list OrderType :=
  [BUY_LIMIT; SELL_LIMIT; BUY_STOP; SELL_STOP].

(** [comment if comment else "MCP"]. *)
Definition effective_comment (comment : string) : string :=
  if negb (String.eqb comment "") then comment else "MCP".

(* ====================================================================== *)
(** ** Timeframe lookup: [TimeframeClass] (types.py) *)

(** The constants [mt5.TIMEFRAME_*] of the MetaTrader5 package, kept
    symbolic. *)
Inductive TimeframeConst : Type :=
| TIMEFRAME_M1 | TIMEFRAME_M2 | TIMEFRAME_M3 | TIMEFRAME_M4 | TIMEFRAME_M5
| TIMEFRAME_M6 | TIMEFRAME_M10 | TIMEFRAME_M12 | TIMEFRAME_M15
| TIMEFRAME_M20 | TIMEFRAME_M30
| TIMEFRAME_H1 | TIMEFRAME_H2 | TIMEFRAME_H3 | TIMEFRAME_H4 | TIMEFRAME_H6
| TIMEFRAME_H8 | TIMEFRAME_H12
| TIMEFRAME_D1 | TIMEFRAME_W1 | TIMEFRAME_MN1.

(** The dictionary [_timeframes], types.py lines 19-41. *)
Definition _timeframes : list (string * TimeframeConst) :=
  [("M1", TIMEFRAME_M1); ("M2", TIMEFRAME_M2); ("M3", TIMEFRAME_M3);
   ("M4", TIMEFRAME_M4); ("M5", TIMEFRAME_M5); ("M6", TIMEFRAME_M6);
   ("M10", TIMEFRAME_M10); ("M12", TIMEFRAME_M12); ("M15", TIMEFRAME_M15);
   ("M20", TIMEFRAME_M20); ("M30", TIMEFRAME_M30);
   ("H1", TIMEFRAME_H1); ("H2", TIMEFRAME_H2); ("H3", TIMEFRAME_H3);
   ("H4", TIMEFRAME_H4); ("H6", TIMEFRAME_H6); ("H8", TIMEFRAME_H8);
   ("H12", TIMEFRAME_H12);
   ("D1", TIMEFRAME_D1); ("W1", TIMEFRAME_W1); ("MN1", TIMEFRAME_MN1)].

(** [self._timeframes[k]] guarded by [k in self._timeframes]. *)
Definition timeframes_lookup (k : string) : option TimeframeConst :=
  match find (fun e => String.eqb (fst e) k) _timeframes with
  | Some e => Some (snd e)
  | None => None
  end.

(** [TimeframeClass.__getitem__], types.py lines 43-60. The [KeyError]
    carries the key it was raised for. *)
Definition Timeframe_getitem (key : pyval) : res TimeframeConst :=
  match key with
  | VStr s =>
      match timeframes_lookup (upper s) with
      | Some c => Ret c
      | None => Raise (KeyError key)
      end
  | _ => Raise (KeyError key)
  end.

(** [TimeframeClass.get], types.py lines 62-76: the constant, or the
    default when [self[key]] raises [KeyError]. *)
Definition Timeframe_get (key default : pyval) : res (TimeframeConst + pyval) :=
  match Timeframe_getitem key with
  | Ret c => Ret (inl c)
  | Raise (KeyError _) => Ret (inr default)
  | Raise e => Raise e
  end.

(* ====================================================================== *)
(** ** Deal history: history/get_deals.py *)

Module History.

(** A deal of the terminal; [deal._asdict()] keeps its fields. *)
Record Deal : Type := {
  deal_ticket : Z;
  deal_position : Z;
  deal_symbol : string;
  deal_profit : Q
}.

(** The exceptions of [..exceptions] that [get_deals] raises, with their
    constructor arguments. *)
Inductive history_exn : Type :=
| ConnectionError (msg : string)
| DealsHistoryError (msg : string) (code : Z).

Inductive hres (A : Type) : Type :=
| HRet (a : A)
| HRaise (e : history_exn).
Arguments HRet {A} a.
Arguments HRaise {A} e.

(** Arguments of [mt5.history_deals_get]; times are seconds. *)
Inductive Query : Type :=
| QTicket (ticket : Z)
| QPosition (position : Z)
| QRange (from_date to_date : Z) (group : option string).

(** What [mt5.history_deals_get] does: it raises an exception [e] (kept
    as [str(e)]), returns [None], or returns the deals. *)
Inductive Response : Type :=
| Failed (text : string)
| NoResult
| Deals (deals : list Deal).

Inductive HCall : Type :=
| CIsConnected
| CNow
| CHistoryDealsGet (q : Query)
| CHistoryLastError.

(** The connection, the clock and the terminal as [get_deals] sees
    them. *)
Record Gateway : Type := {
  HWorld : Type;
  gw_is_connected : HWorld -> bool * HWorld;
  gw_now : HWorld -> Z * HWorld;
  gw_history_deals_get : Query -> HWorld -> Response * HWorld;
  gw_history_last_error : HWorld -> (Z * string) * HWorld
}.

(** [timedelta(days=30)] in seconds. *)
Definition thirty_days : Z := 30 * 86400.

Section GetDeals.

Context {G : Gateway}.

Record HSt : Type := { hworld : HWorld G; hcalls : list HCall }.

Definition HM (A : Type) : Type := HSt -> hres A * HSt.

Definition hret {A} (a : A) : HM A := fun st => (HRet a, st).

Definition hraise {A} (e : history_exn) : HM A := fun st => (HRaise e, st).

Definition hbind {A B} (m : HM A) (k : A -> HM B) : HM B :=
  fun st =>
    match m st with
    | (HRet a, st') => k a st'
    | (HRaise e, st') => (HRaise e, st')
    end.

Definition hperform {A} (c : HCall) (f : HWorld G -> A * HWorld G) : HM A :=
  fun st =>
    let r := f (hworld st) in
    (HRet (fst r), {| hworld := snd r; hcalls := hcalls st ++ [c] |}).

Definition is_connected : HM bool := hperform CIsConnected (gw_is_connected G).

Definition now : HM Z := hperform CNow (gw_now G).

Definition history_deals_get (q : Query) : HM Response :=
  hperform (CHistoryDealsGet q) (gw_history_deals_get G q).

Definition history_last_error : HM (Z * string) :=
  hperform CHistoryLastError (gw_history_last_error G).

(** Lines 30-45: the body of the [try]. Only [mt5.history_deals_get] can
    raise there; its exception is the [Failed] response. *)
Definition fetch_deals (from_date to_date : option Z) (group : option string)
    (ticket position : option Z) : HM Response :=
  match ticket with
  | Some t => history_deals_get (QTicket t)
  | None =>
      match position with
      | Some p => history_deals_get (QPosition p)
      | None =>
          hbind (match from_date with
                 | Some f => hret f
                 | None => hbind now (fun n => hret (n - thirty_days))
                 end) (fun from_date =>
          hbind (match to_date with
                 | Some t => hret t
                 | None => now
                 end) (fun to_date =>
          history_deals_get (QRange from_date to_date group)))
      end
  end.

(** [get_deals], get_deals.py lines 14-65. [mt5.last_error()] returns a
    pair, so the tests of lines 48 and 50 hold and [error_code] is its
    first component; the logger calls are not modelled. *)
Definition get_deals (from_date to_date : option Z) (group : option string)
    (ticket position : option Z) : HM (list Deal) :=
  hbind is_connected (fun connected =>
  if negb connected
  then hraise (ConnectionError "Not connected to MetaTrader 5 terminal.")
  else
  hbind (fetch_deals from_date to_date group ticket position) (fun deals =>
  match deals with
  | Failed text =>
      hbind history_last_error (fun error =>
      hraise (DealsHistoryError
                ("Failed to retrieve deals history: " ++ text) (fst error)))
  | NoResult =>
      hbind history_last_error (fun error =>
      hraise (DealsHistoryError
                ("Failed to retrieve deals history: " ++ snd error) (fst error)))
  | Deals ds =>
      if (length ds =? 0)%nat then hret [] else hret (map (fun d => d) ds)
  end)).

Definition hstart (w : HWorld G) : HSt := {| hworld := w; hcalls := [] |}.

(** The history queries among the calls of a run. *)
Definition history_queries (st : HSt) : list HCall :=
  filter (fun c => match c with CHistoryDealsGet _ => true | _ => false end)
         (hcalls st).

(** The query a connected call issues and the world it is issued in,
    from the world [w] after the connection test: the bounds that are not
    given are read from the clock, the lower one first. *)
Definition issued_query (from_date to_date : option Z) (group : option string)
    (ticket position : option Z) (w : HWorld G) : Query * HWorld G :=
  match ticket, position with
  | Some t, _ => (QTicket t, w)
  | None, Some p => (QPosition p, w)
  | None, None =>
      let lower := match from_date with
                   | Some f => (f, w)
                   | None => (fst (gw_now G w) - thirty_days, snd (gw_now G w))
                   end in
      let upper := match to_date with
                   | Some t => (t, snd lower)
                   | None => (fst (gw_now G (snd lower)),
                              snd (gw_now G (snd lower)))
                   end in
      (QRange (fst lower) (fst upper) group, snd upper)
  end.

(** The clock readings of a connected call. *)
Definition clock_reads (from_date to_date ticket position : option Z)
  : list HCall :=
  match ticket, position with
  | None, None =>
      (match from_date with Some _ => [] | None => [CNow] end)
      ++ (match to_date with Some _ => [] | None => [CNow] end)
  | _, _ => []
  end.

End GetDeals.

Arguments HSt G : clear implicits.
Arguments HM G A : clear implicits.

(** A gateway for evaluation: its world is the connection flag, the
    clock (which advances by one second per reading), the response to
    every query and the last-error pair. *)
Record SimHistory : Type := {
  sh_connected : bool;
  sh_clock : Z;
  sh_response : Response;
  sh_error : Z * string
}.

Definition sim_gateway : Gateway := {|
  HWorld := SimHistory;
  gw_is_connected := fun w => (sh_connected w, w);
  gw_now := fun w =>
    (sh_clock w,
     {| sh_connected := sh_connected w; sh_clock := sh_clock w + 1;
        sh_response := sh_response w; sh_error := sh_error w |});
  gw_history_deals_get := fun _ w => (sh_response w, w);
  gw_history_last_error := fun w => (sh_error w, w)
|}.

Definition sim_deal : Deal :=
  {| deal_ticket := 9001; deal_position := 123; deal_symbol := "XAUUSD";
     deal_profit := 12.5 |}.

Definition sim_history (connected : bool) (response : Response) : SimHistory :=
  {| sh_connected := connected; sh_clock := 5000000;
     sh_response := response; sh_error := (-10004, "No connection") |}.

End History.

(* ====================================================================== *)
(** ** Further terminals for evaluation *)

(** [sim] with a terminal that refuses to activate symbols. *)
Definition sim_inactive : Terminal := {|
  World := SimWorld;
  gw_get_symbols := gw_get_symbols sim;
  gw_symbol_select := fun _ _ w => (false, w);
  gw_symbol_info_tick := gw_symbol_info_tick sim;
  gw_order_send := gw_order_send sim;
  gw_last_error := gw_last_error sim;
  gw_positions_get := gw_positions_get sim;
  gw_get_all_positions := gw_get_all_positions sim;
  gw_close_position := gw_close_position sim
|}.

(** [sim] with a terminal that returns no position collection. *)
Definition sim_silent : Terminal := {|
  World := SimWorld;
  gw_get_symbols := gw_get_symbols sim;
  gw_symbol_select := gw_symbol_select sim;
  gw_symbol_info_tick := gw_symbol_info_tick sim;
  gw_order_send := gw_order_send sim;
  gw_last_error := gw_last_error sim;
  gw_positions_get := fun _ w => (None, w);
  gw_get_all_positions := gw_get_all_positions sim;
  gw_close_position := gw_close_position sim
|}.

(** [sim] in which closing ticket 123 raises and every other close
    succeeds. *)
Definition sim_raising : Terminal := {|
  World := SimWorld;
  gw_get_symbols := gw_get_symbols sim;
  gw_symbol_select := gw_symbol_select sim;
  gw_symbol_info_tick := gw_symbol_info_tick sim;
  gw_order_send := gw_order_send sim;
  gw_last_error := gw_last_error sim;
  gw_positions_get := gw_positions_get sim;
  gw_get_all_positions := gw_get_all_positions sim;
  gw_close_position := fun i w =>
    (if i =? 123 then Raise ValueError else Ret true, w)
|}.

(** [sim_world] with a negative last-error code. *)
Definition sim_world_error : SimWorld := {|
  sim_symbols := sim_symbols sim_world;
  sim_quote := sim_quote sim_world;
  sim_error := (-2, "Invalid params");
  sim_positions := sim_positions sim_world;
  sim_failing := sim_failing sim_world;
  sim_sent := []
|}.

(** A world whose second profitable position is ticket 123. *)
Definition sim_world_late : SimWorld := {|
  sim_symbols := sim_symbols sim_world;
  sim_quote := sim_quote sim_world;
  sim_error := sim_error sim_world;
  sim_positions :=
    [ {| raw_ticket := 125; raw_symbol := "XAUUSD"; raw_type := 1; raw_profit := 0 |};
      {| raw_ticket := 124; raw_symbol := "EURUSD"; raw_type := 1; raw_profit := -3 |};
      {| raw_ticket := 123; raw_symbol := "XAUUSD"; raw_type := 0; raw_profit := 12.5 |};
      {| raw_ticket := 126; raw_symbol := "EURUSD"; raw_type := 0; raw_profit := 1 |} ];
  sim_failing := [];
  sim_sent := []
|}.

(* ====================================================================== *)
(** ** Further vocabulary *)

Section FurtherVocabulary.

Context {T : Terminal}.

(** The state after the symbol lookup alone. *)
Definition looked_up (symbol : string) (w : World T) : St T :=
  {| world := snd (gw_get_symbols T symbol w);
     calls := [CGetSymbols symbol] |}.

(** The requests submitted during a run. *)
Definition submissions (st : St T) : list Call :=
  filter is_order_send (calls st).

(** The filter a query without ticket uses. *)
Definition filter_of (symbol_name group : option string) : PosFilter :=
  match symbol_name, group with
  | Some s, _ => BySymbol s
  | None, Some g => ByGroup g
  | None, None => NoFilter
  end.

(** Lines 87-109 for one filter: the query and the projection of its
    answer (the local [fetch] of [_getPositions]). *)
Definition fetch_positions (order_type : option pyval) (f : PosFilter)
  : M T DataFrame :=
  positions <- positions_get f ;;
  match positions with
  | Some ps => lift (filter_by_type order_type (convert_positions_to_dataframe ps))
  | None => ret []
  end.

End FurtherVocabulary.



(* ====================================================================== *)
(** ** [OrderType.to_code] on values that are not in [pyval] *)

Module PyObject.

(** The values of [pyval] together with [bytes] and [bytearray], the
    builtin types other than [str] that have an [upper] method. *)
Inductive pyobj : Type :=
| OVal (v : pyval)
| OBytes (b : string)
| OByteArray (b : string).

(** [name.upper()]: [bytes.upper] and [bytearray.upper] return a value of
    their own type. *)
Definition call_upper (x : pyobj) : res pyobj :=
  match x with
  | OVal (VStr s) => Ret (OVal (VStr (upper s)))
  | OVal _ => Raise (AttributeError "upper")
  | OBytes b => Ret (OBytes (upper b))
  | OByteArray b => Ret (OByteArray (upper b))
  end.

(** [cls[key]] is a dictionary lookup in the member map: a [bytearray]
    cannot be hashed, a [bytes] value equals no member name (the
    [KeyError] records the text of the bytes; the handler does not read
    it). *)
Definition OrderType_getitem (key : pyobj) : res OrderType :=
  match key with
  | OVal v => OrderType_getitem v
  | OBytes b => Raise (KeyError (VStr b))
  | OByteArray _ => Raise (TypeError "unhashable type: 'bytearray'")
  end.

(** [OrderType.to_code(name, default=None)], types.py lines 130-145. *)
Definition to_code_try (name : pyobj) : res pyval :=
  match call_upper name with
  | Raise e => Raise e
  | Ret k =>
      match OrderType_getitem k with
      | Raise e => Raise e
      | Ret o => Ret (VInt (OrderType_value o))
      end
  end.

Definition to_code (name : pyobj) (default : pyval) : res pyval :=
  match to_code_try name with
  | Ret v => Ret v
  | Raise (KeyError _) => Ret default
  | Raise (AttributeError _) => Ret default
  | Raise e => Raise e
  end.

End PyObject.


(* ====================================================================== *)
(** ** [send_order] on Python floats and on the values [float()] takes *)

Module PyFloat.

(** A Python float: a finite number, an infinity, or NaN. *)
Inductive num : Type :=
| Fin (q : Q)
| PInf
| NInf
| NaN.

(** [a <= b] and [a < b] on floats: every comparison with NaN is
    false. *)
Definition le (a b : num) : bool :=
  match a, b with
  | NaN, _ => false
  | _, NaN => false
  | NInf, _ => true
  | _, PInf => true
  | Fin x, Fin y => Qle_bool x y
  | _, _ => false
  end.

Definition lt (a b : num) : bool :=
  match a, b with
  | NaN, _ => false
  | _, NaN => false
  | Fin x, Fin y => Qlt_bool x y
  | NInf, NInf => false
  | PInf, PInf => false
  | NInf, _ => true
  | _, PInf => true
  | _, _ => false
  end.

Definition ge (a b : num) : bool := le b a.
Definition gt (a b : num) : bool := lt b a.

(** A value passed for [volume], [price], [stop_loss] or [take_profit]:
    a float, the annotated type, or an int, a bool, a str or None. *)
Inductive arg : Type :=
| AFloat (x : num)
| AInt (z : Z)
| ABool (b : bool)
| AStr (s : string)
| ANone.

Definition type_name (a : arg) : string :=
  match a with
  | AFloat _ => "float"
  | AInt _ => "int"
  | ABool _ => "bool"
  | AStr _ => "str"
  | ANone => "NoneType"
  end.

(** The number a float, an int or a bool is compared as; ints compare
    exactly. A str and None are not ordered against a number. *)
Definition number (a : arg) : option num :=
  match a with
  | AFloat x => Some x
  | AInt z => Some (Fin (inject_Z z))
  | ABool b => Some (Fin (if b then 1 else 0))
  | AStr _ | ANone => None
  end.

(** [a <= n] and [a > n] for an int literal [n]. *)
Definition arg_le (a : arg) (n : num) : res bool :=
  match number a with
  | Some x => Ret (le x n)
  | None =>
      Raise (TypeError ("'<=' not supported between instances of '"
                        ++ type_name a ++ "' and 'int'"))
  end.

Definition arg_gt (a : arg) (n : num) : res bool :=
  match number a with
  | Some x => Ret (gt x n)
  | None =>
      Raise (TypeError ("'>' not supported between instances of '"
                        ++ type_name a ++ "' and 'int'"))
  end.

(** [volume <= 0 or volume > 100], send_order.py line 107: the second
    comparison is made when the first is false. *)
Definition volume_test (volume : arg) : res bool :=
  match arg_le volume (Fin 0) with
  | Raise e => Raise e
  | Ret true => Ret true
  | Ret false => arg_gt volume (Fin 100)
  end.

Record Tick : Type := { bid : num; ask : num }.

Record TradeRequest : Type := {
  req_action : TradeRequestActions;
  req_symbol : string;
  req_volume : num;
  req_type : OrderType;
  req_price : num;
  req_sl : num;
  req_tp : num;
  req_deviation : Z;
  req_comment : string;
  req_type_filling : Z;
  req_type_time : option Z;
  req_expiration : option Expiration
}.

Inductive Call : Type :=
| CGetSymbols (pattern : string)
| CSymbolSelect (symbol : string) (enable : bool)
| CSymbolInfoTick (symbol : string)
| COrderSend (request : TradeRequest)
| CLastError.

(** The part of the terminal that [send_order] talks to. *)
Record Terminal : Type := {
  World : Type;
  gw_get_symbols : string -> World -> list string * World;
  gw_symbol_select : string -> bool -> World -> bool * World;
  gw_symbol_info_tick : string -> World -> option Tick * World;
  gw_order_send : TradeRequest -> World -> World;
  gw_last_error : World -> (Z * string) * World
}.

Section Client.

Context {T : Terminal}.

Record St : Type := { world : World T; calls : list Call }.

Definition M (A : Type) : Type := St -> res A * St.

Definition ret {A} (a : A) : M A := fun st => (Ret a, st).

Definition raise {A} (e : exn) : M A := fun st => (Raise e, st).

Definition bind {A B} (m : M A) (k : A -> M B) : M B :=
  fun st =>
    match m st with
    | (Ret a, st') => k a st'
    | (Raise e, st') => (Raise e, st')
    end.

Definition lift {A} (r : res A) : M A := fun st => (r, st).

Definition perform {A} (c : Call) (f : World T -> A * World T) : M A :=
  fun st =>
    let r := f (world st) in
    (Ret (fst r), {| world := snd r; calls := calls st ++ [c] |}).

Definition get_symbols (pattern : string) : M (list string) :=
  perform (CGetSymbols pattern) (gw_get_symbols T pattern).

Definition symbol_select (symbol : string) (enable : bool) : M bool :=
  perform (CSymbolSelect symbol enable) (gw_symbol_select T symbol enable).

Definition symbol_info_tick (symbol : string) : M (option Tick) :=
  perform (CSymbolInfoTick symbol) (gw_symbol_info_tick T symbol).

Definition order_send (request : TradeRequest) : M unit :=
  perform (COrderSend request) (fun w => (tt, gw_order_send T request w)).

Definition last_error : M (Z * string) :=
  perform CLastError (gw_last_error T).

Definition unbound_name {A} (name : string) : M A := raise (NameError name).

(** send_order.py lines 122-136. *)
Definition sl_tp_check (order_type : OrderType) (price stop_loss take_profit : num)
  : option string :=
  if member_of order_type buy_side then
    if ge stop_loss price then Some "Stop loss must be below the price"
    else if le take_profit price then Some "Take profit must be above the price"
    else if gt stop_loss take_profit then Some "Stop loss must be below the take profit"
    else None
  else if member_of order_type sell_side then
    if le stop_loss price then Some "Stop loss must be above the price"
    else if ge take_profit price then Some "Take profit must be below the price"
    else if lt stop_loss take_profit then Some "Stop loss must be above the take profit"
    else None
  else None.

(** send_order.py lines 185-197. *)
Definition pending_price_check (order_type : OrderType) (price : num) (tick : Tick)
  : option string :=
  match order_type with
  | BUY_LIMIT =>
      if gt price (ask tick)
      then Some "Invalid price, must be above current ask" else None
  | SELL_LIMIT =>
      if lt price (bid tick)
      then Some "Invalid price, must be below current bid" else None
  | BUY_STOP =>
      if lt price (ask tick)
      then Some "Invalid price, must be above current ask" else None
  | SELL_STOP =>
      if gt price (bid tick)
      then Some "Invalid price, must be below current bid" else None
  | _ => None
  end.

(** The request of lines 151-162. *)
Definition deal_request (action : TradeRequestActions) (symbol : string)
    (volume : num) (order_type : OrderType) (price : num) (comment : string)
    (sl tp : num) : TradeRequest :=
  {| req_action := action; req_symbol := symbol; req_volume := volume;
     req_type := order_type; req_price := price; req_sl := sl; req_tp := tp;
     req_deviation := 20; req_comment := comment;
     req_type_filling := 0 (* mt5.ORDER_FILLING_FOK *);
     req_type_time := None; req_expiration := None |}.

(** The request of lines 199-212. *)
Definition pending_request (action : TradeRequestActions) (symbol : string)
    (volume : num) (order_type : OrderType) (price stop_loss take_profit : num)
    (deviation : Z) (comment : string) (expiration : option Z) : TradeRequest :=
  {| req_action := action; req_symbol := symbol; req_volume := volume;
     req_type := order_type; req_price := price;
     req_sl := stop_loss; req_tp := take_profit;
     req_deviation := deviation; req_comment := comment;
     req_type_filling := OrderFilling_FOK;
     req_type_time :=
       Some (match expiration with
             | Some _ => OrderTime_SPECIFIED | None => OrderTime_GTC end);
     req_expiration :=
       Some (match expiration with
             | Some t => ExpAt t | None => ExpZero end) |}.

(** send_order.py lines 141-283. *)
Definition dispatch (action : TradeRequestActions) (order_type : OrderType)
    (symbol : string) (volume price stop_loss take_profit : num) (deviation : Z)
    (comment : string) (expiration : option Z) : M Outcome :=
  match action with
  | DEAL =>
      if negb (member_of order_type [BUY; SELL])
      then ret (reply false "Invalid order type, must be BUY or SELL") else
      bind (unbound_name "sl") (fun sl =>
      bind (unbound_name "tp") (fun tp =>
      bind (order_send (deal_request action symbol volume order_type price
                          comment sl tp)) (fun _ =>
      bind last_error (fun err =>
      ret (outcome_of_last_error err)))))
  | PENDING =>
      if negb (member_of order_type [BUY_LIMIT; SELL_LIMIT; BUY_STOP; SELL_STOP])
      then ret (reply false
        "Invalid order type, must be BUY_LIMIT, SELL_LIMIT, BUY_STOP, or SELL_STOP")
      else
      bind (symbol_info_tick symbol) (fun tick =>
      match match tick with
            | Some tk => pending_price_check order_type price tk
            | None => None
            end with
      | Some msg => ret (reply false msg)
      | None =>
          bind (order_send (pending_request action symbol volume order_type
                              price stop_loss take_profit deviation comment
                              expiration)) (fun _ =>
          bind last_error (fun err =>
          ret (outcome_of_last_error err)))
      end)
  | SLTP | MODIFY | ACT_CLOSE_BY | REMOVE => ret unknown_error
  end.

(** The builtin [float] on an int and on a str: an int can be too large
    for a float ([OverflowError]), a str need not be the text of a number
    ([ValueError]). *)
Variable float_of_int : Z -> option num.
Variable float_of_str : string -> option num.

(** [float(x)], send_order.py lines 110-119. *)
Definition float_ (x : arg) : res num :=
  match x with
  | AFloat f => Ret f
  | AInt z =>
      match float_of_int z with
      | Some f => Ret f
      | None => Raise OverflowError
      end
  | ABool b => Ret (Fin (if b then 1 else 0))
  | AStr s =>
      match float_of_str s with
      | Some f => Ret f
      | None => Raise ValueError
      end
  | ANone =>
      Raise (TypeError
        "float() argument must be a string or a real number, not 'NoneType'")
  end.

(** send_order.py lines 122-283, on the converted numbers. *)
Definition checks_and_dispatch (action : TradeRequestActions)
    (order_type : OrderType) (symbol : string)
    (volume price stop_loss take_profit : num) (deviation : Z)
    (comment : string) (expiration : option Z) : M Outcome :=
  match sl_tp_check order_type price stop_loss take_profit with
  | Some msg => ret (reply false msg)
  | None =>
      dispatch action order_type symbol volume price stop_loss take_profit
        deviation (if negb (String.eqb comment "") then comment else "MCP")
        expiration
  end.

(** send_order.py lines 106-283: the volume test, the four conversions
    (after which the [isinstance] tests of lines 114 and 120 hold) and
    the rest. *)
Definition validate_numbers (action : TradeRequestActions)
    (order_type : OrderType) (symbol : string)
    (volume price stop_loss take_profit : arg) (deviation : Z)
    (comment : string) (expiration : option Z) : M Outcome :=
  bind (lift (volume_test volume)) (fun invalid =>
  if invalid then ret (reply false "Invalid volume") else
  bind (lift (float_ volume)) (fun volume =>
  bind (lift (float_ price)) (fun price =>
  bind (lift (float_ stop_loss)) (fun stop_loss =>
  bind (lift (float_ take_profit)) (fun take_profit =>
  checks_and_dispatch action order_type symbol volume price stop_loss
    take_profit deviation comment expiration))))).

(** [send_order], send_order.py lines 24-283, with [volume], [price],
    [stop_loss] and [take_profit] a float or another value that [float()]
    is applied to. *)
Definition send_order (action order_type : pyval) (symbol : string)
    (volume price stop_loss take_profit : arg) (deviation : Z)
    (comment : string) (expiration : option Z) : M Outcome :=
  bind (lift (Action_validate action)) (fun action =>
  bind (lift (OrderType_validate order_type)) (fun order_type =>
  bind (get_symbols symbol) (fun symbols =>
  if (length symbols =? 0)%nat then ret (reply false "Invalid symbol") else
  bind (symbol_select symbol true) (fun selected =>
  if negb selected then ret (reply false ("Failed to select " ++ symbol)) else
  validate_numbers action order_type symbol volume price stop_loss
    take_profit deviation comment expiration)))).

Definition start (w : World T) : St := {| world := w; calls := [] |}.

Definition is_order_send (c : Call) : bool :=
  match c with COrderSend _ => true | _ => false end.

(** Vocabulary, as for the model on finite numbers. *)
Definition symbol_ok (symbol : string) (w : World T) : Prop :=
  fst (gw_get_symbols T symbol w) <> [] /\
  fst (gw_symbol_select T symbol true (snd (gw_get_symbols T symbol w))) = true.

Definition checked (symbol : string) (w : World T) : St :=
  {| world := snd (gw_symbol_select T symbol true (snd (gw_get_symbols T symbol w)));
     calls := [CGetSymbols symbol; CSymbolSelect symbol true] |}.

Definition looked_up (symbol : string) (w : World T) : St :=
  {| world := snd (gw_get_symbols T symbol w);
     calls := [CGetSymbols symbol] |}.

Definition submissions (st : St) : list Call :=
  filter is_order_send (calls st).

Definition rejected_with (msg : string) (r : res Outcome * St) : Prop :=
  fst r = Ret (reply false msg) /\ submissions (snd r) = [].

End Client.

Arguments St T : clear implicits.
Arguments M T A : clear implicits.

(** A volume that is not rejected at line 107: NaN, or a number in
    (0, 100]. *)
Definition volume_passes (v : num) : Prop :=
  v = NaN \/ exists q, v = Fin q /\ volume_in_range q.

(** The errors of the comparisons of line 107 and of [float()]. *)
Definition conversion_error (e : exn) : Prop :=
  (exists m, e = TypeError m) \/ e = ValueError \/ e = OverflowError.

Definition is_float (x : arg) : Prop := exists f, x = AFloat f.

(** The levels that pass lines 122-136: every comparison made for the
    order's side is false. *)
Definition levels_pass (o : OrderType) (price stop_loss take_profit : num)
  : Prop :=
  (In o buy_side ->
   ge stop_loss price = false /\ le take_profit price = false /\
   gt stop_loss take_profit = false) /\
  (In o sell_side ->
   le stop_loss price = false /\ ge take_profit price = false /\
   lt stop_loss take_profit = false).

(** The messages [send_order] returns without an error code. *)
Definition fixed_messages (symbol : string) : list string :=
  ["Invalid symbol"; "Failed to select " ++ symbol; "Invalid volume";
   "Stop loss must be below the price"; "Take profit must be above the price";
   "Stop loss must be below the take profit";
   "Stop loss must be above the price"; "Take profit must be below the price";
   "Stop loss must be above the take profit";
   "Invalid order type, must be BUY or SELL";
   "Invalid order type, must be BUY_LIMIT, SELL_LIMIT, BUY_STOP, or SELL_STOP";
   "Invalid price, must be above current ask";
   "Invalid price, must be below current bid"].

(** A terminal for evaluation: the known symbols, one quote for every
    symbol and the last-error pair; it keeps what was sent. *)
Record SimWorld : Type := {
  sim_symbols : list string;
  sim_quote : option Tick;
  sim_error : Z * string;
  sim_sent : list TradeRequest
}.

Definition sim : Terminal := {|
  World := SimWorld;
  gw_get_symbols := fun p w =>
    (if existsb (String.eqb p) (sim_symbols w) then [p] else [], w);
  gw_symbol_select := fun s _ w => (existsb (String.eqb s) (sim_symbols w), w);
  gw_symbol_info_tick := fun _ w => (sim_quote w, w);
  gw_order_send := fun r w =>
    {| sim_symbols := sim_symbols w; sim_quote := sim_quote w;
       sim_error := sim_error w; sim_sent := sim_sent w ++ [r] |};
  gw_last_error := fun w => (sim_error w, w)
|}.

Definition sim_world : SimWorld := {|
  sim_symbols := ["XAUUSD"; "EURUSD"];
  sim_quote := Some {| bid := Fin 3990; ask := Fin 3991 |};
  sim_error := (1, "Success");
  sim_sent := []
|}.

(** For evaluation: [float] on an int, exact on the small ints of the
    examples, and on the three spellings of the values that are not
    finite. *)
Definition sim_float_of_int (z : Z) : option num := Some (Fin (inject_Z z)).

Definition sim_float_of_str (s : string) : option num :=
  if String.eqb s "nan" then Some NaN
  else if String.eqb s "inf" then Some PInf
  else if String.eqb s "-inf" then Some NInf
  else None.

End PyFloat.

(* ====================================================================== *)
(** ** The model on finite numbers inside the model on floats *)

Definition embed_tick (tk : Tick) : PyFloat.Tick :=
  {| PyFloat.bid := PyFloat.Fin (bid tk); PyFloat.ask := PyFloat.Fin (ask tk) |}.

Definition embed_request (r : TradeRequest) : PyFloat.TradeRequest :=
  {| PyFloat.req_action := req_action r;
     PyFloat.req_symbol := req_symbol r;
     PyFloat.req_volume := PyFloat.Fin (req_volume r);
     PyFloat.req_type := req_type r;
     PyFloat.req_price := PyFloat.Fin (req_price r);
     PyFloat.req_sl := PyFloat.Fin (req_sl r);
     PyFloat.req_tp := PyFloat.Fin (req_tp r);
     PyFloat.req_deviation := req_deviation r;
     PyFloat.req_comment := req_comment r;
     PyFloat.req_type_filling := req_type_filling r;
     PyFloat.req_type_time := req_type_time r;
     PyFloat.req_expiration := req_expiration r |}.

(** The request on finite numbers that a float request stands for, when
    all its numbers are finite. *)
Definition finite_request (r : PyFloat.TradeRequest) : option TradeRequest :=
  match PyFloat.req_volume r, PyFloat.req_price r,
        PyFloat.req_sl r, PyFloat.req_tp r with
  | PyFloat.Fin v, PyFloat.Fin p, PyFloat.Fin s, PyFloat.Fin t =>
      Some {| req_action := PyFloat.req_action r;
              req_symbol := PyFloat.req_symbol r;
              req_volume := v;
              req_type := PyFloat.req_type r;
              req_price := p; req_sl := s; req_tp := t;
              req_deviation := PyFloat.req_deviation r;
              req_comment := PyFloat.req_comment r;
              req_type_filling := PyFloat.req_type_filling r;
              req_type_time := PyFloat.req_type_time r;
              req_expiration := PyFloat.req_expiration r |}
  | _, _, _, _ => None
  end.

(** A terminal of the model on finite numbers seen as a float terminal:
    its quotes are finite, and it ignores a request with a number that is
    not finite. *)
Definition embed (T : Terminal) : PyFloat.Terminal :=
  {| PyFloat.World := World T;
     PyFloat.gw_get_symbols := gw_get_symbols T;
     PyFloat.gw_symbol_select := gw_symbol_select T;
     PyFloat.gw_symbol_info_tick := fun s w =>
       (option_map embed_tick (fst (gw_symbol_info_tick T s w)),
        snd (gw_symbol_info_tick T s w));
     PyFloat.gw_order_send := fun r w =>
       match finite_request r with
       | Some r' => gw_order_send T r' w
       | None => w
       end;
     PyFloat.gw_last_error := gw_last_error T |}.

(** The calls of [send_order] as float calls; the other calls have no
    counterpart. *)
Definition embed_call (c : Call) : list PyFloat.Call :=
  match c with
  | CGetSymbols p => [PyFloat.CGetSymbols p]
  | CSymbolSelect s e => [PyFloat.CSymbolSelect s e]
  | CSymbolInfoTick s => [PyFloat.CSymbolInfoTick s]
  | COrderSend r => [PyFloat.COrderSend (embed_request r)]
  | CLastError => [PyFloat.CLastError]
  | _ => []
  end.

(* ====================================================================== *)
(** * Properties of the enumeration layer *)

Lemma find_all_false {A} (f : A -> bool) (l : list A) :
  (forall x, In x l -> f x = false) -> find f l = None.
Proof.
  induction l as [| a l IH]; intros H; simpl; [reflexivity |].
  rewrite (H a (or_introl eq_refl)). apply IH.
  intros x Hx. apply H. right. exact Hx.
Qed.

Lemma all_members (o : OrderType) : In o OrderType_members.
Proof. destruct o; simpl; tauto. Qed.

Lemma OrderType_value_inj (a b : OrderType) :
  OrderType_value a = OrderType_value b -> a = b.
Proof. destruct a, b; simpl; intros H; try reflexivity; discriminate H. Qed.

Lemma OrderType_name_inj (a b : OrderType) :
  OrderType_name a = OrderType_name b -> a = b.
Proof. destruct a, b; simpl; intros H; try reflexivity; discriminate H. Qed.

Lemma OrderType_eqb_eq (a b : OrderType) : OrderType_eqb a b = true <-> a = b.
Proof.
  unfold OrderType_eqb. rewrite Z.eqb_eq. split.
  - apply OrderType_value_inj.
  - intros ->. reflexivity.
Qed.

(** Lookup of a member by name finds the member with that name, and
    raises [KeyError] when no member has it. *)
Lemma getitem_found (o : OrderType) :
  OrderType_getitem (VStr (OrderType_name o)) = Ret o.
Proof. destruct o; reflexivity. Qed.

Lemma getitem_spec (s : string) :
  (exists o, OrderType_name o = s /\ OrderType_getitem (VStr s) = Ret o) \/
  ((forall o, OrderType_name o <> s) /\
   OrderType_getitem (VStr s) = Raise (KeyError (VStr s))).
Proof.
  unfold OrderType_getitem.
  destruct (find (fun o => String.eqb (OrderType_name o) s) OrderType_members)
    as [o|] eqn:E.
  - left. exists o. apply find_some in E. destruct E as [_ E].
    apply String.eqb_eq in E. split; [exact E | reflexivity].
  - right. split; [| reflexivity].
    intros o Ho. pose proof (find_none _ _ E o (all_members o)) as N.
    simpl in N. apply String.eqb_neq in N. contradiction.
Qed.

Lemma to_string_member (o : OrderType) (default : pyval) :
  to_string (VInt (OrderType_value o)) default = VStr (OrderType_name o).
Proof. destruct o; reflexivity. Qed.

Lemma to_code_name (o : OrderType) (s : string) (default : pyval) :
  upper s = OrderType_name o ->
  to_code (VStr s) default = Ret (VInt (OrderType_value o)).
Proof.
  intros H. unfold to_code, to_code_try, call_upper.
  rewrite H, getitem_found. reflexivity.
Qed.

(** C8. The OrderType mapping round-trips in both directions and is
    one-to-one on the defined members: for every member [o] with code
    [c = OrderType_value o], [to_code (to_string c) = c]; for every
    spelling [s] of its name in any letter case ([upper s] is the name),
    [to_string (to_code s)] is the canonical upper-case name; and distinct
    members have distinct codes and distinct names. *)
Theorem OrderType_round_trip (o : OrderType) (s : string)
    (Hs : upper s = OrderType_name o) :
  (exists n, to_string (VInt (OrderType_value o)) VNone = VStr n /\
             to_code (VStr n) VNone = Ret (VInt (OrderType_value o))) /\
  (exists c, to_code (VStr s) VNone = Ret c /\
             to_string c VNone = VStr (OrderType_name o)) /\
  (forall o', OrderType_value o' = OrderType_value o -> o' = o) /\
  (forall o', OrderType_name o' = OrderType_name o -> o' = o).
Proof.
  split; [| split; [| split]].
  - exists (OrderType_name o). split.
    + apply to_string_member.
    + apply to_code_name. destruct o; reflexivity.
  - exists (VInt (OrderType_value o)). split.
    + apply to_code_name, Hs.
    + apply to_string_member.
  - intros o'. apply OrderType_value_inj.
  - intros o'. apply OrderType_name_inj.
Qed.

Lemma OrderType_round_trip_witness :
  upper "Sell_Limit" = OrderType_name SELL_LIMIT /\
  (exists c, to_code (VStr "Sell_Limit") VNone = Ret c /\
             to_string c VNone = VStr "SELL_LIMIT").
Proof.
  split; [reflexivity |].
  exact (proj1 (proj2 (OrderType_round_trip SELL_LIMIT "Sell_Limit" eq_refl))).
Defined.

(** C9. For every integer [c] that is not the value of a member,
    [to_string c] with no default is the string ["UNKNOWN_"] followed by
    the decimal rendering of [c]. *)
Theorem to_string_unknown_code (c : Z)
    (Hc : ~ In c (map OrderType_value OrderType_members)) :
  to_string (VInt c) VNone = VStr ("UNKNOWN_" ++ str_of_int c).
Proof.
  unfold to_string.
  rewrite find_all_false; [reflexivity |].
  intros o _. simpl. apply Z.eqb_neq. intros E. apply Hc.
  rewrite <- E. apply in_map, all_members.
Qed.

Lemma to_string_unknown_code_witness :
  ~ In (-42) (map OrderType_value OrderType_members) /\
  to_string (VInt (-42)) VNone = VStr "UNKNOWN_-42".
Proof.
  assert (H : ~ In (-42) (map OrderType_value OrderType_members))
    by (simpl; lia).
  split; [exact H |].
  exact (to_string_unknown_code (-42) H).
Defined.






(* ====================================================================== *)
(** * Properties of [send_order] *)

Lemma Qgt_bool_iff (a b : Q) : Qgt_bool a b = true <-> (b < a)%Q.
Proof.
  unfold Qgt_bool. rewrite negb_true_iff. split.
  - intros H. apply Qnot_le_lt. intros L. apply Qle_bool_iff in L. congruence.
  - intros H. destruct (Qle_bool a b) eqn:E; [| reflexivity].
    apply Qle_bool_iff in E. exfalso. exact (Qlt_not_le _ _ H E).
Qed.

Lemma Qlt_bool_iff (a b : Q) : Qlt_bool a b = true <-> (a < b)%Q.
Proof. exact (Qgt_bool_iff b a). Qed.

Lemma Qge_bool_iff (a b : Q) : Qge_bool a b = true <-> (b <= a)%Q.
Proof. exact (Qle_bool_iff b a). Qed.

Lemma volume_test_iff (v : Q) :
  Qle_bool v 0 || Qgt_bool v 100 = false <-> volume_in_range v.
Proof.
  unfold volume_in_range. rewrite orb_false_iff. split.
  - intros [H1 H2]. split.
    + apply Qgt_bool_iff. unfold Qgt_bool. rewrite H1. reflexivity.
    + apply Qle_bool_iff. unfold Qgt_bool in H2.
      apply negb_false_iff in H2. exact H2.
  - intros [H1 H2]. split.
    + apply Qgt_bool_iff in H1. unfold Qgt_bool in H1.
      apply negb_true_iff in H1. exact H1.
    + unfold Qgt_bool. apply negb_false_iff. apply Qle_bool_iff. exact H2.
Qed.

Section SendOrderFacts.

Context {T : Terminal}.

Implicit Types (w : World T) (st : St T).

(** Once both enum arguments validate and the symbol is known and active,
    control is at the volume check with two gateway calls made. *)
Lemma send_order_validated w action order_type a o symbol
    volume price stop_loss take_profit deviation comment expiration :
  Action_validate action = Ret a ->
  OrderType_validate order_type = Ret o ->
  symbol_ok symbol w ->
  send_order action order_type symbol volume price stop_loss take_profit
    deviation comment expiration (start w) =
  (if Qle_bool volume 0 || Qgt_bool volume 100
   then ret (reply false "Invalid volume")
   else match sl_tp_check o price stop_loss take_profit with
        | Some msg => ret (reply false msg)
        | None =>
            dispatch a o symbol volume price stop_loss take_profit deviation
              (if negb (String.eqb comment "") then comment else "MCP")
              expiration
        end) (checked symbol w).
Proof.
  intros Ha Ho [Hsym Hsel].
  unfold send_order, bind, lift. rewrite Ha, Ho.
  unfold get_symbols, symbol_select, perform, start. simpl.
  destruct (fst (gw_get_symbols T symbol w)) as [| x l] eqn:E;
    [contradiction |].
  simpl. rewrite Hsel. simpl. reflexivity.
Qed.

Lemma no_submission_checked symbol w : no_submission (checked symbol w).
Proof. reflexivity. Qed.

End SendOrderFacts.

Lemma sim_symbol_ok : symbol_ok (T := sim) "XAUUSD" sim_world.
Proof. split; [discriminate | reflexivity]. Qed.

(* ---------------------------------------------------------------------- *)
(** ** Stop/target ordering *)

Lemma sl_tp_check_valid o price stop_loss take_profit :
  levels_valid o price stop_loss take_profit ->
  sl_tp_check o price stop_loss take_profit = None.
Proof.
  intros [Hb Hs]. unfold sl_tp_check.
  destruct (member_of o buy_side) eqn:Eb.
  - assert (I : In o buy_side) by (destruct o; simpl in *; auto; discriminate).
    destruct (Hb I) as [H1 H2].
    assert (E1 : Qge_bool stop_loss price = false).
    { destruct (Qge_bool stop_loss price) eqn:E; [| reflexivity].
      apply Qge_bool_iff in E. exfalso. exact (Qlt_not_le _ _ H1 E). }
    assert (E2 : Qle_bool take_profit price = false).
    { destruct (Qle_bool take_profit price) eqn:E; [| reflexivity].
      apply Qle_bool_iff in E. exfalso. exact (Qlt_not_le _ _ H2 E). }
    assert (E3 : Qgt_bool stop_loss take_profit = false).
    { destruct (Qgt_bool stop_loss take_profit) eqn:E; [| reflexivity].
      apply Qgt_bool_iff in E. exfalso.
      exact (Qlt_irrefl _ (Qlt_trans _ _ _ (Qlt_trans _ _ _ H1 H2) E)). }
    rewrite E1, E2, E3. reflexivity.
  - destruct (member_of o sell_side) eqn:Es; [| reflexivity].
    assert (I : In o sell_side) by (destruct o; simpl in *; auto; discriminate).
    destruct (Hs I) as [H1 H2].
    assert (E1 : Qle_bool stop_loss price = false).
    { destruct (Qle_bool stop_loss price) eqn:E; [| reflexivity].
      apply Qle_bool_iff in E. exfalso. exact (Qlt_not_le _ _ H1 E). }
    assert (E2 : Qge_bool take_profit price = false).
    { destruct (Qge_bool take_profit price) eqn:E; [| reflexivity].
      apply Qge_bool_iff in E. exfalso. exact (Qlt_not_le _ _ H2 E). }
    assert (E3 : Qlt_bool stop_loss take_profit = false).
    { destruct (Qlt_bool stop_loss take_profit) eqn:E; [| reflexivity].
      apply Qlt_bool_iff in E. exfalso.
      exact (Qlt_irrefl _ (Qlt_trans _ _ _ (Qlt_trans _ _ _ H2 H1) E)). }
    rewrite E1, E2, E3. reflexivity.
Qed.

(** On the buy side a violation always yields one of the first two
    messages; the third comparison of line 127 is never true when the
    first two are false. *)
Lemma sl_tp_check_buy o price stop_loss take_profit :
  member_of o buy_side = true ->
  buy_violation price stop_loss take_profit ->
  ((price <= stop_loss)%Q /\
   sl_tp_check o price stop_loss take_profit
   = Some "Stop loss must be below the price") \/
  ((take_profit <= price)%Q /\
   sl_tp_check o price stop_loss take_profit
   = Some "Take profit must be above the price").
Proof.
  intros Hb Hv. unfold sl_tp_check. rewrite Hb.
  destruct (Qge_bool stop_loss price) eqn:E1.
  - left. split; [apply Qge_bool_iff; exact E1 | reflexivity].
  - destruct (Qle_bool take_profit price) eqn:E2.
    + right. split; [apply Qle_bool_iff; exact E2 | reflexivity].
    + exfalso.
      assert (L1 : (stop_loss < price)%Q).
      { apply Qnot_le_lt. intros L. apply Qge_bool_iff in L. congruence. }
      assert (L2 : (price < take_profit)%Q).
      { apply Qnot_le_lt. intros L. apply Qle_bool_iff in L. congruence. }
      destruct Hv as [V | [V | V]].
      * exact (Qlt_not_le _ _ L1 V).
      * exact (Qlt_not_le _ _ L2 V).
      * exact (Qlt_irrefl _ (Qlt_trans _ _ _ (Qlt_trans _ _ _ L1 L2) V)).
Qed.

Section SendOrderLevels.

Context {T : Terminal}.

Lemma send_order_levels_rejected (w : World T) action order_type a o symbol
    volume price stop_loss take_profit deviation comment expiration msg :
  Action_validate action = Ret a ->
  OrderType_validate order_type = Ret o ->
  symbol_ok symbol w ->
  volume_in_range volume ->
  sl_tp_check o price stop_loss take_profit = Some msg ->
  rejected_with msg
    (send_order action order_type symbol volume price stop_loss take_profit
       deviation comment expiration (start w)).
Proof.
  intros Ha Ho Hs Hv Hc. unfold rejected_with.
  rewrite (send_order_validated w action order_type a o) by assumption.
  apply volume_test_iff in Hv. rewrite Hv, Hc.
  split; [reflexivity | apply no_submission_checked].
Qed.

Lemma send_order_dispatched (w : World T) action order_type a o symbol
    volume price stop_loss take_profit deviation comment expiration :
  Action_validate action = Ret a ->
  OrderType_validate order_type = Ret o ->
  symbol_ok symbol w ->
  volume_in_range volume ->
  levels_valid o price stop_loss take_profit ->
  send_order action order_type symbol volume price stop_loss take_profit
    deviation comment expiration (start w) =
  dispatch a o symbol volume price stop_loss take_profit deviation
    (effective_comment comment) expiration (checked symbol w).
Proof.
  intros Ha Ho Hs Hv Hl.
  rewrite (send_order_validated w action order_type a o) by assumption.
  apply volume_test_iff in Hv. rewrite Hv.
  rewrite (sl_tp_check_valid _ _ _ _ Hl). reflexivity.
Qed.

End SendOrderLevels.

(** C1. For a buy-side order type at the stop/target check of
    [send_order] (enum arguments valid, symbol known and active, volume in
    range): (i) whenever stop-loss >= price, or take-profit <= price, or
    stop-loss > take-profit, the run ends with no request submitted in the
    non-success outcome "Stop loss must be below the price" (when
    stop-loss >= price) or "Take profit must be above the price" (when
    take-profit <= price); (ii) the check is not skipped for zero levels:
    with stop-loss = 0 and take-profit = 0 the run is rejected with one of
    these two messages whatever the price is. *)
Theorem buy_side_levels_check {T : Terminal} (w : World T)
    (action order_type : pyval) (a : TradeRequestActions) (o : OrderType)
    (symbol : string) (volume price stop_loss take_profit : Q)
    (deviation : Z) (comment : string) (expiration : option Z)
    (Ha : Action_validate action = Ret a)
    (Ho : OrderType_validate order_type = Ret o)
    (Hs : symbol_ok symbol w)
    (Hv : volume_in_range volume)
    (Hb : member_of o buy_side = true) :
  let run sl tp :=
    send_order action order_type symbol volume price sl tp
      deviation comment expiration (start w) in
  (buy_violation price stop_loss take_profit ->
   ((price <= stop_loss)%Q /\
    rejected_with "Stop loss must be below the price" (run stop_loss take_profit)) \/
   ((take_profit <= price)%Q /\
    rejected_with "Take profit must be above the price" (run stop_loss take_profit))) /\
  (rejected_with "Stop loss must be below the price" (run 0%Q 0%Q) \/
   rejected_with "Take profit must be above the price" (run 0%Q 0%Q)).
Proof.
  intros run.
  assert (R : forall sl tp, buy_violation price sl tp ->
    ((price <= sl)%Q /\
     rejected_with "Stop loss must be below the price" (run sl tp)) \/
    ((tp <= price)%Q /\
     rejected_with "Take profit must be above the price" (run sl tp))).
  { intros sl tp V.
    destruct (sl_tp_check_buy o price sl tp Hb V) as [[L E] | [L E]].
    - left. split; [exact L |].
      apply (send_order_levels_rejected w action order_type a o); assumption.
    - right. split; [exact L |].
      apply (send_order_levels_rejected w action order_type a o); assumption. }
  split; [apply R |].
  assert (V : buy_violation price 0 0).
  { unfold buy_violation. destruct (Qlt_le_dec 0 price) as [L | L].
    - right. left. apply Qlt_le_weak. exact L.
    - left. exact L. }
  destruct (R 0%Q 0%Q V) as [[_ H] | [_ H]]; [left | right]; exact H.
Qed.

Lemma sim_volume_ok : volume_in_range 0.1.
Proof. unfold volume_in_range, Qlt, Qle. simpl. lia. Qed.

Lemma buy_side_levels_check_witness :
  rejected_with (T := sim) "Take profit must be above the price"
    (send_order (VAction PENDING) (VStr "BUY_LIMIT") "XAUUSD" 0.1 3000 0 0
       20 "" None (start (T := sim) sim_world)).
Proof.
  pose proof (buy_side_levels_check (T := sim) sim_world (VAction PENDING)
                (VStr "BUY_LIMIT") PENDING BUY_LIMIT "XAUUSD" 0.1 3000 0 0
                20 "" None eq_refl eq_refl sim_symbol_ok sim_volume_ok eq_refl)
    as H.
  cbv zeta in H. destruct H as [_ [H | H]].
  - exfalso. destruct H as [H _]. vm_compute in H. discriminate H.
  - exact H.
Defined.

(* ---------------------------------------------------------------------- *)
(** ** Market execution *)

(** C2. A market deal ([DEAL]) with order type BUY or SELL that passes
    every validation step (valid enum arguments, symbol known and active,
    volume in range, stop/target ordering valid) does not reach the
    gateway submission: building the request evaluates the unbound name
    [sl] (line 159), so the run raises [NameError] after the two symbol
    calls, with no request submitted and no outcome returned. *)
Theorem deal_raises_name_error {T : Terminal} (w : World T)
    (action order_type : pyval) (o : OrderType)
    (symbol : string) (volume price stop_loss take_profit : Q)
    (deviation : Z) (comment : string) (expiration : option Z)
    (Ha : Action_validate action = Ret DEAL)
    (Ho : OrderType_validate order_type = Ret o)
    (Hm : o = BUY \/ o = SELL)
    (Hs : symbol_ok symbol w)
    (Hv : volume_in_range volume)
    (Hl : levels_valid o price stop_loss take_profit) :
  let r := send_order action order_type symbol volume price stop_loss
             take_profit deviation comment expiration (start w) in
  fst r = Raise (NameError "sl") /\
  calls (snd r) = [CGetSymbols symbol; CSymbolSelect symbol true] /\
  no_submission (snd r) /\
  (forall out, fst r <> Ret out).
Proof.
  intros r. unfold r.
  rewrite (send_order_dispatched w action order_type DEAL o) by assumption.
  assert (E : dispatch DEAL o symbol volume price stop_loss take_profit
                deviation (effective_comment comment) expiration
                (checked symbol w)
              = (Raise (NameError "sl"), checked symbol w)).
  { destruct Hm as [-> | ->]; reflexivity. }
  rewrite E. simpl.
  split; [reflexivity |]. split; [reflexivity |]. split; [reflexivity |].
  intros out. discriminate.
Qed.

Lemma sim_buy_levels : levels_valid BUY 4000 3900 4100.
Proof.
  split; intros H.
  - unfold Qlt. simpl. lia.
  - simpl in H. intuition discriminate.
Qed.

Lemma deal_raises_name_error_witness :
  fst (send_order (T := sim) (VAction DEAL) (VStr "BUY") "XAUUSD" 0.1
         4000 3900 4100 20 "" None (start (T := sim) sim_world))
  = Raise (NameError "sl").
Proof.
  exact (proj1 (deal_raises_name_error (T := sim) sim_world (VAction DEAL)
                  (VStr "BUY") BUY "XAUUSD" 0.1 4000 3900 4100 20 "" None
                  eq_refl eq_refl (or_introl eq_refl) sim_symbol_ok
                  sim_volume_ok sim_buy_levels)).
Defined.

(* ---------------------------------------------------------------------- *)
(** ** Canonicalization of the enum arguments *)

Lemma all_actions (a : TradeRequestActions) : In a Action_members.
Proof. destruct a; simpl; tauto. Qed.



Lemma OrderType_validate_fail (v : pyval) (e : exn) :
  OrderType_validate v = Raise e ->
  e = InvalidEnumValue "OrderType" v /\
  (forall o, v <> VOrderType o /\ v <> VInt (OrderType_value o) /\
             (forall s, v = VStr s -> upper s <> OrderType_name o)).
Proof.
  intros H. destruct v as [| b | z | s | o' | a]; unfold OrderType_validate in H.
  - injection H as <-. split; [reflexivity |].
    intros o. repeat split; discriminate.
  - injection H as <-. split; [reflexivity |].
    intros o. repeat split; discriminate.
  - destruct (find (fun o => OrderType_value o =? z) OrderType_members) eqn:F;
      [discriminate H |].
    injection H as <-. split; [reflexivity |].
    intros o. repeat split; try discriminate.
    intros E. injection E as E.
    pose proof (find_none _ _ F o (all_members o)) as N. simpl in N.
    apply Z.eqb_neq in N. congruence.
  - destruct (find (fun o => String.eqb (OrderType_name o) (upper s))
                OrderType_members) eqn:F; [discriminate H |].
    injection H as <-. split; [reflexivity |].
    intros o. repeat split; try discriminate.
    intros s' E. injection E as <-. intros U.
    pose proof (find_none _ _ F o (all_members o)) as N. simpl in N.
    apply String.eqb_neq in N. congruence.
  - discriminate H.
  - injection H as <-. split; [reflexivity |].
    intros o. repeat split; discriminate.
Qed.

Section Canonicalization.

Context {T : Terminal}.

Lemma send_order_invalid_action (st : St T) action order_type symbol
    volume price stop_loss take_profit deviation comment expiration e :
  Action_validate action = Raise e ->
  send_order action order_type symbol volume price stop_loss take_profit
    deviation comment expiration st = (Raise e, st).
Proof. intros H. unfold send_order, bind, lift. rewrite H. reflexivity. Qed.

Lemma send_order_invalid_order_type (st : St T) action order_type symbol
    volume price stop_loss take_profit deviation comment expiration a e :
  Action_validate action = Ret a ->
  OrderType_validate order_type = Raise e ->
  send_order action order_type symbol volume price stop_loss take_profit
    deviation comment expiration st = (Raise e, st).
Proof.
  intros Ha H. unfold send_order, bind, lift. rewrite Ha, H. reflexivity.
Qed.

End Canonicalization.








Lemma Action_validate_raises (v : pyval) (e : exn) :
  Action_validate v = Raise e -> e = InvalidEnumValue "TradeRequestActions" v.
Proof.
  intros H. destruct v as [| b | z | s | o | a]; unfold Action_validate in H.
  - injection H as <-. reflexivity.
  - injection H as <-. reflexivity.
  - destruct (find (fun a => Action_value a =? z) Action_members);
      [discriminate H | injection H as <-; reflexivity].
  - destruct (find (fun a => String.eqb (Action_name a) (upper s)) Action_members);
      [discriminate H | injection H as <-; reflexivity].
  - injection H as <-. reflexivity.
  - discriminate H.
Qed.





(* ---------------------------------------------------------------------- *)
(** ** Pending orders *)

Lemma pending_price_check_spec o price tk :
  In o pending_types ->
  (market_violation o price tk ->
   pending_price_check o price tk = Some (market_message o)) /\
  (~ market_violation o price tk -> pending_price_check o price tk = None).
Proof.
  intros Hin. simpl in Hin.
  destruct Hin as [<- | [<- | [<- | [<- | []]]]];
    unfold pending_price_check, market_violation, market_message.
  - destruct (Qgt_bool price (ask tk)) eqn:E.
    + split; [reflexivity | intros N; exfalso; apply N, Qgt_bool_iff, E].
    + split; [intros V; apply Qgt_bool_iff in V; congruence | reflexivity].
  - destruct (Qlt_bool price (bid tk)) eqn:E.
    + split; [reflexivity | intros N; exfalso; apply N, Qlt_bool_iff, E].
    + split; [intros V; apply Qlt_bool_iff in V; congruence | reflexivity].
  - destruct (Qlt_bool price (ask tk)) eqn:E.
    + split; [reflexivity | intros N; exfalso; apply N, Qlt_bool_iff, E].
    + split; [intros V; apply Qlt_bool_iff in V; congruence | reflexivity].
  - destruct (Qgt_bool price (bid tk)) eqn:E.
    + split; [reflexivity | intros N; exfalso; apply N, Qgt_bool_iff, E].
    + split; [intros V; apply Qgt_bool_iff in V; congruence | reflexivity].
Qed.

Lemma member_of_pending o :
  In o pending_types ->
  member_of o [BUY_LIMIT; SELL_LIMIT; BUY_STOP; SELL_STOP] = true.
Proof.
  intros H. simpl in H.
  destruct H as [<- | [<- | [<- | [<- | []]]]]; reflexivity.
Qed.

(** C4. For a pending order of an allowed type that passes validation,
    with [tick] the quote the terminal returns: if the price is on the
    wrong side of the market (buy limit above the ask, sell limit below the
    bid, buy stop below the ask, sell stop above the bid) the run ends in
    a non-success outcome whose message names the ask for buy orders and
    the bid for sell orders, and no request is submitted; if the price is
    consistent, or there is no quote, the request is submitted and the
    outcome is read from the last-error channel. *)
Theorem pending_price_vs_market {T : Terminal} (w : World T)
    (action order_type : pyval) (o : OrderType)
    (symbol : string) (volume price stop_loss take_profit : Q)
    (deviation : Z) (comment : string) (expiration : option Z)
    (tick : option Tick)
    (Ha : Action_validate action = Ret PENDING)
    (Ho : OrderType_validate order_type = Ret o)
    (Hp : In o pending_types)
    (Hs : symbol_ok symbol w)
    (Hv : volume_in_range volume)
    (Hl : levels_valid o price stop_loss take_profit)
    (Ht : fst (gw_symbol_info_tick T symbol (world (checked symbol w))) = tick) :
  let r := send_order action order_type symbol volume price stop_loss
             take_profit deviation comment expiration (start w) in
  let request := pending_request PENDING symbol volume o price stop_loss
                   take_profit deviation (effective_comment comment)
                   expiration in
  let sent :=
    calls (snd r) = [CGetSymbols symbol; CSymbolSelect symbol true;
                     CSymbolInfoTick symbol; COrderSend request; CLastError] /\
    exists err, fst r = Ret (outcome_of_last_error err) in
  (forall tk, tick = Some tk -> market_violation o price tk ->
              rejected_with (market_message o) r) /\
  (forall tk, tick = Some tk -> ~ market_violation o price tk -> sent) /\
  (tick = None -> sent).
Proof.
  intros r request sent. unfold sent, request, r. clear r request sent.
  rewrite (send_order_dispatched w action order_type PENDING o) by assumption.
  unfold dispatch. rewrite (member_of_pending o Hp). cbn [negb].
  unfold bind, symbol_info_tick, order_send, last_error, perform, ret.
  cbn [fst snd world calls]. rewrite Ht.
  split; [| split].
  - intros tk -> V.
    rewrite (proj1 (pending_price_check_spec o price tk Hp) V).
    split; reflexivity.
  - intros tk -> V.
    rewrite (proj2 (pending_price_check_spec o price tk Hp) V).
    cbn [fst snd world calls].
    split; [reflexivity | eexists; reflexivity].
  - intros ->. cbn [fst snd world calls].
    split; [reflexivity | eexists; reflexivity].
Qed.

(** Without a quote the same order is submitted: the price check is
    skipped. *)
Example pending_without_quote_is_sent :
  let r := send_order (T := sim) (VAction PENDING) (VStr "SELL_LIMIT") "XAUUSD"
             0.1 3000 3100 2900 20 "" None (start (T := sim) sim_world_no_quote) in
  fst r = Ret (reply true "Order sent successfully") /\
  existsb is_order_send (calls (snd r)) = true.
Proof. split; reflexivity. Qed.

Lemma sim_sell_limit_levels : levels_valid SELL_LIMIT 3000 3100 2900.
Proof.
  split; intros H.
  - simpl in H. intuition discriminate.
  - unfold Qlt. simpl. lia.
Qed.

Lemma pending_price_vs_market_witness :
  rejected_with (T := sim) "Invalid price, must be below current bid"
    (send_order (VAction PENDING) (VStr "SELL_LIMIT") "XAUUSD" 0.1
       3000 3100 2900 20 "" None (start (T := sim) sim_world)).
Proof.
  pose proof (pending_price_vs_market (T := sim) sim_world (VAction PENDING)
                (VStr "SELL_LIMIT") SELL_LIMIT "XAUUSD" 0.1 3000 3100 2900 20
                "" None (Some {| bid := 3990; ask := 3991 |})
                eq_refl eq_refl (or_intror (or_introl eq_refl)) sim_symbol_ok
                sim_volume_ok sim_sell_limit_levels eq_refl) as H.
  cbv zeta in H. destruct H as [H _].
  apply (H {| bid := 3990; ask := 3991 |} eq_refl).
  unfold market_violation, Qlt. simpl. lia.
Defined.

(* ====================================================================== *)
(** * Properties of [close_all_profittable_positions] *)

Section CloseAllFacts.

Context {T : Terminal}.

(** The loop closes every ticket in order and counts each of them. *)
Lemma close_each_counts (Hc : closes_return (T := T)) (ids : list Z) :
  forall (count : nat) (st : St T),
  exists w',
    close_each ids count st =
    (Ret (count + length ids)%nat,
     {| world := w'; calls := calls st ++ map CClosePosition ids |}).
Proof.
  induction ids as [| i rest IH]; intros count st.
  - exists (world st). simpl. unfold ret.
    rewrite Nat.add_0_r, app_nil_r. destruct st; reflexivity.
  - simpl. unfold bind, close_position.
    destruct (Hc i (world st)) as [b Hb]. rewrite Hb.
    destruct (IH (count + 1)%nat
                {| world := snd (gw_close_position T i (world st));
                   calls := calls st ++ [CClosePosition i] |}) as [w' E].
    exists w'. rewrite E. simpl.
    rewrite <- app_assoc. simpl.
    replace (count + 1 + length rest)%nat with (count + S (length rest))%nat by lia.
    reflexivity.
Qed.

End CloseAllFacts.

(** C5. What the loop of lines 17-20 computes. When no close raises,
    close-all-profitable fetches all positions once, retains those with
    non-negative profit, calls the close operation once for each retained
    position in order, whatever the earlier closes reported, and returns
    the summary with [error = False] whose message states the number of
    retained positions: [count] is incremented after every close call,
    also after one that reported failure, so it is not the number of
    positions closed that the docstring announces. With no retained
    position the message is "Close 0 profittable positions success" and no
    close is made. *)
Theorem close_all_counts_every_close {T : Terminal} (w : World T)
    (Hc : closes_return (T := T)) :
  let r := close_all_profittable_positions (start w) in
  let positions := fst (gw_get_all_positions T w) in
  exists retained,
    (retained = filter (fun p => Qle_bool 0 (profit p)) positions) /\
    (forall p, In p retained <-> In p positions /\ (0 <= profit p)%Q) /\
    calls (snd r) = CGetAllPositions :: map CClosePosition (map id retained) /\
    fst r = Ret (closed_summary (length retained)) /\
    (retained = [] ->
     fst r = Ret {| error := false;
                    summary_message := "Close 0 profittable positions success" |} /\
     existsb is_close_position (calls (snd r)) = false).
Proof.
  intros r positions.
  exists (filter (fun p => Qle_bool 0 (profit p)) positions).
  assert (E : exists w',
    r = (Ret (closed_summary
                (length (filter (fun p => Qle_bool 0 (profit p)) positions))),
         {| world := w';
            calls := CGetAllPositions ::
                     map CClosePosition
                       (map id (filter (fun p => Qle_bool 0 (profit p)) positions)) |})).
  { unfold r, close_all_profittable_positions, bind, get_all_positions, perform.
    cbn [fst snd world calls start].
    fold positions.
    destruct (close_each_counts Hc
                (map id (filter (fun p => Qge_bool (profit p) 0) positions)) 0%nat
                {| world := snd (gw_get_all_positions T w);
                   calls := [] ++ [CGetAllPositions] |}) as [w' E].
    exists w'. rewrite E. unfold ret, closed_summary. cbn [calls].
    rewrite length_map. reflexivity. }
  destruct E as [w' E]. rewrite E. cbn [fst snd calls].
  split; [reflexivity |]. split.
  - intros p. rewrite filter_In. rewrite Qle_bool_iff. reflexivity.
  - split; [reflexivity |]. split; [reflexivity |].
    intros ->. split; reflexivity.
Qed.

Lemma sim_closes_return : closes_return (T := sim).
Proof. intros i w. eexists. reflexivity. Qed.

Lemma close_all_counts_every_close_witness :
  fst (close_all_profittable_positions (start (T := sim) sim_world))
  = Ret {| error := false;
           summary_message := "Close 2 profittable positions success" |} /\
  calls (snd (close_all_profittable_positions (start (T := sim) sim_world)))
  = [CGetAllPositions; CClosePosition 123; CClosePosition 125].
Proof.
  destruct (close_all_counts_every_close (T := sim) sim_world sim_closes_return)
    as [retained [-> [_ [Hcalls [Hres _]]]]].
  split; [exact Hres | exact Hcalls].
Defined.

(** C5, at the failing input: of two retained positions the close of
    the first reports failure, so one position is closed, and the summary
    states two. *)
Lemma close_count_includes_failed_close :
  fst (gw_close_position sim 123 sim_world) = Ret false /\
  successful_closes (T := sim) [123; 125] sim_world = 1%nat /\
  fst (close_all_profittable_positions (start (T := sim) sim_world))
  = Ret (closed_summary 2) /\
  fst (close_all_profittable_positions (start (T := sim) sim_world))
  <> Ret (closed_summary (successful_closes (T := sim) [123; 125] sim_world)).
Proof.
  split; [reflexivity |]. split; [reflexivity |]. split; [reflexivity |].
  vm_compute. discriminate.
Qed.

(* ====================================================================== *)
(** * Properties of [_getPositions] *)

Section OrdersFacts.

Context {T : Terminal}.

Variable int_of_str : string -> option Z.

Lemma position_queries_snoc (st : St T) (w' : World T) (c : Call) :
  position_queries {| world := w'; calls := calls st ++ [c] |}
  = (position_queries st ++ (if is_positions_get c then [c] else []))%list.
Proof.
  unfold position_queries. cbn [calls]. rewrite filter_app. simpl.
  destruct (is_positions_get c); reflexivity.
Qed.

(** The pre-check makes no position query and stops exactly when the
    symbol or the group pre-check stops. *)
Lemma precheck_spec (st : St T) (symbol_name group : option string) :
  fst (precheck symbol_name group st)
  = Ret (symbol_stops symbol_name (world st)
         || group_stops group (world_after_symbol symbol_name (world st))) /\
  position_queries (snd (precheck symbol_name group st)) = position_queries st.
Proof.
  unfold precheck, symbol_stops, group_stops, world_after_symbol, nonempty.
  destruct symbol_name as [s |]; [destruct (String.eqb s "") |];
    destruct group as [g |]; try destruct (String.eqb g "");
    unfold bind, get_symbols, perform, ret; cbn [negb andb orb fst snd world calls];
    try (split; reflexivity);
    try (destruct (negb (length (fst (gw_get_symbols T s (world st))) =? 1)%nat);
         cbn [negb andb orb fst snd world calls]);
    (split; [reflexivity |]);
    unfold position_queries; cbn [calls];
    rewrite ?filter_app; cbn [filter is_positions_get];
    rewrite ?app_nil_r; reflexivity.
Qed.

Lemma fetch_queries (st : St T) (f : PosFilter) (order_type : option pyval) :
  position_queries
    (snd ((positions <- positions_get f ;;
           match positions with
           | Some ps =>
               lift (filter_by_type order_type (convert_positions_to_dataframe ps))
           | None => ret []
           end) st))
  = (position_queries st ++ [CPositionsGet f])%list.
Proof.
  unfold bind, positions_get, perform, lift, ret.
  destruct (fst (gw_positions_get T f (world st))) as [ps |];
    [destruct (filter_by_type order_type (convert_positions_to_dataframe ps)) |];
    cbn [snd]; apply position_queries_snoc.
Qed.

(** A ticket query after its pre-check. *)
Lemma getPositions_by_ticket (w : World T) (t : Ticket)
    (symbol_name group : option string) (order_type : option pyval)
    (b : bool) (st' : St T) :
  precheck symbol_name group (start w) = (Ret b, st') ->
  _getPositions int_of_str (Some t) symbol_name group order_type (start w)
  = (if b then ret []
     else match ticket_number int_of_str t with
          | Some n =>
              positions <- positions_get (ByTicket n) ;;
              match positions with
              | Some ps =>
                  lift (filter_by_type order_type
                          (convert_positions_to_dataframe ps))
              | None => ret []
              end
          | None => ret []
          end) st'.
Proof.
  intros P. unfold _getPositions. unfold bind at 1. rewrite P.
  destruct b; [reflexivity |].
  destruct t as [m | s]; cbn [ticket_number]; [reflexivity |].
  destruct (int_of_str s); reflexivity.
Qed.

End OrdersFacts.

(** C6 (as amended). For a ticket query ([ticket] supplied): if a
    non-empty symbol name does not resolve to exactly one instrument, or a
    non-empty group resolves to no instrument, the call returns the empty
    result and never queries positions; otherwise (in particular when the
    group resolves to several instruments) the only position query of the
    call is the one by the ticket's number, and a ticket string that is
    not a number gives the empty result with no query. *)
Theorem ticket_precheck {T : Terminal} (int_of_str : string -> option Z)
    (w : World T) (t : Ticket) (symbol_name group : option string)
    (order_type : option pyval) :
  let r := _getPositions int_of_str (Some t) symbol_name group order_type
             (start w) in
  let stop := symbol_stops symbol_name w
              || group_stops group (world_after_symbol symbol_name w) in
  (stop = true -> fst r = Ret [] /\ position_queries (snd r) = []) /\
  (stop = false -> forall n, ticket_number int_of_str t = Some n ->
     position_queries (snd r) = [CPositionsGet (ByTicket n)]) /\
  (stop = false -> ticket_number int_of_str t = None ->
     fst r = Ret [] /\ position_queries (snd r) = []).
Proof.
  intros r stop.
  destruct (precheck_spec (start w) symbol_name group) as [P1 P2].
  cbn [start world] in P1. fold stop in P1.
  assert (Q0 : position_queries (start w) = []) by reflexivity.
  rewrite Q0 in P2.
  destruct (precheck symbol_name group (start w)) as [[b | e] st'] eqn:P;
    cbn [fst snd] in P1, P2; [| discriminate P1].
  injection P1 as P1. subst b.
  unfold r.
  rewrite (getPositions_by_ticket int_of_str w t symbol_name group order_type
             stop st' P).
  split; [| split].
  - intros S. rewrite S. cbn [fst snd ret]. split; [reflexivity | exact P2].
  - intros S n Hn. rewrite S, Hn.
    rewrite (fetch_queries st' (ByTicket n) order_type), P2. reflexivity.
  - intros S Hn. rewrite S, Hn. cbn [fst snd ret].
    split; [reflexivity | exact P2].
Qed.

Lemma ticket_precheck_witness :
  position_queries
    (snd (_getPositions (T := sim) sim_int_of_str (Some (TStr "123")) None
            (Some "*USD*") None (start (T := sim) sim_world)))
  = [CPositionsGet (ByTicket 123)].
Proof.
  pose proof (ticket_precheck (T := sim) sim_int_of_str sim_world (TStr "123")
                None (Some "*USD*") None) as H.
  cbv zeta in H. destruct H as [_ [H _]].
  exact (H eq_refl 123 eq_refl).
Defined.

(** C6, counterexample to the specification as written: a group that resolves to more than one
    instrument does not stop a ticket query; the gateway is queried by
    ticket and the position is returned. *)
Lemma group_with_several_matches_proceeds :
  length (fst (gw_get_symbols sim "*USD*" sim_world)) = 2%nat /\
  In (CPositionsGet (ByTicket 123))
     (calls (snd (_getPositions (T := sim) sim_int_of_str (Some (TInt 123)) None
                    (Some "*USD*") None (start (T := sim) sim_world)))) /\
  fst (_getPositions (T := sim) sim_int_of_str (Some (TInt 123)) None
         (Some "*USD*") None (start (T := sim) sim_world))
  <> Ret [].
Proof.
  split; [reflexivity |]. split.
  - vm_compute. right. left. reflexivity.
  - vm_compute. discriminate.
Qed.

(* ====================================================================== *)
(** * Further properties of the enumeration layer *)

Lemma to_string_unknown_label (c : Z) :
  ~ In c (map OrderType_value OrderType_members) ->
  to_string (VInt c) VNone = VStr ("UNKNOWN_" ++ str_of_int c).
Proof.
  intros Hc. unfold to_string.
  rewrite find_all_false; [reflexivity |].
  intros o _. simpl. apply Z.eqb_neq. intros E. apply Hc.
  rewrite <- E. apply in_map, all_members.
Qed.

Lemma upper_ascii_idempotent (c : ascii) :
  upper_ascii (upper_ascii c) = upper_ascii c.
Proof. destruct c as [[] [] [] [] [] [] [] []]; reflexivity. Qed.

Lemma upper_idempotent (s : string) : upper (upper s) = upper s.
Proof.
  induction s as [| c r IH]; simpl; [reflexivity |].
  rewrite upper_ascii_idempotent, IH. reflexivity.
Qed.

(** X1. The string lookups do not depend on the letter case of the key:
    upper-casing the key first changes neither [to_code], nor [exists],
    nor the timeframe lookups. *)
Theorem lookups_ignore_case (s : string) (default : pyval) :
  to_code (VStr (upper s)) default = to_code (VStr s) default /\
  exists_ (VStr (upper s)) = exists_ (VStr s) /\
  Timeframe_get (VStr (upper s)) default = Timeframe_get (VStr s) default /\
  (forall c, Timeframe_getitem (VStr (upper s)) = Ret c <->
             Timeframe_getitem (VStr s) = Ret c).
Proof.
  split; [| split; [| split]].
  - unfold to_code, to_code_try, call_upper. rewrite upper_idempotent. reflexivity.
  - unfold exists_. rewrite upper_idempotent. reflexivity.
  - unfold Timeframe_get, Timeframe_getitem. rewrite upper_idempotent.
    destruct (timeframes_lookup (upper s)); reflexivity.
  - intros c. unfold Timeframe_getitem. rewrite upper_idempotent.
    destruct (timeframes_lookup (upper s)); split; intros H;
      try exact H; discriminate H.
Qed.

(** X2. [exists] agrees with the two lookups: a string exists exactly
    when [to_code] gives it a code, an integer exists exactly when
    [to_string] gives it the name of the member with that value, and an
    integer does not exist exactly when [to_string] gives the UNKNOWN
    label; [None] and enum members never exist. *)
Theorem exists_agrees_with_lookups :
  (forall s, exists_ (VStr s) = true <->
             exists c, to_code (VStr s) VNone = Ret (VInt c)) /\
  (forall c, exists_ (VInt c) = true <->
             exists o, OrderType_value o = c /\
                       to_string (VInt c) VNone = VStr (OrderType_name o)) /\
  (forall c, exists_ (VInt c) = false <->
             to_string (VInt c) VNone = VStr ("UNKNOWN_" ++ str_of_int c)) /\
  exists_ VNone = false /\
  (forall o, exists_ (VOrderType o) = false).
Proof.
  assert (A : forall c, exists_ (VInt c) = true ->
                exists o, OrderType_value o = c /\
                          to_string (VInt c) VNone = VStr (OrderType_name o)).
  { intros c H. unfold exists_ in H. apply existsb_exists in H.
    destruct H as [o [_ H]]. simpl in H. apply Z.eqb_eq in H.
    exists o. split; [exact H |]. rewrite <- H. apply to_string_member. }
  assert (B : forall c, exists_ (VInt c) = false ->
                to_string (VInt c) VNone = VStr ("UNKNOWN_" ++ str_of_int c)).
  { intros c H. apply to_string_unknown_label. intros I.
    apply in_map_iff in I. destruct I as [o [E _]].
    unfold exists_ in H.
    assert (X : existsb (fun o => int_eq_py (OrderType_value o) (VInt c))
                  OrderType_members = true).
    { apply existsb_exists. exists o. split; [apply all_members |].
      simpl. apply Z.eqb_eq. exact E. }
    congruence. }
  split; [| split; [| split; [| split]]].
  - intros s. unfold exists_, to_code, to_code_try, call_upper.
    destruct (getitem_spec (upper s)) as [[o [_ Hg]] | [_ Hg]]; rewrite Hg.
    + split; [intros _; eexists; reflexivity | reflexivity].
    + split; [discriminate | intros [c H]; discriminate H].
  - intros c. split; [apply A |].
    intros [o [E _]]. destruct (exists_ (VInt c)) eqn:X; [reflexivity |].
    exfalso. apply B in X. subst c. rewrite to_string_member in X.
    destruct o; discriminate X.
  - intros c. split; [apply B |].
    intros H. destruct (exists_ (VInt c)) eqn:X; [| reflexivity].
    exfalso. apply A in X. destruct X as [o [_ X]]. rewrite X in H.
    destruct o; discriminate H.
  - reflexivity.
  - reflexivity.
Qed.

Lemma OrderType_name_truthy (o : OrderType) :
  truthy (VStr (OrderType_name o)) = true.
Proof. destruct o; reflexivity. Qed.

(** X3. What [to_string] does with its default: a member's code gives
    the member's name whatever the default is; for any other integer a
    truthy default is returned as it is, while a falsy default (None, the
    empty string, 0, False) is replaced by the UNKNOWN label. The result
    is therefore never falsy. *)
Theorem to_string_default (c : Z) (default : pyval) :
  (In c (map OrderType_value OrderType_members) ->
   exists o, OrderType_value o = c /\
             to_string (VInt c) default = VStr (OrderType_name o)) /\
  (~ In c (map OrderType_value OrderType_members) ->
   truthy default = true -> to_string (VInt c) default = default) /\
  (~ In c (map OrderType_value OrderType_members) ->
   truthy default = false ->
   to_string (VInt c) default = VStr ("UNKNOWN_" ++ str_of_int c)) /\
  truthy (to_string (VInt c) default) = true.
Proof.
  assert (N : ~ In c (map OrderType_value OrderType_members) ->
              find (fun o => int_eq_py (OrderType_value o) (VInt c))
                OrderType_members = None).
  { intros Hc. apply find_all_false. intros o _. simpl.
    apply Z.eqb_neq. intros E. apply Hc. rewrite <- E.
    apply in_map, all_members. }
  assert (M : In c (map OrderType_value OrderType_members) ->
              exists o, OrderType_value o = c /\
                        to_string (VInt c) default = VStr (OrderType_name o)).
  { intros I. apply in_map_iff in I. destruct I as [o [E _]].
    exists o. split; [exact E |]. rewrite <- E. apply to_string_member. }
  split; [exact M |]. split; [| split].
  - intros Hc Ht. unfold to_string. rewrite (N Hc), Ht. reflexivity.
  - intros Hc Ht. unfold to_string. rewrite (N Hc), Ht. reflexivity.
  - destruct (in_dec Z.eq_dec c (map OrderType_value OrderType_members)) as [I | I].
    + destruct (M I) as [o [_ E]]. rewrite E. apply OrderType_name_truthy.
    + unfold to_string. rewrite (N I).
      destruct (truthy default) eqn:Ht; [exact Ht | reflexivity].
Qed.

Lemma to_string_default_witness :
  to_string (VInt 42) (VStr "") = VStr "UNKNOWN_42" /\
  to_string (VInt 42) (VStr "n/a") = VStr "n/a".
Proof.
  assert (H : ~ In 42 (map OrderType_value OrderType_members)) by (simpl; lia).
  split.
  - exact (proj1 (proj2 (proj2 (to_string_default 42 (VStr "")))) H eq_refl).
  - exact (proj1 (proj2 (to_string_default 42 (VStr "n/a"))) H eq_refl).
Defined.

Lemma timeframes_table (s : string) (c : TimeframeConst) :
  Timeframe_getitem (VStr s) = Ret c <-> In (upper s, c) _timeframes.
Proof.
  unfold Timeframe_getitem, timeframes_lookup. split.
  - destruct (find (fun e => String.eqb (fst e) (upper s)) _timeframes)
      as [e |] eqn:F; [| discriminate].
    intros H. injection H as H. apply find_some in F. destruct F as [I E].
    apply String.eqb_eq in E. destruct e as [k c']. simpl in E, H.
    subst. exact I.
  - intros H. simpl in H.
    repeat (destruct H as [H | H];
            [injection H as Hk Hc; rewrite <- Hk; subst c; reflexivity |]).
    destruct H.
Qed.

(** X4. The timeframe lookup is the table read case-insensitively, and
    [get] never raises: for a string whose upper-casing the table binds to
    [c], [Timeframe[key]] returns [c] and [Timeframe.get] returns [c];
    for every other key (a string outside the table, or a value that is
    not a string) [Timeframe[key]] raises [KeyError] and [Timeframe.get]
    returns the default. *)
Theorem Timeframe_lookup (key default : pyval) :
  (exists s c, key = VStr s /\ In (upper s, c) _timeframes /\
               Timeframe_getitem key = Ret c /\
               Timeframe_get key default = Ret (inl c)) \/
  ((forall s c, key = VStr s -> ~ In (upper s, c) _timeframes) /\
   Timeframe_getitem key = Raise (KeyError key) /\
   Timeframe_get key default = Ret (inr default)).
Proof.
  destruct key as [| b | z | s | o | a];
    try (right; split; [intros s' c' H; discriminate H | split; reflexivity]).
  destruct (Timeframe_getitem (VStr s)) as [c | e] eqn:G.
  - left. exists s, c. split; [reflexivity |].
    split; [apply timeframes_table; exact G |].
    split; [reflexivity |]. unfold Timeframe_get. rewrite G. reflexivity.
  - right. split.
    + intros s' c' H I. injection H as <-.
      apply timeframes_table in I. congruence.
    + unfold Timeframe_get. rewrite G.
      unfold Timeframe_getitem in G.
      destruct (timeframes_lookup (upper s)); [discriminate G |].
      injection G as <-. split; reflexivity.
Qed.

(* ====================================================================== *)
(** * Further properties of [send_order] *)

Section SendOrderMore.

Context {T : Terminal}.

Lemma send_order_unknown_symbol (w : World T) action order_type a o symbol
    volume price stop_loss take_profit deviation comment expiration :
  Action_validate action = Ret a ->
  OrderType_validate order_type = Ret o ->
  fst (gw_get_symbols T symbol w) = [] ->
  send_order action order_type symbol volume price stop_loss take_profit
    deviation comment expiration (start w)
  = (Ret (reply false "Invalid symbol"), looked_up symbol w).
Proof.
  intros Ha Ho Hsym. unfold send_order, bind, lift. rewrite Ha, Ho.
  unfold get_symbols, perform, start. cbn [fst snd world calls].
  rewrite Hsym. reflexivity.
Qed.

Lemma send_order_not_selected (w : World T) action order_type a o symbol
    volume price stop_loss take_profit deviation comment expiration :
  Action_validate action = Ret a ->
  OrderType_validate order_type = Ret o ->
  fst (gw_get_symbols T symbol w) <> [] ->
  fst (gw_symbol_select T symbol true (snd (gw_get_symbols T symbol w))) = false ->
  send_order action order_type symbol volume price stop_loss take_profit
    deviation comment expiration (start w)
  = (Ret (reply false ("Failed to select " ++ symbol)), checked symbol w).
Proof.
  intros Ha Ho Hsym Hsel. unfold send_order, bind, lift. rewrite Ha, Ho.
  unfold get_symbols, symbol_select, perform, start. simpl.
  destruct (fst (gw_get_symbols T symbol w)) as [| x l] eqn:E;
    [contradiction |].
  simpl. rewrite Hsel. reflexivity.
Qed.

End SendOrderMore.

(** X5. Symbol validation comes before every other check of
    [send_order]: when the symbol lookup finds nothing the run ends with
    "Invalid symbol" after that single gateway call, and when the terminal
    does not activate a known symbol it ends with "Failed to select
    <symbol>" after the second call; in both cases whatever the volume,
    price and levels are, and with nothing submitted. *)
Theorem symbol_validation {T : Terminal} (w : World T)
    (action order_type : pyval) (a : TradeRequestActions) (o : OrderType)
    (symbol : string) (volume price stop_loss take_profit : Q)
    (deviation : Z) (comment : string) (expiration : option Z)
    (Ha : Action_validate action = Ret a)
    (Ho : OrderType_validate order_type = Ret o) :
  let r := send_order action order_type symbol volume price stop_loss
             take_profit deviation comment expiration (start w) in
  (fst (gw_get_symbols T symbol w) = [] ->
   fst r = Ret (reply false "Invalid symbol") /\
   calls (snd r) = [CGetSymbols symbol]) /\
  (fst (gw_get_symbols T symbol w) <> [] ->
   fst (gw_symbol_select T symbol true (snd (gw_get_symbols T symbol w))) = false ->
   fst r = Ret (reply false ("Failed to select " ++ symbol)) /\
   calls (snd r) = [CGetSymbols symbol; CSymbolSelect symbol true]).
Proof.
  intros r. unfold r. split.
  - intros Hsym.
    rewrite (send_order_unknown_symbol w action order_type a o) by assumption.
    split; reflexivity.
  - intros Hsym Hsel.
    rewrite (send_order_not_selected w action order_type a o) by assumption.
    split; reflexivity.
Qed.

Lemma symbol_validation_witness :
  fst (send_order (T := sim) (VAction PENDING) (VStr "BUY_LIMIT") "NOPE" 1000
         3000 0 0 20 "" None (start (T := sim) sim_world))
  = Ret (reply false "Invalid symbol") /\
  fst (send_order (T := sim_inactive) (VAction PENDING) (VStr "BUY_LIMIT")
         "XAUUSD" 1000 3000 0 0 20 "" None (start (T := sim_inactive) sim_world))
  = Ret (reply false "Failed to select XAUUSD").
Proof.
  split.
  - pose proof (symbol_validation (T := sim) sim_world (VAction PENDING)
                  (VStr "BUY_LIMIT") PENDING BUY_LIMIT "NOPE" 1000 3000 0 0 20
                  "" None eq_refl eq_refl) as H.
    cbv zeta in H. exact (proj1 (proj1 H eq_refl)).
  - pose proof (symbol_validation (T := sim_inactive) sim_world (VAction PENDING)
                  (VStr "BUY_LIMIT") PENDING BUY_LIMIT "XAUUSD" 1000 3000 0 0 20
                  "" None eq_refl eq_refl) as H.
    cbv zeta in H.
    assert (N : fst (gw_get_symbols sim_inactive "XAUUSD" sim_world) <> [])
      by discriminate.
    exact (proj1 (proj2 H N eq_refl)).
Defined.

(** X7. The order-type gate of the two implemented actions: a validated
    market deal whose order type is neither BUY nor SELL ends with
    "Invalid order type, must be BUY or SELL", and a validated pending
    order whose type is not one of the four pending types ends with the
    message naming them; in both cases right after the two symbol calls,
    without asking for a quote and with nothing submitted. *)
Theorem order_type_gate {T : Terminal} (w : World T)
    (action order_type : pyval) (a : TradeRequestActions) (o : OrderType)
    (symbol : string) (volume price stop_loss take_profit : Q)
    (deviation : Z) (comment : string) (expiration : option Z)
    (Ha : Action_validate action = Ret a)
    (Ho : OrderType_validate order_type = Ret o)
    (Hs : symbol_ok symbol w)
    (Hv : volume_in_range volume)
    (Hl : levels_valid o price stop_loss take_profit) :
  let r := send_order action order_type symbol volume price stop_loss
             take_profit deviation comment expiration (start w) in
  (a = DEAL -> o <> BUY -> o <> SELL ->
   r = (Ret (reply false "Invalid order type, must be BUY or SELL"),
        checked symbol w)) /\
  (a = PENDING -> ~ In o pending_types ->
   r = (Ret (reply false
          "Invalid order type, must be BUY_LIMIT, SELL_LIMIT, BUY_STOP, or SELL_STOP"),
        checked symbol w)).
Proof.
  intros r. unfold r.
  rewrite (send_order_dispatched w action order_type a o) by assumption.
  split.
  - intros -> N1 N2. unfold dispatch.
    destruct o; try reflexivity; contradiction.
  - intros -> N. unfold dispatch, pending_types in *.
    destruct o; try reflexivity; exfalso; apply N; simpl; tauto.
Qed.

Lemma sim_stop_limit_levels : levels_valid BUY_STOP_LIMIT 4000 0 0.
Proof. split; intros H; simpl in H; intuition discriminate. Qed.

Lemma order_type_gate_witness :
  fst (send_order (T := sim) (VStr "deal") (VInt 6) "XAUUSD" 0.1 4000 0 0 20
         "" None (start (T := sim) sim_world))
  = Ret (reply false "Invalid order type, must be BUY or SELL").
Proof.
  pose proof (order_type_gate (T := sim) sim_world (VStr "deal") (VInt 6)
                DEAL BUY_STOP_LIMIT "XAUUSD" 0.1 4000 0 0 20 "" None
                eq_refl eq_refl sim_symbol_ok sim_volume_ok
                sim_stop_limit_levels) as H.
  cbv zeta in H. destruct H as [H _].
  rewrite (H eq_refl); [reflexivity | discriminate | discriminate].
Defined.

(** X8. The actions without a handler: a validated SLTP, MODIFY, REMOVE
    or CLOSE_BY request falls through to the final return and yields the
    generic failure (success False, return_code -1, "Unknown error") right
    after the two symbol calls; nothing is submitted. *)
Theorem unhandled_actions {T : Terminal} (w : World T)
    (action order_type : pyval) (a : TradeRequestActions) (o : OrderType)
    (symbol : string) (volume price stop_loss take_profit : Q)
    (deviation : Z) (comment : string) (expiration : option Z)
    (Ha : Action_validate action = Ret a)
    (Ho : OrderType_validate order_type = Ret o)
    (Hs : symbol_ok symbol w)
    (Hv : volume_in_range volume)
    (Hl : levels_valid o price stop_loss take_profit)
    (Hu : a <> DEAL /\ a <> PENDING) :
  send_order action order_type symbol volume price stop_loss
    take_profit deviation comment expiration (start w)
  = (Ret unknown_error, checked symbol w).
Proof.
  rewrite (send_order_dispatched w action order_type a o) by assumption.
  destruct Hu as [N1 N2]. unfold dispatch.
  destruct a; try reflexivity; contradiction.
Qed.

Lemma unhandled_actions_witness :
  send_order (T := sim) (VInt 8) (VStr "buy") "XAUUSD" 0.1 4000 3900 4100 20
    "" None (start (T := sim) sim_world)
  = (Ret unknown_error, checked (T := sim) "XAUUSD" sim_world).
Proof.
  apply (unhandled_actions (T := sim) sim_world (VInt 8) (VStr "buy")
           REMOVE BUY "XAUUSD" 0.1 4000 3900 4100 20 "" None
           eq_refl eq_refl sim_symbol_ok sim_volume_ok sim_buy_levels).
  split; discriminate.
Defined.

Section PendingRun.

Context {T : Terminal}.

(** The run of a validated pending order from the quote on. *)
Lemma pending_dispatch (st : St T) o symbol volume price stop_loss take_profit
    deviation comment expiration :
  In o pending_types ->
  dispatch PENDING o symbol volume price stop_loss take_profit deviation
    comment expiration st
  = match match fst (gw_symbol_info_tick T symbol (world st)) with
          | Some tk => pending_price_check o price tk
          | None => None
          end with
    | Some msg =>
        (Ret (reply false msg),
         {| world := snd (gw_symbol_info_tick T symbol (world st));
            calls := calls st ++ [CSymbolInfoTick symbol] |})
    | None =>
        let request := pending_request PENDING symbol volume o price stop_loss
                         take_profit deviation comment expiration in
        let w_sent := gw_order_send T request
                        (snd (gw_symbol_info_tick T symbol (world st))) in
        (Ret (outcome_of_last_error (fst (gw_last_error T w_sent))),
         {| world := snd (gw_last_error T w_sent);
            calls := ((calls st ++ [CSymbolInfoTick symbol])
                      ++ [COrderSend request]) ++ [CLastError] |})
    end.
Proof.
  intros Hp. unfold dispatch. rewrite (member_of_pending o Hp). cbn [negb].
  unfold bind, symbol_info_tick, order_send, last_error, perform, ret.
  cbn [fst snd world calls].
  destruct (match fst (gw_symbol_info_tick T symbol (world st)) with
            | Some tk => pending_price_check o price tk
            | None => None
            end); reflexivity.
Qed.

End PendingRun.

(** X9. The outcome of a submitted pending order is read off the
    last-error channel after the submission: for a validated pending order
    whose price is consistent with the quote (or without a quote), exactly
    one request is submitted, the outcome is the success "Order sent
    successfully" when the error code is not negative, and the non-success
    "Error <code>: <description>" when it is negative. *)
Theorem pending_outcome {T : Terminal} (w : World T)
    (action order_type : pyval) (o : OrderType)
    (symbol : string) (volume price stop_loss take_profit : Q)
    (deviation : Z) (comment : string) (expiration : option Z)
    (Ha : Action_validate action = Ret PENDING)
    (Ho : OrderType_validate order_type = Ret o)
    (Hp : In o pending_types)
    (Hs : symbol_ok symbol w)
    (Hv : volume_in_range volume)
    (Hl : levels_valid o price stop_loss take_profit)
    (Hq : forall tk,
        fst (gw_symbol_info_tick T symbol (world (checked symbol w))) = Some tk ->
        ~ market_violation o price tk) :
  let r := send_order action order_type symbol volume price stop_loss
             take_profit deviation comment expiration (start w) in
  let request := pending_request PENDING symbol volume o price stop_loss
                   take_profit deviation (effective_comment comment)
                   expiration in
  let err := fst (gw_last_error T
                    (gw_order_send T request
                       (snd (gw_symbol_info_tick T symbol
                               (world (checked symbol w)))))) in
  submissions (snd r) = [COrderSend request] /\
  (0 <= fst err -> fst r = Ret (reply true "Order sent successfully")) /\
  (fst err < 0 ->
   fst r = Ret (reply false
                  ("Error " ++ str_of_int (fst err) ++ ": " ++ snd err))).
Proof.
  intros r request err. unfold r.
  rewrite (send_order_dispatched w action order_type PENDING o) by assumption.
  rewrite (pending_dispatch _ o) by assumption.
  assert (N : match fst (gw_symbol_info_tick T symbol (world (checked symbol w))) with
              | Some tk => pending_price_check o price tk
              | None => None
              end = None).
  { destruct (fst (gw_symbol_info_tick T symbol (world (checked symbol w))))
      as [tk |] eqn:E; [| reflexivity].
    apply (proj2 (pending_price_check_spec o price tk Hp)). apply Hq. reflexivity. }
  rewrite N. cbv zeta. fold request. fold err. cbn [fst snd].
  split; [reflexivity |].
  unfold outcome_of_last_error. destruct err as [code d]. cbn [fst snd].
  split; intros H.
  - destruct (Z.ltb_spec code 0); [lia | reflexivity].
  - destruct (Z.ltb_spec code 0); [reflexivity | lia].
Qed.

Lemma pending_outcome_witness :
  fst (send_order (T := sim) (VAction PENDING) (VStr "SELL_LIMIT") "XAUUSD" 0.1
         4000 4100 3900 20 "" None (start (T := sim) sim_world_error))
  = Ret (reply false "Error -2: Invalid params").
Proof.
  assert (S : symbol_ok (T := sim) "XAUUSD" sim_world_error)
    by (split; [discriminate | reflexivity]).
  assert (L : levels_valid SELL_LIMIT 4000 4100 3900).
  { split; intros H.
    - simpl in H. intuition discriminate.
    - unfold Qlt. simpl. lia. }
  assert (Q : forall tk,
    fst (gw_symbol_info_tick sim "XAUUSD"
           (world (checked (T := sim) "XAUUSD" sim_world_error))) = Some tk ->
    ~ market_violation SELL_LIMIT 4000 tk).
  { intros tk E. injection E as <-. unfold market_violation, Qlt. simpl. lia. }
  pose proof (pending_outcome (T := sim) sim_world_error (VAction PENDING)
                (VStr "SELL_LIMIT") SELL_LIMIT "XAUUSD" 0.1 4000 4100 3900 20
                "" None eq_refl eq_refl (or_intror (or_introl eq_refl))
                S sim_volume_ok L Q) as H.
  cbv zeta in H. destruct H as [_ [_ H]].
  rewrite H; [reflexivity | simpl; lia].
Defined.

Lemma member_of_pending_inv o :
  member_of o [BUY_LIMIT; SELL_LIMIT; BUY_STOP; SELL_STOP] = true ->
  In o pending_types.
Proof. destruct o; simpl; intros H; try discriminate H; tauto. Qed.

(* ====================================================================== *)
(** * Further properties of [_getPositions] *)


Lemma to_code_returns (name default : pyval) :
  exists v, to_code name default = Ret v.
Proof.
  unfold to_code, to_code_try, call_upper.
  destruct name as [| b | z | s | o | a]; try (eexists; reflexivity).
  destruct (getitem_spec (upper s)) as [[o [_ Hg]] | [_ Hg]]; rewrite Hg;
    eexists; reflexivity.
Qed.


Lemma filter_by_type_returns (order_type : option pyval) (df : DataFrame) :
  exists rows, filter_by_type order_type df = Ret rows.
Proof.
  unfold filter_by_type. destruct order_type as [ot |]; [| eexists; reflexivity].
  destruct (negb (length df =? 0)%nat); [| eexists; reflexivity].
  destruct ot as [| b | z | s | o | a]; try (eexists; reflexivity).
  destruct (to_code_returns (VStr s) VNone) as [v E]. rewrite E.
  eexists. reflexivity.
Qed.



Section OrdersMore.

Context {T : Terminal}.

Variable int_of_str : string -> option Z.

Lemma getPositions_no_ticket (st : St T) (symbol_name group : option string)
    (order_type : option pyval) :
  _getPositions int_of_str None symbol_name group order_type st
  = fetch_positions order_type (filter_of symbol_name group) st.
Proof.
  unfold _getPositions, filter_of. unfold bind at 1. unfold ret at 1.
  destruct symbol_name, group; reflexivity.
Qed.

Lemma fetch_positions_run (st : St T) (order_type : option pyval) (f : PosFilter) :
  fetch_positions order_type f st
  = (match fst (gw_positions_get T f (world st)) with
     | Some ps => filter_by_type order_type (convert_positions_to_dataframe ps)
     | None => Ret []
     end,
     {| world := snd (gw_positions_get T f (world st));
        calls := calls st ++ [CPositionsGet f] |}).
Proof.
  unfold fetch_positions, bind, positions_get, perform, lift, ret.
  cbn [fst snd world calls].
  destruct (fst (gw_positions_get T f (world st))); reflexivity.
Qed.

End OrdersMore.

(** X12. A query without ticket makes exactly one gateway call, the
    position query selected by precedence: by symbol when a symbol name is
    given (even the empty string; the group is then ignored), else by
    group, else unfiltered. The symbol lookup is never called. When the
    gateway answers [None] the result is empty; without an order-type
    filter the result is the projection of the whole answer. *)
Theorem query_without_ticket {T : Terminal} (int_of_str : string -> option Z)
    (w : World T) (symbol_name group : option string)
    (order_type : option pyval) :
  let r := _getPositions int_of_str None symbol_name group order_type
             (start w) in
  let answer := fst (gw_positions_get T (filter_of symbol_name group) w) in
  calls (snd r) = [CPositionsGet (filter_of symbol_name group)] /\
  (forall s, symbol_name = Some s -> filter_of symbol_name group = BySymbol s) /\
  (answer = None -> fst r = Ret []) /\
  (forall ps, answer = Some ps -> order_type = None ->
              fst r = Ret (convert_positions_to_dataframe ps)).
Proof.
  intros r answer. unfold r.
  rewrite getPositions_no_ticket, fetch_positions_run.
  cbn [fst snd calls start world]. fold answer.
  split; [reflexivity |]. split; [intros s ->; reflexivity |]. split.
  - intros ->. reflexivity.
  - intros ps -> ->. reflexivity.
Qed.

Lemma query_without_ticket_witness :
  fst (_getPositions (T := sim) sim_int_of_str None (Some "XAUUSD")
         (Some "*EUR*") None (start (T := sim) sim_world))
  = Ret (convert_positions_to_dataframe
           [ {| raw_ticket := 123; raw_symbol := "XAUUSD"; raw_type := 0;
                raw_profit := 12.5 |};
             {| raw_ticket := 125; raw_symbol := "XAUUSD"; raw_type := 1;
                raw_profit := 0 |} ]).
Proof.
  pose proof (query_without_ticket (T := sim) sim_int_of_str sim_world
                (Some "XAUUSD") (Some "*EUR*") None) as H.
  cbv zeta in H. destruct H as [_ [_ [_ H]]].
  exact (H _ eq_refl eq_refl).
Defined.



Section OrdersTotal.

Context {T : Terminal}.

Variable int_of_str : string -> option Z.

Lemma getPositions_ticket_run (w : World T) (t : Ticket)
    (symbol_name group : option string) (order_type : option pyval)
    (b : bool) (st' : St T) :
  precheck symbol_name group (start w) = (Ret b, st') ->
  _getPositions int_of_str (Some t) symbol_name group order_type (start w)
  = (if b then ret []
     else match ticket_number int_of_str t with
          | Some n => fetch_positions order_type (ByTicket n)
          | None => ret []
          end) st'.
Proof.
  exact (getPositions_by_ticket int_of_str w t symbol_name group order_type b st').
Qed.

(** One fetch returns rows, adds one position query, and returns no row
    when the gateway has no answer. *)
Lemma fetch_positions_returns (st : St T) (order_type : option pyval)
    (f : PosFilter) :
  exists rows,
    fst (fetch_positions order_type f st) = Ret rows /\
    position_queries (snd (fetch_positions order_type f st))
    = (position_queries st ++ [CPositionsGet f])%list /\
    (fst (gw_positions_get T f (world st)) = None -> rows = []).
Proof.
  rewrite fetch_positions_run. cbn [fst snd].
  rewrite position_queries_snoc. cbn [is_positions_get].
  destruct (fst (gw_positions_get T f (world st))) as [ps |].
  - destruct (filter_by_type_returns order_type (convert_positions_to_dataframe ps))
      as [rows E].
    exists rows. rewrite E. split; [reflexivity |]. split; [reflexivity |].
    discriminate.
  - exists []. split; [reflexivity |]. split; reflexivity.
Qed.

End OrdersTotal.

(** X14. [_getPositions] always returns a DataFrame: no argument and no
    gateway answer makes it raise (an unknown order-type name, a ticket
    string that is not a number and a missing collection all end in a
    result). A call makes at most one position query, and when the gateway
    has no collection to return the result is empty. *)
Theorem getPositions_returns {T : Terminal} (int_of_str : string -> option Z)
    (w : World T) (ticket : option Ticket) (symbol_name group : option string)
    (order_type : option pyval) :
  let r := _getPositions int_of_str ticket symbol_name group order_type
             (start w) in
  exists rows,
    fst r = Ret rows /\
    (length (position_queries (snd r)) <= 1)%nat /\
    ((forall f w', fst (gw_positions_get T f w') = None) -> rows = []).
Proof.
  intros r. unfold r. clear r.
  destruct ticket as [t |].
  - destruct (precheck_spec (start w) symbol_name group) as [P1 P2].
    destruct (precheck symbol_name group (start w)) as [[b | e] st'] eqn:P;
      cbn [fst snd] in P1, P2; [| discriminate P1].
    change (position_queries (start w)) with (@nil Call) in P2.
    rewrite (getPositions_ticket_run int_of_str w t symbol_name group
               order_type b st' P).
    destruct b.
    + exists []. cbn [fst snd ret]. rewrite P2.
      split; [reflexivity |]. split; [simpl; lia | reflexivity].
    + destruct (ticket_number int_of_str t) as [n |].
      * destruct (fetch_positions_returns st' order_type (ByTicket n))
          as [rows [E [Q S]]].
        exists rows. rewrite E, Q, P2.
        split; [reflexivity |]. split; [simpl; lia |].
        intros H. apply S, H.
      * exists []. cbn [fst snd ret]. rewrite P2.
        split; [reflexivity |]. split; [simpl; lia | reflexivity].
  - rewrite getPositions_no_ticket.
    destruct (fetch_positions_returns (start w) order_type
                (filter_of symbol_name group)) as [rows [E [Q S]]].
    exists rows. rewrite E, Q.
    split; [reflexivity |]. split; [simpl; lia |].
    intros H. apply S, H.
Qed.

Lemma getPositions_returns_witness :
  fst (_getPositions (T := sim_silent) sim_int_of_str (Some (TStr "123")) None
         (Some "*USD*") (Some (VStr "buy")) (start (T := sim_silent) sim_world))
  = Ret [].
Proof.
  destruct (getPositions_returns (T := sim_silent) sim_int_of_str sim_world
              (Some (TStr "123")) None (Some "*USD*") (Some (VStr "buy")))
    as [rows [E [_ S]]].
  rewrite E. f_equal. apply S. intros f w'. reflexivity.
Defined.

(* ====================================================================== *)
(** * Further properties of [close_all_profittable_positions] *)

Section CloseAllMore.

Context {T : Terminal}.

(** The loop stops at the first close that raises. *)
Lemma close_each_aborts (pre post : list Z) (i : Z) (e : exn) :
  (forall j w, In j pre -> exists b, fst (gw_close_position T j w) = Ret b) ->
  (forall w, fst (gw_close_position T i w) = Raise e) ->
  forall (count : nat) (st : St T),
  exists w',
    close_each (pre ++ i :: post) count st =
    (Raise e,
     {| world := w';
        calls := calls st ++ map CClosePosition (pre ++ [i]) |}).
Proof.
  intros Hpre Hi. induction pre as [| j pre IH]; intros count st.
  - simpl. unfold bind, close_position. rewrite Hi.
    eexists. reflexivity.
  - simpl. unfold bind at 1. unfold close_position at 1.
    destruct (Hpre j (world st) (or_introl eq_refl)) as [b Hb]. rewrite Hb.
    destruct (IH (fun k w Hk => Hpre k w (or_intror Hk)) (count + 1)%nat
                {| world := snd (gw_close_position T j (world st));
                   calls := calls st ++ [CClosePosition j] |}) as [w' E].
    exists w'. rewrite E. cbn [calls]. rewrite <- app_assoc. reflexivity.
Qed.

End CloseAllMore.

(** X15. A close that raises ends the whole operation. When the
    retained positions are [pre], then a position whose close raises [e],
    then [post], and the closes of [pre] return, the call raises [e]: no
    summary is returned, the closes made are those of [pre] and the
    raising one, and no position of [post] is closed. *)
Theorem close_all_aborts_on_raise {T : Terminal} (w : World T)
    (pre post : list Z) (i : Z) (e : exn)
    (Hids : map id (filter (fun p => Qle_bool 0 (profit p))
                      (fst (gw_get_all_positions T w)))
            = (pre ++ i :: post)%list)
    (Hpre : forall j w', In j pre ->
              exists b, fst (gw_close_position T j w') = Ret b)
    (Hi : forall w', fst (gw_close_position T i w') = Raise e) :
  let r := close_all_profittable_positions (start w) in
  fst r = Raise e /\
  calls (snd r)
  = CGetAllPositions :: map CClosePosition (pre ++ [i]).
Proof.
  intros r.
  destruct (close_each_aborts pre post i e Hpre Hi 0%nat
              {| world := snd (gw_get_all_positions T w);
                 calls := [] ++ [CGetAllPositions] |}) as [w' E].
  assert (R : r = (Raise e,
                   {| world := w';
                      calls := CGetAllPositions
                               :: map CClosePosition (pre ++ [i]) |})).
  { unfold r, close_all_profittable_positions.
    unfold bind at 1. unfold get_all_positions, perform.
    cbn [fst snd world calls start].
    change (fun p : PositionRecord => Qge_bool (profit p) 0)
      with (fun p : PositionRecord => Qle_bool 0 (profit p)).
    rewrite Hids. unfold bind. rewrite E. reflexivity. }
  rewrite R. split; reflexivity.
Qed.

Lemma close_all_aborts_on_raise_witness :
  fst (close_all_profittable_positions (start (T := sim_raising) sim_world_late))
  = Raise ValueError /\
  calls (snd (close_all_profittable_positions
                (start (T := sim_raising) sim_world_late)))
  = [CGetAllPositions; CClosePosition 125; CClosePosition 123].
Proof.
  apply (close_all_aborts_on_raise (T := sim_raising) sim_world_late [125] [126]
           123 ValueError eq_refl).
  - intros j w' [<- | []]. exists true. reflexivity.
  - intros w'. reflexivity.
Defined.

(* ====================================================================== *)
(** * Properties of [get_deals] *)

Module HistoryFacts.

Import History.

Section Facts.

Context {G : Gateway}.

Lemma fetch_deals_run (st : HSt G) (from_date to_date : option Z)
    (group : option string) (ticket position : option Z) :
  let plan := issued_query from_date to_date group ticket position (hworld st) in
  fetch_deals from_date to_date group ticket position st
  = (HRet (fst (gw_history_deals_get G (fst plan) (snd plan))),
     {| hworld := snd (gw_history_deals_get G (fst plan) (snd plan));
        hcalls := (hcalls st
                   ++ clock_reads from_date to_date ticket position)
                  ++ [CHistoryDealsGet (fst plan)] |}).
Proof.
  unfold fetch_deals, issued_query, clock_reads.
  destruct ticket as [t |]; [| destruct position as [p |]];
    try (unfold history_deals_get, hperform; cbn [fst snd hworld hcalls];
         rewrite app_nil_r; reflexivity).
  destruct from_date as [f |], to_date as [u |];
    unfold hbind, hret, now, history_deals_get, hperform;
    cbn [fst snd hworld hcalls app];
    rewrite <- ?app_assoc, ?app_nil_r; reflexivity.
Qed.

(** The run of a connected call. *)
Lemma get_deals_connected (w : HWorld G) (from_date to_date : option Z)
    (group : option string) (ticket position : option Z) :
  fst (gw_is_connected G w) = true ->
  let plan := issued_query from_date to_date group ticket position
                (snd (gw_is_connected G w)) in
  let answer := gw_history_deals_get G (fst plan) (snd plan) in
  let before := (([CIsConnected]
                  ++ clock_reads from_date to_date ticket position)
                 ++ [CHistoryDealsGet (fst plan)])%list in
  get_deals from_date to_date group ticket position (hstart w)
  = match fst answer with
    | Failed text =>
        (HRaise (DealsHistoryError
                   ("Failed to retrieve deals history: " ++ text)
                   (fst (fst (gw_history_last_error G (snd answer))))),
         {| hworld := snd (gw_history_last_error G (snd answer));
            hcalls := (before ++ [CHistoryLastError])%list |})
    | NoResult =>
        (HRaise (DealsHistoryError
                   ("Failed to retrieve deals history: "
                    ++ snd (fst (gw_history_last_error G (snd answer))))
                   (fst (fst (gw_history_last_error G (snd answer))))),
         {| hworld := snd (gw_history_last_error G (snd answer));
            hcalls := (before ++ [CHistoryLastError])%list |})
    | Deals ds =>
        (HRet ds, {| hworld := snd answer; hcalls := before |})
    end.
Proof.
  intros Hc plan answer before.
  unfold get_deals. unfold hbind at 1. unfold is_connected, hperform.
  cbn [fst snd hworld hcalls hstart]. rewrite Hc. cbn [negb].
  unfold hbind at 1. rewrite fetch_deals_run. cbn [hworld hcalls].
  fold plan. fold answer. cbn [app]. fold before.
  destruct (fst answer) as [text | | ds].
  - reflexivity.
  - reflexivity.
  - destruct ds as [| d ds']; [reflexivity |].
    cbn [length Nat.eqb]. unfold hret. rewrite map_id. reflexivity.
Qed.

End Facts.

(** X16. A call on a connection that is not connected raises
    [ConnectionError] right after the connection test: the clock is not
    read and the terminal's history is not queried, whatever the
    arguments. *)
Theorem not_connected_raises {G : Gateway} (w : HWorld G)
    (from_date to_date : option Z) (group : option string)
    (ticket position : option Z)
    (Hc : fst (gw_is_connected G w) = false) :
  let r := get_deals from_date to_date group ticket position (hstart w) in
  fst r = HRaise (ConnectionError "Not connected to MetaTrader 5 terminal.") /\
  hcalls (snd r) = [CIsConnected].
Proof.
  intros r. unfold r, get_deals, hbind, is_connected, hperform, hraise.
  cbn [fst snd hworld hcalls hstart]. rewrite Hc.
  split; reflexivity.
Qed.

Lemma not_connected_raises_witness :
  fst (get_deals (G := sim_gateway) None None None (Some 9001) None
         (hstart (G := sim_gateway) (sim_history false (Deals [sim_deal]))))
  = HRaise (ConnectionError "Not connected to MetaTrader 5 terminal.").
Proof.
  exact (proj1 (not_connected_raises (G := sim_gateway)
                  (sim_history false (Deals [sim_deal]))
                  None None None (Some 9001) None eq_refl)).
Defined.

(** X17. A connected call issues exactly one history query, chosen by
    precedence: by ticket when a ticket is given (position, dates and
    group are then ignored), else by position, else by date range with the
    group. The clock is read only for a range query, once for each bound
    that is not given. *)
Theorem history_query_precedence {G : Gateway} (w : HWorld G)
    (from_date to_date : option Z) (group : option string)
    (ticket position : option Z)
    (Hc : fst (gw_is_connected G w) = true) :
  let r := get_deals from_date to_date group ticket position (hstart w) in
  (forall t, ticket = Some t ->
     history_queries (snd r) = [CHistoryDealsGet (QTicket t)] /\
     ~ In CNow (hcalls (snd r))) /\
  (forall p, ticket = None -> position = Some p ->
     history_queries (snd r) = [CHistoryDealsGet (QPosition p)] /\
     ~ In CNow (hcalls (snd r))) /\
  (forall f u, ticket = None -> position = None ->
     from_date = Some f -> to_date = Some u ->
     history_queries (snd r) = [CHistoryDealsGet (QRange f u group)] /\
     ~ In CNow (hcalls (snd r))).
Proof.
  intros r. unfold r.
  rewrite (get_deals_connected w from_date to_date group ticket position Hc).
  cbv zeta.
  split; [| split].
  - intros t ->. cbn [issued_query clock_reads fst snd].
    destruct (fst (gw_history_deals_get G (QTicket t) (snd (gw_is_connected G w))));
      (split; [reflexivity | simpl; intuition discriminate]).
  - intros p -> ->. cbn [issued_query clock_reads fst snd].
    destruct (fst (gw_history_deals_get G (QPosition p) (snd (gw_is_connected G w))));
      (split; [reflexivity | simpl; intuition discriminate]).
  - intros f u -> -> -> ->. cbn [issued_query clock_reads fst snd].
    destruct (fst (gw_history_deals_get G (QRange f u group)
                     (snd (gw_is_connected G w))));
      (split; [reflexivity | simpl; intuition discriminate]).
Qed.

Lemma history_query_precedence_witness :
  history_queries
    (snd (get_deals (G := sim_gateway) (Some 100) (Some 200) (Some "*USD*")
            (Some 9001) (Some 123)
            (hstart (G := sim_gateway) (sim_history true (Deals [sim_deal])))))
  = [CHistoryDealsGet (QTicket 9001)].
Proof.
  pose proof (history_query_precedence (G := sim_gateway)
                (sim_history true (Deals [sim_deal]))
                (Some 100) (Some 200) (Some "*USD*") (Some 9001) (Some 123)
                eq_refl) as H.
  cbv zeta in H. destruct H as [H _].
  exact (proj1 (H 9001 eq_refl)).
Defined.

(** X18. The default window of a range query. With neither ticket nor
    position nor dates, a connected call reads the clock twice and queries
    the range from thirty days before the first reading to the second
    reading, with the group; a given bound is used as it is and the clock
    is read once for the other. *)
Theorem default_window {G : Gateway} (w : HWorld G)
    (from_date to_date : option Z) (group : option string)
    (Hc : fst (gw_is_connected G w) = true) :
  let r := get_deals from_date to_date group None None (hstart w) in
  let w1 := snd (gw_is_connected G w) in
  (from_date = None -> to_date = None ->
   history_queries (snd r)
   = [CHistoryDealsGet
        (QRange (fst (gw_now G w1) - 30 * 86400)
                (fst (gw_now G (snd (gw_now G w1)))) group)] /\
   filter (fun c => match c with CNow => true | _ => false end) (hcalls (snd r))
   = [CNow; CNow]) /\
  (forall f, from_date = Some f -> to_date = None ->
   history_queries (snd r)
   = [CHistoryDealsGet (QRange f (fst (gw_now G w1)) group)]) /\
  (forall u, from_date = None -> to_date = Some u ->
   history_queries (snd r)
   = [CHistoryDealsGet (QRange (fst (gw_now G w1) - 30 * 86400) u group)]).
Proof.
  intros r w1. unfold r.
  rewrite (get_deals_connected w from_date to_date group None None Hc).
  cbv zeta. fold w1.
  split; [| split].
  - intros -> ->. cbn [issued_query clock_reads fst snd].
    match goal with
    | |- context [fst (gw_history_deals_get G ?q ?x)] =>
        destruct (fst (gw_history_deals_get G q x))
    end; split; reflexivity.
  - intros f -> ->. cbn [issued_query clock_reads fst snd].
    match goal with
    | |- context [fst (gw_history_deals_get G ?q ?x)] =>
        destruct (fst (gw_history_deals_get G q x))
    end; reflexivity.
  - intros u -> ->. cbn [issued_query clock_reads fst snd].
    match goal with
    | |- context [fst (gw_history_deals_get G ?q ?x)] =>
        destruct (fst (gw_history_deals_get G q x))
    end; reflexivity.
Qed.

Lemma default_window_witness :
  history_queries
    (snd (get_deals (G := sim_gateway) None None (Some "*USD*") None None
            (hstart (G := sim_gateway) (sim_history true (Deals [sim_deal])))))
  = [CHistoryDealsGet (QRange 2408000 5000001 (Some "*USD*"))].
Proof.
  pose proof (default_window (G := sim_gateway)
                (sim_history true (Deals [sim_deal])) None None (Some "*USD*")
                eq_refl) as H.
  cbv zeta in H. destruct H as [H _].
  exact (proj1 (H eq_refl eq_refl)).
Defined.

(** X19. How a connected call ends, by the answer to its query: when
    the terminal returns deals the call returns exactly those deals, in
    order (the empty list for no deals), without reading the error
    channel; when it returns [None] the call raises [DealsHistoryError]
    with the description and the code of the last error; when the query
    itself raises, the exception is replaced by [DealsHistoryError] with
    its text and the code of the last error. *)
Theorem history_answer {G : Gateway} (w : HWorld G)
    (from_date to_date : option Z) (group : option string)
    (ticket position : option Z)
    (Hc : fst (gw_is_connected G w) = true) :
  let r := get_deals from_date to_date group ticket position (hstart w) in
  let plan := issued_query from_date to_date group ticket position
                (snd (gw_is_connected G w)) in
  let answer := gw_history_deals_get G (fst plan) (snd plan) in
  let error := fst (gw_history_last_error G (snd answer)) in
  (forall ds, fst answer = Deals ds ->
     fst r = HRet ds /\ ~ In CHistoryLastError (hcalls (snd r))) /\
  (fst answer = NoResult ->
     fst r = HRaise (DealsHistoryError
                       ("Failed to retrieve deals history: " ++ snd error)
                       (fst error))) /\
  (forall text, fst answer = Failed text ->
     fst r = HRaise (DealsHistoryError
                       ("Failed to retrieve deals history: " ++ text)
                       (fst error))).
Proof.
  intros r plan answer error. unfold r.
  rewrite (get_deals_connected w from_date to_date group ticket position Hc).
  cbv zeta. fold plan. fold answer.
  split; [| split].
  - intros ds E. rewrite E. cbn [fst snd hcalls]. split; [reflexivity |].
    intros I. apply in_app_or in I. destruct I as [I | I].
    + apply in_app_or in I. destruct I as [I | I].
      * simpl in I. intuition discriminate.
      * unfold clock_reads in I.
        destruct ticket, position, from_date, to_date; simpl in I;
          intuition discriminate.
    + simpl in I. intuition discriminate.
  - intros E. rewrite E. reflexivity.
  - intros text E. rewrite E. reflexivity.
Qed.

Lemma history_answer_witness :
  fst (get_deals (G := sim_gateway) None None None None (Some 123)
         (hstart (G := sim_gateway) (sim_history true NoResult)))
  = HRaise (DealsHistoryError "Failed to retrieve deals history: No connection"
              (-10004)).
Proof.
  pose proof (history_answer (G := sim_gateway) (sim_history true NoResult)
                None None None None (Some 123) eq_refl) as H.
  cbv zeta in H. destruct H as [_ [H _]].
  exact (H eq_refl).
Defined.

End HistoryFacts.

(* ====================================================================== *)
(** * Properties of [send_order] on Python floats *)

Module PyFloatFacts.

Import PyFloat.

Lemma volume_test_float (v : num) :
  le v (Fin 0) || gt v (Fin 100) = false <-> volume_passes v.
Proof.
  unfold volume_passes. destruct v as [q | | |].
  - change (le (Fin q) (Fin 0) || gt (Fin q) (Fin 100))
      with (Qle_bool q 0 || Qgt_bool q 100).
    rewrite volume_test_iff. split.
    + intros H. right. exists q. split; [reflexivity | exact H].
    + intros [H | [q' [E H]]]; [discriminate H |].
      injection E as <-. exact H.
  - split; [discriminate |].
    intros [H | [q [H _]]]; discriminate H.
  - split; [discriminate |].
    intros [H | [q [H _]]]; discriminate H.
  - split; [intros _; left; reflexivity | reflexivity].
Qed.

(** Among numbers the third comparison of the buy side never decides. *)
Lemma buy_third_needs_nan (price stop_loss take_profit : num) :
  ge stop_loss price = false ->
  le take_profit price = false ->
  gt stop_loss take_profit = true ->
  price = NaN.
Proof.
  unfold ge, gt.
  destruct price as [p | | |], stop_loss as [s | | |], take_profit as [t | | |];
    simpl; intros H1 H2 H3; try discriminate; try reflexivity.
  exfalso.
  assert (L1 : (s < p)%Q).
  { apply Qnot_le_lt. intros L. apply Qle_bool_iff in L. congruence. }
  assert (L2 : (p < t)%Q).
  { apply Qnot_le_lt. intros L. apply Qle_bool_iff in L. congruence. }
  apply Qlt_bool_iff in H3.
  exact (Qlt_irrefl _ (Qlt_trans _ _ _ (Qlt_trans _ _ _ L1 L2) H3)).
Qed.

(** The same on the sell side. *)
Lemma sell_third_needs_nan (price stop_loss take_profit : num) :
  le stop_loss price = false ->
  ge take_profit price = false ->
  lt stop_loss take_profit = true ->
  price = NaN.
Proof.
  unfold ge.
  destruct price as [p | | |], stop_loss as [s | | |], take_profit as [t | | |];
    simpl; intros H1 H2 H3; try discriminate; try reflexivity.
  exfalso.
  assert (L1 : (p < s)%Q).
  { apply Qnot_le_lt. intros L. apply Qle_bool_iff in L. congruence. }
  assert (L2 : (t < p)%Q).
  { apply Qnot_le_lt. intros L. apply Qle_bool_iff in L. congruence. }
  apply Qlt_bool_iff in H3.
  exact (Qlt_irrefl _ (Qlt_trans _ _ _ (Qlt_trans _ _ _ L2 L1) H3)).
Qed.

(** The volume test on a value that is compared as the number [x]. *)
Lemma volume_test_number (a : arg) (x : num) :
  number a = Some x ->
  volume_test a = Ret (le x (Fin 0) || gt x (Fin 100)).
Proof.
  intros H. unfold volume_test, arg_le, arg_gt. rewrite H.
  destruct (le x (Fin 0)); reflexivity.
Qed.

Lemma volume_test_no_number (a : arg) :
  number a = None ->
  volume_test a
  = Raise (TypeError ("'<=' not supported between instances of '"
                      ++ type_name a ++ "' and 'int'")).
Proof. intros H. unfold volume_test, arg_le. rewrite H. reflexivity. Qed.

(** The volume test lets pass the values compared as NaN or as a number
    in (0, 100], rejects the other numbers and raises on the rest. *)
Lemma volume_test_passes (a : arg) :
  volume_test a = Ret false <-> exists x, number a = Some x /\ volume_passes x.
Proof.
  destruct (number a) as [x |] eqn:N.
  - rewrite (volume_test_number a x N). split.
    + intros H. exists x. split; [reflexivity |].
      apply volume_test_float. congruence.
    + intros [x' [E V]]. injection E as <-.
      apply volume_test_float in V. rewrite V. reflexivity.
  - rewrite (volume_test_no_number a N). split; [discriminate |].
    intros [x [E _]]. discriminate E.
Qed.

Lemma volume_test_rejects (a : arg) :
  volume_test a = Ret true <-> exists x, number a = Some x /\ ~ volume_passes x.
Proof.
  destruct (number a) as [x |] eqn:N.
  - rewrite (volume_test_number a x N). split.
    + intros H. exists x. split; [reflexivity |].
      intros V. apply volume_test_float in V. congruence.
    + intros [x' [E V]]. injection E as <-.
      destruct (le x (Fin 0) || gt x (Fin 100)) eqn:B; [reflexivity |].
      exfalso. apply V. apply volume_test_float. exact B.
  - rewrite (volume_test_no_number a N). split; [discriminate |].
    intros [x [E _]]. discriminate E.
Qed.

Lemma volume_test_raises (a : arg) (e : exn) :
  volume_test a = Raise e ->
  number a = None /\ conversion_error e /\ ~ is_float a.
Proof.
  destruct (number a) as [x |] eqn:N.
  - rewrite (volume_test_number a x N). discriminate.
  - rewrite (volume_test_no_number a N). intros H. injection H as <-.
    split; [reflexivity |]. split.
    + left. eexists. reflexivity.
    + intros [f ->]. discriminate N.
Qed.

Lemma passes_finite (q : Q) : volume_passes (Fin q) <-> volume_in_range q.
Proof.
  unfold volume_passes. split.
  - intros [H | [q' [H V]]]; [discriminate H |]. injection H as <-. exact V.
  - intros V. right. exists q. split; [reflexivity | exact V].
Qed.

Lemma in_range_int (z : Z) : volume_in_range (inject_Z z) <-> 0 < z <= 100.
Proof. unfold volume_in_range, Qlt, Qle. simpl. lia. Qed.

Section Runs.

Context {T : Terminal}.

Variable float_of_int : Z -> option num.
Variable float_of_str : string -> option num.

Lemma float_raises (x : arg) (e : exn) :
  float_ float_of_int float_of_str x = Raise e ->
  conversion_error e /\ ~ is_float x.
Proof.
  unfold float_, conversion_error. intros H.
  destruct x as [f | z | b | s |]; try discriminate H.
  - destruct (float_of_int z); [discriminate H |]. injection H as <-.
    split; [tauto |]. intros [f E]. discriminate E.
  - destruct (float_of_str s); [discriminate H |]. injection H as <-.
    split; [tauto |]. intros [f E]. discriminate E.
  - injection H as <-. split; [left; eexists; reflexivity |].
    intros [f E]. discriminate E.
Qed.

Lemma send_order_invalid_action_float (st : St T) action order_type symbol
    volume price stop_loss take_profit deviation comment expiration e :
  Action_validate action = Raise e ->
  send_order float_of_int float_of_str action order_type symbol volume price
    stop_loss take_profit deviation comment expiration st = (Raise e, st).
Proof. intros H. unfold send_order, bind, lift. rewrite H. reflexivity. Qed.

Lemma send_order_invalid_order_type_float (st : St T) action order_type symbol
    volume price stop_loss take_profit deviation comment expiration a e :
  Action_validate action = Ret a ->
  OrderType_validate order_type = Raise e ->
  send_order float_of_int float_of_str action order_type symbol volume price
    stop_loss take_profit deviation comment expiration st = (Raise e, st).
Proof.
  intros Ha H. unfold send_order, bind, lift. rewrite Ha, H. reflexivity.
Qed.

Lemma send_order_unknown_symbol_float (w : World T) action order_type a o symbol
    volume price stop_loss take_profit deviation comment expiration :
  Action_validate action = Ret a ->
  OrderType_validate order_type = Ret o ->
  fst (gw_get_symbols T symbol w) = [] ->
  send_order float_of_int float_of_str action order_type symbol volume price
    stop_loss take_profit deviation comment expiration (start w)
  = (Ret (reply false "Invalid symbol"), looked_up symbol w).
Proof.
  intros Ha Ho Hsym. unfold send_order, bind, lift. rewrite Ha, Ho.
  unfold get_symbols, perform, start. cbn [fst snd world calls].
  rewrite Hsym. reflexivity.
Qed.

Lemma send_order_not_selected_float (w : World T) action order_type a o symbol
    volume price stop_loss take_profit deviation comment expiration :
  Action_validate action = Ret a ->
  OrderType_validate order_type = Ret o ->
  fst (gw_get_symbols T symbol w) <> [] ->
  fst (gw_symbol_select T symbol true (snd (gw_get_symbols T symbol w))) = false ->
  send_order float_of_int float_of_str action order_type symbol volume price
    stop_loss take_profit deviation comment expiration (start w)
  = (Ret (reply false ("Failed to select " ++ symbol)), checked symbol w).
Proof.
  intros Ha Ho Hsym Hsel. unfold send_order, bind, lift. rewrite Ha, Ho.
  unfold get_symbols, symbol_select, perform, start. simpl.
  destruct (fst (gw_get_symbols T symbol w)) as [| x l] eqn:E;
    [contradiction |].
  simpl. rewrite Hsel. reflexivity.
Qed.

(** Once both enum arguments validate and the symbol is known and
    active, control is at line 106 with two gateway calls made. *)
Lemma send_order_validated_float (w : World T) action order_type a o symbol
    volume price stop_loss take_profit deviation comment expiration :
  Action_validate action = Ret a ->
  OrderType_validate order_type = Ret o ->
  symbol_ok symbol w ->
  send_order float_of_int float_of_str action order_type symbol volume price
    stop_loss take_profit deviation comment expiration (start w)
  = validate_numbers float_of_int float_of_str a o symbol volume price
      stop_loss take_profit deviation comment expiration (checked symbol w).
Proof.
  intros Ha Ho [Hsym Hsel].
  unfold send_order, bind, lift. rewrite Ha, Ho.
  unfold get_symbols, symbol_select, perform, start. simpl.
  destruct (fst (gw_get_symbols T symbol w)) as [| x l] eqn:E;
    [contradiction |].
  simpl. rewrite Hsel. reflexivity.
Qed.

(** Lines 106-121 on floats: the conversions change nothing. *)
Lemma validate_numbers_floats (st : St T) a o symbol (v p s t : num)
    deviation comment expiration :
  validate_numbers float_of_int float_of_str a o symbol (AFloat v) (AFloat p)
    (AFloat s) (AFloat t) deviation comment expiration st
  = (if le v (Fin 0) || gt v (Fin 100)
     then ret (reply false "Invalid volume")
     else checks_and_dispatch a o symbol v p s t deviation comment expiration)
      st.
Proof.
  unfold validate_numbers, bind, lift.
  rewrite (volume_test_number (AFloat v) v eq_refl).
  destruct (le v (Fin 0) || gt v (Fin 100)); reflexivity.
Qed.

(** Lines 106-121 when the volume passes and the four values convert. *)
Lemma validate_numbers_converted (st : St T) a o symbol
    (volume price stop_loss take_profit : arg) (v p s t : num)
    deviation comment expiration :
  volume_test volume = Ret false ->
  float_ float_of_int float_of_str volume = Ret v ->
  float_ float_of_int float_of_str price = Ret p ->
  float_ float_of_int float_of_str stop_loss = Ret s ->
  float_ float_of_int float_of_str take_profit = Ret t ->
  validate_numbers float_of_int float_of_str a o symbol volume price
    stop_loss take_profit deviation comment expiration st
  = checks_and_dispatch a o symbol v p s t deviation comment expiration st.
Proof.
  intros H0 H1 H2 H3 H4. unfold validate_numbers, bind, lift.
  rewrite H0, H1, H2, H3, H4. reflexivity.
Qed.

(** The three ways lines 106-121 end. *)
Lemma validate_numbers_cases (st : St T) a o symbol
    (volume price stop_loss take_profit : arg) deviation comment expiration :
  (exists e, conversion_error e /\
     ~ (is_float volume /\ is_float price /\
        is_float stop_loss /\ is_float take_profit) /\
     validate_numbers float_of_int float_of_str a o symbol volume price
       stop_loss take_profit deviation comment expiration st
     = (Raise e, st)) \/
  (volume_test volume = Ret true /\
   validate_numbers float_of_int float_of_str a o symbol volume price
     stop_loss take_profit deviation comment expiration st
   = (Ret (reply false "Invalid volume"), st)) \/
  (exists v p s t,
     volume_test volume = Ret false /\
     float_ float_of_int float_of_str volume = Ret v /\
     float_ float_of_int float_of_str price = Ret p /\
     float_ float_of_int float_of_str stop_loss = Ret s /\
     float_ float_of_int float_of_str take_profit = Ret t /\
     validate_numbers float_of_int float_of_str a o symbol volume price
       stop_loss take_profit deviation comment expiration st
     = checks_and_dispatch a o symbol v p s t deviation comment expiration st).
Proof.
  destruct (volume_test volume) as [[|] | e] eqn:H0.
  - right. left. split; [reflexivity |].
    unfold validate_numbers, bind, lift. rewrite H0. reflexivity.
  - destruct (float_ float_of_int float_of_str volume) as [v | e] eqn:H1.
    2: { left. exists e. destruct (float_raises _ _ H1) as [C N].
         split; [exact C |]. split; [tauto |].
         unfold validate_numbers, bind, lift. rewrite H0, H1. reflexivity. }
    destruct (float_ float_of_int float_of_str price) as [p | e] eqn:H2.
    2: { left. exists e. destruct (float_raises _ _ H2) as [C N].
         split; [exact C |]. split; [tauto |].
         unfold validate_numbers, bind, lift. rewrite H0, H1, H2. reflexivity. }
    destruct (float_ float_of_int float_of_str stop_loss) as [s | e] eqn:H3.
    2: { left. exists e. destruct (float_raises _ _ H3) as [C N].
         split; [exact C |]. split; [tauto |].
         unfold validate_numbers, bind, lift. rewrite H0, H1, H2, H3.
         reflexivity. }
    destruct (float_ float_of_int float_of_str take_profit) as [t | e] eqn:H4.
    2: { left. exists e. destruct (float_raises _ _ H4) as [C N].
         split; [exact C |]. split; [tauto |].
         unfold validate_numbers, bind, lift. rewrite H0, H1, H2, H3, H4.
         reflexivity. }
    right. right. exists v, p, s, t.
    repeat (split; [reflexivity |]).
    unfold validate_numbers, bind, lift. rewrite H0, H1, H2, H3, H4.
    reflexivity.
  - left. exists e. destruct (volume_test_raises _ _ H0) as [_ [C N]].
    split; [exact C |]. split; [tauto |].
    unfold validate_numbers, bind, lift. rewrite H0. reflexivity.
Qed.

Lemma pending_dispatch_float (st : St T) o symbol volume price stop_loss
    take_profit deviation comment expiration :
  In o pending_types ->
  dispatch PENDING o symbol volume price stop_loss take_profit deviation
    comment expiration st
  = match match fst (gw_symbol_info_tick T symbol (world st)) with
          | Some tk => pending_price_check o price tk
          | None => None
          end with
    | Some msg =>
        (Ret (reply false msg),
         {| world := snd (gw_symbol_info_tick T symbol (world st));
            calls := calls st ++ [CSymbolInfoTick symbol] |})
    | None =>
        let request := pending_request PENDING symbol volume o price stop_loss
                         take_profit deviation comment expiration in
        let w_sent := gw_order_send T request
                        (snd (gw_symbol_info_tick T symbol (world st))) in
        (Ret (outcome_of_last_error (fst (gw_last_error T w_sent))),
         {| world := snd (gw_last_error T w_sent);
            calls := ((calls st ++ [CSymbolInfoTick symbol])
                      ++ [COrderSend request]) ++ [CLastError] |})
    end.
Proof.
  intros Hp. unfold dispatch. rewrite (member_of_pending o Hp). cbn [negb].
  unfold bind, symbol_info_tick, order_send, last_error, perform, ret.
  cbn [fst snd world calls].
  destruct (match fst (gw_symbol_info_tick T symbol (world st)) with
            | Some tk => pending_price_check o price tk
            | None => None
            end); reflexivity.
Qed.

(** What the dispatch returns when it does not submit. *)
Lemma dispatch_cases_float (st : St T) a o symbol volume price stop_loss
    take_profit deviation comment expiration :
  (a = DEAL /\ member_of o [BUY; SELL] = false /\
   dispatch a o symbol volume price stop_loss take_profit deviation comment
     expiration st
   = (Ret (reply false "Invalid order type, must be BUY or SELL"), st)) \/
  (a = DEAL /\ member_of o [BUY; SELL] = true /\
   dispatch a o symbol volume price stop_loss take_profit deviation comment
     expiration st
   = (Raise (NameError "sl"), st)) \/
  (a = PENDING /\ ~ In o pending_types /\
   dispatch a o symbol volume price stop_loss take_profit deviation comment
     expiration st
   = (Ret (reply false
        "Invalid order type, must be BUY_LIMIT, SELL_LIMIT, BUY_STOP, or SELL_STOP"),
      st)) \/
  (a = PENDING /\ In o pending_types) \/
  (a <> DEAL /\ a <> PENDING /\
   dispatch a o symbol volume price stop_loss take_profit deviation comment
     expiration st
   = (Ret unknown_error, st)).
Proof.
  destruct a.
  - destruct (member_of o [BUY; SELL]) eqn:E.
    + right. left. split; [reflexivity |]. split; [reflexivity |].
      unfold dispatch. rewrite E. reflexivity.
    + left. split; [reflexivity |]. split; [reflexivity |].
      unfold dispatch. rewrite E. reflexivity.
  - destruct (member_of o [BUY_LIMIT; SELL_LIMIT; BUY_STOP; SELL_STOP]) eqn:E.
    + do 3 right. left. split; [reflexivity |].
      apply member_of_pending_inv. exact E.
    + do 2 right. left. split; [reflexivity |]. split.
      * intros I. apply member_of_pending in I. congruence.
      * unfold dispatch. rewrite E. reflexivity.
  - do 4 right. repeat split; discriminate.
  - do 4 right. repeat split; discriminate.
  - do 4 right. repeat split; discriminate.
  - do 4 right. repeat split; discriminate.
Qed.

End Runs.

Lemma sl_tp_check_messages_float o price stop_loss take_profit msg :
  sl_tp_check o price stop_loss take_profit = Some msg ->
  In msg ["Stop loss must be below the price";
          "Take profit must be above the price";
          "Stop loss must be below the take profit";
          "Stop loss must be above the price";
          "Take profit must be below the price";
          "Stop loss must be above the take profit"].
Proof.
  unfold sl_tp_check. intros H.
  repeat match type of H with
  | (if ?b then _ else _) = _ => destruct b
  end; try discriminate H; injection H as <-; simpl; tauto.
Qed.

(** The two messages about the take profit need a NaN price. *)
Lemma sl_tp_check_third_float o price stop_loss take_profit msg :
  sl_tp_check o price stop_loss take_profit = Some msg ->
  msg = "Stop loss must be below the take profit" \/
  msg = "Stop loss must be above the take profit" ->
  price = NaN.
Proof.
  unfold sl_tp_check. intros H M.
  destruct (member_of o buy_side).
  - destruct (ge stop_loss price) eqn:E1;
      [injection H as <-; destruct M as [M | M]; discriminate M |].
    destruct (le take_profit price) eqn:E2;
      [injection H as <-; destruct M as [M | M]; discriminate M |].
    destruct (gt stop_loss take_profit) eqn:E3; [| discriminate H].
    exact (buy_third_needs_nan _ _ _ E1 E2 E3).
  - destruct (member_of o sell_side); [| discriminate H].
    destruct (le stop_loss price) eqn:E1;
      [injection H as <-; destruct M as [M | M]; discriminate M |].
    destruct (ge take_profit price) eqn:E2;
      [injection H as <-; destruct M as [M | M]; discriminate M |].
    destruct (lt stop_loss take_profit) eqn:E3; [| discriminate H].
    exact (sell_third_needs_nan _ _ _ E1 E2 E3).
Qed.

Lemma sl_tp_check_none_float o price stop_loss take_profit :
  sl_tp_check o price stop_loss take_profit = None <->
  levels_pass o price stop_loss take_profit.
Proof.
  unfold sl_tp_check, levels_pass. split.
  - intros H. split; intros I.
    + assert (Eb : member_of o buy_side = true).
      { simpl in I. destruct I as [<- | [<- | [<- | []]]]; reflexivity. }
      rewrite Eb in H.
      destruct (ge stop_loss price); [discriminate H |].
      destruct (le take_profit price); [discriminate H |].
      destruct (gt stop_loss take_profit); [discriminate H |].
      repeat split.
    + assert (Eb : member_of o buy_side = false).
      { simpl in I. destruct I as [<- | [<- | [<- | []]]]; reflexivity. }
      assert (Es : member_of o sell_side = true).
      { simpl in I. destruct I as [<- | [<- | [<- | []]]]; reflexivity. }
      rewrite Eb, Es in H.
      destruct (le stop_loss price); [discriminate H |].
      destruct (ge take_profit price); [discriminate H |].
      destruct (lt stop_loss take_profit); [discriminate H |].
      repeat split.
  - intros [Hb Hs].
    destruct (member_of o buy_side) eqn:Eb.
    + assert (I : In o buy_side) by (destruct o; simpl in *; auto; discriminate).
      destruct (Hb I) as [E1 [E2 E3]]. rewrite E1, E2, E3. reflexivity.
    + destruct (member_of o sell_side) eqn:Es; [| reflexivity].
      assert (I : In o sell_side) by (destruct o; simpl in *; auto; discriminate).
      destruct (Hs I) as [E1 [E2 E3]]. rewrite E1, E2, E3. reflexivity.
Qed.

Lemma pending_price_check_messages_float o price tk msg :
  pending_price_check o price tk = Some msg ->
  msg = "Invalid price, must be above current ask" \/
  msg = "Invalid price, must be below current bid".
Proof.
  unfold pending_price_check. intros H.
  destruct o; try discriminate H;
    match type of H with
    | (if ?b then _ else _) = _ => destruct b
    end; try discriminate H; injection H as <-; tauto.
Qed.

Section AfterVolume.

Context {T : Terminal}.

(** Past the volume test no branch produces the volume message. *)
Lemma continue_not_volume_float (st : St T) a o symbol volume price stop_loss
    take_profit deviation comment expiration :
  fst (checks_and_dispatch a o symbol volume price stop_loss take_profit
         deviation comment expiration st)
  <> Ret (reply false "Invalid volume").
Proof.
  unfold checks_and_dispatch. fold (effective_comment comment).
  destruct (sl_tp_check o price stop_loss take_profit) as [msg |] eqn:E.
  - apply sl_tp_check_messages_float in E. cbn [fst ret]. intros H.
    injection H as ->. simpl in E.
    repeat (destruct E as [E | E]; [discriminate E |]). destruct E.
  - destruct (dispatch_cases_float st a o symbol volume price stop_loss
                take_profit deviation (effective_comment comment) expiration)
      as [[_ [_ D]] | [[_ [_ D]] | [[_ [_ D]] | [[-> Hp] | [_ [_ D]]]]]];
      try (rewrite D; cbn [fst]; discriminate).
    rewrite (pending_dispatch_float st o) by assumption.
    destruct (match fst (gw_symbol_info_tick T symbol (world st)) with
              | Some tk => pending_price_check o price tk
              | None => None
              end) as [msg |] eqn:Q.
    + destruct (fst (gw_symbol_info_tick T symbol (world st))) as [tk |];
        [| discriminate Q].
      apply pending_price_check_messages_float in Q. cbn [fst]. intros H.
      injection H as ->. destruct Q as [Q | Q]; discriminate Q.
    + cbv zeta. cbn [fst]. unfold outcome_of_last_error.
      match goal with
      | |- context [gw_last_error T ?x] =>
          destruct (fst (gw_last_error T x)) as [code d]
      end.
      destruct (code <? 0); discriminate.
Qed.

End AfterVolume.

(** C7. At the volume check of [send_order] (enum arguments valid,
    symbol known and active): (i) a finite float, and likewise an int, is
    rejected with "Invalid volume", nothing submitted, exactly when it is
    not in (0, 100]; the volumes 0, 100.0001 and -1 and both infinities
    are rejected, the volumes 100 and 0.01 are not; (ii) the volume NaN is
    not rejected either: both comparisons of line 107 are false for it,
    and when the other three values convert the run goes on to the later
    checks with that volume; (iii) a str or None for the volume makes the
    first comparison raise [TypeError], with no outcome returned. *)
Theorem volume_check_float {T : Terminal}
    (float_of_int : Z -> option num) (float_of_str : string -> option num)
    (w : World T)
    (action order_type : pyval) (a : TradeRequestActions) (o : OrderType)
    (symbol : string) (price stop_loss take_profit : arg)
    (deviation : Z) (comment : string) (expiration : option Z)
    (Ha : Action_validate action = Ret a)
    (Ho : OrderType_validate order_type = Ret o)
    (Hs : symbol_ok symbol w) :
  let run v :=
    send_order float_of_int float_of_str action order_type symbol v price
      stop_loss take_profit deviation comment expiration (start w) in
  ((forall q, rejected_with "Invalid volume" (run (AFloat (Fin q))) <->
              ~ volume_in_range q) /\
   (forall z, rejected_with "Invalid volume" (run (AInt z)) <->
              ~ 0 < z <= 100) /\
   rejected_with "Invalid volume" (run (AFloat (Fin 0))) /\
   rejected_with "Invalid volume" (run (AFloat (Fin 100.0001))) /\
   rejected_with "Invalid volume" (run (AFloat (Fin (-1)))) /\
   rejected_with "Invalid volume" (run (AFloat PInf)) /\
   rejected_with "Invalid volume" (run (AFloat NInf)) /\
   fst (run (AFloat (Fin 100))) <> Ret (reply false "Invalid volume") /\
   fst (run (AFloat (Fin 0.01))) <> Ret (reply false "Invalid volume")) /\
  (fst (run (AFloat NaN)) <> Ret (reply false "Invalid volume") /\
   forall p s t,
     float_ float_of_int float_of_str price = Ret p ->
     float_ float_of_int float_of_str stop_loss = Ret s ->
     float_ float_of_int float_of_str take_profit = Ret t ->
     run (AFloat NaN)
     = checks_and_dispatch a o symbol NaN p s t deviation comment expiration
         (checked symbol w)) /\
  (forall v, number v = None ->
     exists m, run v = (Raise (TypeError m), checked symbol w)).
Proof.
  intros run.
  assert (E : forall v, run v =
    validate_numbers float_of_int float_of_str a o symbol v price stop_loss
      take_profit deviation comment expiration (checked symbol w)).
  { intros v. unfold run.
    apply (send_order_validated_float _ _ w action order_type a o); assumption. }
  assert (R : forall v x, number v = Some x -> ~ volume_passes x ->
                          rejected_with "Invalid volume" (run v)).
  { intros v x N Hv.
    assert (B : volume_test v = Ret true)
      by (apply volume_test_rejects; exists x; split; assumption).
    rewrite E. unfold validate_numbers, bind, lift. rewrite B.
    split; reflexivity. }
  assert (A : forall v x, number v = Some x -> volume_passes x ->
                          fst (run v) <> Ret (reply false "Invalid volume")).
  { intros v x N Hv.
    assert (B : volume_test v = Ret false)
      by (apply volume_test_passes; exists x; split; assumption).
    rewrite E.
    destruct (validate_numbers_cases float_of_int float_of_str
                (checked symbol w) a o symbol v price stop_loss take_profit
                deviation comment expiration)
      as [[e [_ [_ D]]] | [[B' _] | [v' [p [s [t [_ [_ [_ [_ [_ D]]]]]]]]]]].
    - rewrite D. discriminate.
    - congruence.
    - rewrite D. apply continue_not_volume_float. }
  split; [| split].
  - split; [| split; [| split; [| split; [| split; [| split; [| split;
      [| split]]]]]]].
    + intros q. split.
      * intros [H _] V.
        apply (A (AFloat (Fin q)) (Fin q) eq_refl); [| exact H].
        apply passes_finite. exact V.
      * intros V. apply (R (AFloat (Fin q)) (Fin q) eq_refl).
        intros V'. apply V, passes_finite, V'.
    + intros z. split.
      * intros [H _] V.
        apply (A (AInt z) (Fin (inject_Z z)) eq_refl); [| exact H].
        apply passes_finite, in_range_int. exact V.
      * intros V. apply (R (AInt z) (Fin (inject_Z z)) eq_refl).
        intros V'. apply V, in_range_int, passes_finite, V'.
    + apply (R (AFloat (Fin 0)) (Fin 0) eq_refl). rewrite passes_finite.
      unfold volume_in_range, Qlt, Qle. simpl. lia.
    + apply (R (AFloat (Fin 100.0001)) (Fin 100.0001) eq_refl).
      rewrite passes_finite. unfold volume_in_range, Qlt, Qle. simpl. lia.
    + apply (R (AFloat (Fin (-1))) (Fin (-1)) eq_refl). rewrite passes_finite.
      unfold volume_in_range, Qlt, Qle. simpl. lia.
    + apply (R (AFloat PInf) PInf eq_refl).
      intros [H | [q [H _]]]; discriminate H.
    + apply (R (AFloat NInf) NInf eq_refl).
      intros [H | [q [H _]]]; discriminate H.
    + apply (A (AFloat (Fin 100)) (Fin 100) eq_refl). rewrite passes_finite.
      unfold volume_in_range, Qlt, Qle. simpl. lia.
    + apply (A (AFloat (Fin 0.01)) (Fin 0.01) eq_refl). rewrite passes_finite.
      unfold volume_in_range, Qlt, Qle. simpl. lia.
  - split.
    + apply (A (AFloat NaN) NaN eq_refl). left. reflexivity.
    + intros p s t Hp Hsl Htp. rewrite E.
      apply validate_numbers_converted; try assumption; reflexivity.
  - intros v N. rewrite E. unfold validate_numbers, bind, lift.
    rewrite (volume_test_no_number v N). eexists. reflexivity.
Qed.

Lemma sim_symbol_ok_float : symbol_ok (T := sim) "XAUUSD" sim_world.
Proof. split; [discriminate | reflexivity]. Qed.

Lemma volume_check_float_witness :
  rejected_with (T := sim) "Invalid volume"
    (send_order sim_float_of_int sim_float_of_str (VAction PENDING)
       (VStr "sell_limit") "XAUUSD" (AFloat (Fin 100.0001))
       (AFloat (Fin 4000)) (AFloat (Fin 4100)) (AInt 3900) 20 "" None
       (start (T := sim) sim_world)) /\
  fst (send_order (T := sim) sim_float_of_int sim_float_of_str
         (VAction PENDING) (VStr "sell_limit") "XAUUSD" (AFloat NaN)
         (AFloat (Fin 4000)) (AFloat (Fin 4100)) (AInt 3900) 20 "" None
         (start (T := sim) sim_world))
  <> Ret (reply false "Invalid volume").
Proof.
  pose proof (volume_check_float (T := sim) sim_float_of_int sim_float_of_str
                sim_world (VAction PENDING) (VStr "sell_limit") PENDING
                SELL_LIMIT "XAUUSD" (AFloat (Fin 4000)) (AFloat (Fin 4100))
                (AInt 3900) 20 "" None eq_refl eq_refl sim_symbol_ok_float)
    as H.
  cbv zeta in H.
  destruct H as [[_ [_ [_ [H1 _]]]] [[H2 _] _]].
  split; [exact H1 | exact H2].
Defined.

(** C7, at the failing input: a pending order with volume NaN passes
    the volume check and is submitted with that volume. *)
Lemma nan_volume_is_submitted :
  let r := send_order (T := sim) sim_float_of_int sim_float_of_str
             (VAction PENDING) (VStr "SELL_LIMIT") "XAUUSD"
             (AFloat NaN) (AFloat (Fin 4000)) (AFloat (Fin 4100))
             (AFloat (Fin 3900)) 20 "" None (start (T := sim) sim_world) in
  fst r = Ret (reply true "Order sent successfully") /\
  submissions (snd r)
  = [COrderSend (pending_request PENDING "XAUUSD" NaN SELL_LIMIT (Fin 4000)
                   (Fin 4100) (Fin 3900) 20 "MCP" None)] /\
  sim_sent (world (snd r))
  = [pending_request PENDING "XAUUSD" NaN SELL_LIMIT (Fin 4000)
       (Fin 4100) (Fin 3900) 20 "MCP" None].
Proof. repeat split. Qed.

Lemma sell_side_members o :
  In o sell_side -> member_of o buy_side = false /\ member_of o sell_side = true.
Proof.
  intros I. simpl in I.
  destruct I as [<- | [<- | [<- | []]]]; split; reflexivity.
Qed.

(** A number compared with zero on both sides. *)
Lemma zero_le_or_ge (price : num) :
  price <> NaN -> le (Fin 0) price = true \/ ge (Fin 0) price = true.
Proof.
  unfold ge. destruct price as [p | | |]; intros N; simpl.
  - destruct (Qle_bool 0 p) eqn:E; [left; reflexivity |].
    right. apply Qle_bool_iff. apply Qlt_le_weak. apply Qnot_le_lt.
    intros L. apply Qle_bool_iff in L. congruence.
  - left. reflexivity.
  - right. reflexivity.
  - contradiction.
Qed.

(** X6. The sell-side stop/target check. For a sell-side order type
    whose volume passed line 107, with [p], [s] and [t] the floats that
    the price, the stop loss and the take profit convert to: the run is
    rejected with "Stop loss must be above the price" when [s <= p];
    otherwise with "Take profit must be below the price" when [t >= p];
    otherwise with "Stop loss must be above the take profit" when
    [s < t], which happens only when the price is NaN. Zero levels are
    rejected for every price that is not NaN; with a NaN price the check
    lets pass every pair of levels for which [s < t] is false, zero levels
    among them. *)
Theorem sell_side_levels_float {T : Terminal}
    (float_of_int : Z -> option num) (float_of_str : string -> option num)
    (w : World T)
    (action order_type : pyval) (a : TradeRequestActions) (o : OrderType)
    (symbol : string) (volume price : arg) (v p : num)
    (deviation : Z) (comment : string) (expiration : option Z)
    (Ha : Action_validate action = Ret a)
    (Ho : OrderType_validate order_type = Ret o)
    (Hs : symbol_ok symbol w)
    (Hv : volume_test volume = Ret false)
    (Hcv : float_ float_of_int float_of_str volume = Ret v)
    (Hcp : float_ float_of_int float_of_str price = Ret p)
    (Hb : In o sell_side) :
  let run sl tp :=
    send_order float_of_int float_of_str action order_type symbol volume
      price sl tp deviation comment expiration (start w) in
  let converts sl tp s t :=
    float_ float_of_int float_of_str sl = Ret s /\
    float_ float_of_int float_of_str tp = Ret t in
  (forall sl tp s t, converts sl tp s t -> le s p = true ->
     rejected_with "Stop loss must be above the price" (run sl tp)) /\
  (forall sl tp s t, converts sl tp s t -> le s p = false -> ge t p = true ->
     rejected_with "Take profit must be below the price" (run sl tp)) /\
  (forall sl tp s t, converts sl tp s t -> le s p = false -> ge t p = false ->
     lt s t = true ->
     p = NaN /\
     rejected_with "Stop loss must be above the take profit" (run sl tp)) /\
  (p <> NaN ->
   rejected_with "Stop loss must be above the price"
     (run (AFloat (Fin 0)) (AFloat (Fin 0))) \/
   rejected_with "Take profit must be below the price"
     (run (AFloat (Fin 0)) (AFloat (Fin 0)))) /\
  (p = NaN -> forall sl tp s t, converts sl tp s t -> lt s t = false ->
   run sl tp
   = dispatch a o symbol v p s t deviation (effective_comment comment)
       expiration (checked symbol w)).
Proof.
  intros run converts.
  destruct (sell_side_members o Hb) as [Eb Es].
  assert (E : forall sl tp s t, converts sl tp s t -> run sl tp =
    (match sl_tp_check o p s t with
     | Some msg => ret (reply false msg)
     | None =>
         dispatch a o symbol v p s t deviation (effective_comment comment)
           expiration
     end) (checked symbol w)).
  { intros sl tp s t [Hsl Htp]. unfold run.
    rewrite (send_order_validated_float _ _ w action order_type a o)
      by assumption.
    rewrite (validate_numbers_converted _ _ _ a o symbol volume price sl tp
               v p s t) by assumption.
    reflexivity. }
  assert (C1 : forall sl tp s t, converts sl tp s t -> le s p = true ->
     rejected_with "Stop loss must be above the price" (run sl tp)).
  { intros sl tp s t C H1. rewrite (E sl tp s t C).
    unfold sl_tp_check. rewrite Eb, Es, H1. split; reflexivity. }
  assert (C2 : forall sl tp s t, converts sl tp s t ->
     le s p = false -> ge t p = true ->
     rejected_with "Take profit must be below the price" (run sl tp)).
  { intros sl tp s t C H1 H2. rewrite (E sl tp s t C).
    unfold sl_tp_check. rewrite Eb, Es, H1, H2. split; reflexivity. }
  assert (Z0 : converts (AFloat (Fin 0)) (AFloat (Fin 0)) (Fin 0) (Fin 0))
    by (split; reflexivity).
  split; [exact C1 |]. split; [exact C2 |]. split; [| split].
  - intros sl tp s t C H1 H2 H3.
    split; [exact (sell_third_needs_nan _ _ _ H1 H2 H3) |].
    rewrite (E sl tp s t C). unfold sl_tp_check. rewrite Eb, Es, H1, H2, H3.
    split; reflexivity.
  - intros N. destruct (le (Fin 0) p) eqn:H1.
    + left. apply (C1 _ _ _ _ Z0). exact H1.
    + right. apply (C2 _ _ _ _ Z0); [exact H1 |].
      destruct (zero_le_or_ge p N) as [H | H]; [congruence | exact H].
  - intros -> sl tp s t C H3. rewrite (E sl tp s t C).
    unfold sl_tp_check. rewrite Eb, Es.
    assert (H1 : le s NaN = false) by (destruct s; reflexivity).
    assert (H2 : ge t NaN = false) by (destruct t; reflexivity).
    rewrite H1, H2, H3. reflexivity.
Qed.

Lemma sell_side_levels_float_witness :
  rejected_with (T := sim) "Stop loss must be above the price"
    (send_order sim_float_of_int sim_float_of_str (VAction PENDING)
       (VStr "SELL_LIMIT") "XAUUSD" (AFloat (Fin 0.1)) (AFloat (Fin 4000))
       (AFloat (Fin 3500)) (AFloat (Fin 4500)) 20 "" None
       (start (T := sim) sim_world)) /\
  rejected_with (T := sim) "Stop loss must be above the take profit"
    (send_order sim_float_of_int sim_float_of_str (VAction PENDING)
       (VStr "SELL_LIMIT") "XAUUSD" (AFloat (Fin 0.1)) (AStr "nan")
       (AInt 3) (AInt 5) 20 "" None (start (T := sim) sim_world)).
Proof.
  split.
  - pose proof (sell_side_levels_float (T := sim) sim_float_of_int
                  sim_float_of_str sim_world (VAction PENDING)
                  (VStr "SELL_LIMIT") PENDING SELL_LIMIT "XAUUSD"
                  (AFloat (Fin 0.1)) (AFloat (Fin 4000)) (Fin 0.1) (Fin 4000)
                  20 "" None eq_refl eq_refl sim_symbol_ok_float
                  eq_refl eq_refl eq_refl (or_intror (or_introl eq_refl)))
      as H.
    cbv zeta in H. destruct H as [H _].
    exact (H (AFloat (Fin 3500)) (AFloat (Fin 4500)) (Fin 3500) (Fin 4500)
             (conj eq_refl eq_refl) eq_refl).
  - pose proof (sell_side_levels_float (T := sim) sim_float_of_int
                  sim_float_of_str sim_world (VAction PENDING)
                  (VStr "SELL_LIMIT") PENDING SELL_LIMIT "XAUUSD"
                  (AFloat (Fin 0.1)) (AStr "nan") (Fin 0.1) NaN
                  20 "" None eq_refl eq_refl sim_symbol_ok_float
                  eq_refl eq_refl eq_refl (or_intror (or_introl eq_refl)))
      as H.
    cbv zeta in H. destruct H as [_ [_ [H _]]].
    exact (proj2 (H (AInt 3) (AInt 5) (Fin 3) (Fin 5)
                    (conj eq_refl eq_refl) eq_refl eq_refl eq_refl)).
Defined.

Ltac no_success_float :=
  left; split;
  [ reflexivity
  | let out := fresh "out" in
    let H := fresh "H" in
    intros out H;
    first [ discriminate H | injection H as <-; reflexivity ] ].

(** X10. Submission discipline of [send_order]. Whatever the arguments
    and the terminal, a run either submits nothing and returns no success
    (a non-success outcome or an exception), or it submits exactly one
    request. It submits only when the action is PENDING, the order type
    is one of the four pending types, the symbol is known and active, the
    volume is compared as a number in (0, 100] or as NaN, the four values
    convert to floats, and every level comparison made for the order's
    side is false on them; the request is then the pending request built
    from the converted values. A market deal never reaches the
    terminal. *)
Theorem submission_discipline_float {T : Terminal}
    (float_of_int : Z -> option num) (float_of_str : string -> option num)
    (w : World T)
    (action order_type : pyval) (symbol : string)
    (volume price stop_loss take_profit : arg)
    (deviation : Z) (comment : string) (expiration : option Z) :
  let r := send_order float_of_int float_of_str action order_type symbol
             volume price stop_loss take_profit deviation comment expiration
             (start w) in
  (submissions (snd r) = [] /\
   (forall out, fst r = Ret out -> success out = false)) \/
  (exists o v p s t,
     Action_validate action = Ret PENDING /\
     OrderType_validate order_type = Ret o /\
     In o pending_types /\
     symbol_ok symbol w /\
     (exists x, number volume = Some x /\ volume_passes x) /\
     float_ float_of_int float_of_str volume = Ret v /\
     float_ float_of_int float_of_str price = Ret p /\
     float_ float_of_int float_of_str stop_loss = Ret s /\
     float_ float_of_int float_of_str take_profit = Ret t /\
     levels_pass o p s t /\
     submissions (snd r)
     = [COrderSend (pending_request PENDING symbol v o p s t deviation
                      (effective_comment comment) expiration)]).
Proof.
  intros r. unfold r. clear r.
  destruct (Action_validate action) as [a | e] eqn:Ha.
  2: { rewrite (send_order_invalid_action_float _ _ _ _ _ _ _ _ _ _ _ _ _ e Ha).
       no_success_float. }
  destruct (OrderType_validate order_type) as [o | e] eqn:Ho.
  2: { rewrite (send_order_invalid_order_type_float
                  _ _ _ _ _ _ _ _ _ _ _ _ _ a e Ha Ho).
       no_success_float. }
  destruct (fst (gw_get_symbols T symbol w)) as [| x l] eqn:Hsym.
  { rewrite (send_order_unknown_symbol_float _ _ w action order_type a o)
      by assumption.
    no_success_float. }
  assert (Hne : fst (gw_get_symbols T symbol w) <> [])
    by (rewrite Hsym; discriminate).
  destruct (fst (gw_symbol_select T symbol true (snd (gw_get_symbols T symbol w))))
    eqn:Hsel.
  2: { rewrite (send_order_not_selected_float _ _ w action order_type a o)
         by assumption.
       no_success_float. }
  assert (Hs : symbol_ok symbol w) by (split; assumption).
  rewrite (send_order_validated_float _ _ w action order_type a o) by assumption.
  destruct (validate_numbers_cases float_of_int float_of_str
              (checked symbol w) a o symbol volume price stop_loss take_profit
              deviation comment expiration)
    as [[e [_ [_ D]]] | [[_ D] | [v [p [s [t [Hv [Cv [Cp [Cs [Ct D]]]]]]]]]]];
    rewrite D; clear D; [no_success_float | no_success_float |].
  apply volume_test_passes in Hv.
  unfold checks_and_dispatch. fold (effective_comment comment).
  destruct (sl_tp_check o p s t) as [msg |] eqn:Hc; [no_success_float |].
  apply sl_tp_check_none_float in Hc.
  destruct (dispatch_cases_float (checked symbol w) a o symbol v p s t
              deviation (effective_comment comment) expiration)
    as [[_ [_ D]] | [[_ [_ D]] | [[_ [_ D]] | [[-> Hp] | [_ [_ D]]]]]];
    try (rewrite D; no_success_float).
  rewrite (pending_dispatch_float _ o) by assumption.
  destruct (match fst (gw_symbol_info_tick T symbol (world (checked symbol w))) with
            | Some tk => pending_price_check o p tk
            | None => None
            end); [no_success_float |].
  right. exists o, v, p, s, t.
  repeat (split; [assumption || reflexivity |]).
  reflexivity.
Qed.

Ltac fixed_message_float :=
  do 6 right; eexists; split; [| reflexivity]; simpl; tauto.

Ltac not_third :=
  let m := fresh "m" in
  let E := fresh "E" in
  let M := fresh "M" in
  intros m E M; exfalso; simpl in E;
  first [ discriminate E
        | injection E as <-; destruct M as [M | M]; discriminate M ].

Ltac no_conversion_error :=
  let e := fresh "e" in
  let E := fresh "E" in
  let C := fresh "C" in
  intros e E C; exfalso;
  first [ discriminate E
        | injection E as <-;
          destruct C as [[? C] | [C | C]]; discriminate C ].

(** X11. The results of [send_order]. Whatever the arguments and the
    terminal, a run raises [InvalidEnumValue], the [NameError] of the
    market-deal branch, or the [TypeError], [ValueError] or
    [OverflowError] of a comparison of line 107 or of [float()]; or it
    returns the generic failure, the success "Order sent successfully",
    an "Error <code>: <description>" failure with a negative code, or a
    failure with one of thirteen fixed messages. None of the three
    conversion errors is raised when the four values are floats. The
    messages "Stop loss must be below the take profit" and "Stop loss
    must be above the take profit" are returned only when the price
    converts to NaN: for every other price the two comparisons before
    them already decide. *)
Theorem send_order_results_float {T : Terminal}
    (float_of_int : Z -> option num) (float_of_str : string -> option num)
    (w : World T)
    (action order_type : pyval) (symbol : string)
    (volume price stop_loss take_profit : arg)
    (deviation : Z) (comment : string) (expiration : option Z) :
  let x := fst (send_order float_of_int float_of_str action order_type symbol
                  volume price stop_loss take_profit deviation comment
                  expiration (start w)) in
  ((exists what v, x = Raise (InvalidEnumValue what v)) \/
   x = Raise (NameError "sl") \/
   (exists e, conversion_error e /\ x = Raise e) \/
   x = Ret unknown_error \/
   x = Ret (reply true "Order sent successfully") \/
   (exists code d, code < 0 /\
      x = Ret (reply false ("Error " ++ str_of_int code ++ ": " ++ d))) \/
   (exists m, In m (fixed_messages symbol) /\ x = Ret (reply false m))) /\
  (forall e, x = Raise e -> conversion_error e ->
     ~ (is_float volume /\ is_float price /\
        is_float stop_loss /\ is_float take_profit)) /\
  (forall m, x = Ret (reply false m) ->
     m = "Stop loss must be below the take profit" \/
     m = "Stop loss must be above the take profit" ->
     float_ float_of_int float_of_str price = Ret NaN).
Proof.
  intros x. unfold x. clear x.
  destruct (Action_validate action) as [a | e] eqn:Ha.
  { destruct (OrderType_validate order_type) as [o | e] eqn:Ho.
    { destruct (fst (gw_get_symbols T symbol w)) as [| s0 l] eqn:Hsym.
      { rewrite (send_order_unknown_symbol_float _ _ w action order_type a o)
          by assumption.
        split; [fixed_message_float | split; [no_conversion_error | not_third]]. }
      assert (Hne : fst (gw_get_symbols T symbol w) <> [])
        by (rewrite Hsym; discriminate).
      destruct (fst (gw_symbol_select T symbol true
                       (snd (gw_get_symbols T symbol w)))) eqn:Hsel.
      2: { rewrite (send_order_not_selected_float _ _ w action order_type a o)
             by assumption.
           split; [fixed_message_float
                  | split; [no_conversion_error | not_third]]. }
      assert (Hs : symbol_ok symbol w) by (split; assumption).
      rewrite (send_order_validated_float _ _ w action order_type a o)
        by assumption.
      destruct (validate_numbers_cases float_of_int float_of_str
                  (checked symbol w) a o symbol volume price stop_loss
                  take_profit deviation comment expiration)
        as [[e [C [N D]]] | [[_ D] | [v [p [s [t [_ [_ [Cp [_ [_ D]]]]]]]]]]];
        rewrite D; clear D.
      { split; [| split; [| not_third]].
        - right. right. left. exists e. split; [exact C | reflexivity].
        - intros e' E _. exact N. }
      { split; [fixed_message_float
               | split; [no_conversion_error | not_third]]. }
      rewrite Cp. clear Cp.
      unfold checks_and_dispatch. fold (effective_comment comment).
      destruct (sl_tp_check o p s t) as [msg |] eqn:Hc.
      { split; [| split; [no_conversion_error |]].
        - pose proof (sl_tp_check_messages_float _ _ _ _ _ Hc) as I.
          do 6 right. exists msg. split; [| reflexivity].
          simpl in I |- *. tauto.
        - intros m E M. injection E as <-.
          rewrite (sl_tp_check_third_float _ _ _ _ _ Hc M). reflexivity. }
      destruct (dispatch_cases_float (checked symbol w) a o symbol v p s t
                  deviation (effective_comment comment) expiration)
        as [[_ [_ D]] | [[_ [_ D]] | [[_ [_ D]] | [[-> Hp] | [_ [_ D]]]]]];
        try rewrite D.
      - split; [fixed_message_float
               | split; [no_conversion_error | not_third]].
      - split; [right; left; reflexivity
               | split; [no_conversion_error | not_third]].
      - split; [fixed_message_float
               | split; [no_conversion_error | not_third]].
      - rewrite (pending_dispatch_float _ o) by assumption.
        destruct (match fst (gw_symbol_info_tick T symbol
                               (world (checked symbol w))) with
                  | Some tk => pending_price_check o p tk
                  | None => None
                  end) as [msg |] eqn:Hq.
        + destruct (fst (gw_symbol_info_tick T symbol (world (checked symbol w))))
            as [tk |]; [| discriminate Hq].
          apply pending_price_check_messages_float in Hq.
          split; [| split; [no_conversion_error |]].
          * do 6 right. exists msg. split; [| reflexivity].
            simpl. destruct Hq as [-> | ->]; tauto.
          * intros m E M. exfalso. injection E as <-.
            destruct Hq as [-> | ->]; destruct M as [M | M]; discriminate M.
        + cbv zeta. cbn [fst].
          match goal with
          | |- context [outcome_of_last_error ?e] => destruct e as [code d]
          end.
          unfold outcome_of_last_error.
          destruct (Z.ltb_spec code 0).
          * split; [| split; [no_conversion_error | not_third]].
            do 5 right. left. exists code, d.
            split; [assumption | reflexivity].
          * split; [do 4 right; left; reflexivity
                   | split; [no_conversion_error | not_third]].
      - split; [do 3 right; left; reflexivity
               | split; [no_conversion_error | not_third]]. }
    rewrite (send_order_invalid_order_type_float
               _ _ _ _ _ _ _ _ _ _ _ _ _ a e Ha Ho).
    split; [| split; [| not_third]].
    - left. rewrite (proj1 (OrderType_validate_fail _ _ Ho)).
      eexists. eexists. reflexivity.
    - rewrite (proj1 (OrderType_validate_fail _ _ Ho)). no_conversion_error. }
  rewrite (send_order_invalid_action_float _ _ _ _ _ _ _ _ _ _ _ _ _ e Ha).
  split; [| split; [| not_third]].
  - left. rewrite (Action_validate_raises _ _ Ha). eexists. eexists. reflexivity.
  - rewrite (Action_validate_raises _ _ Ha). no_conversion_error.
Qed.

(** The message of line 128 is returned for a NaN price, and a str in
    place of a number raises. *)
Example results_at_unusual_arguments :
  fst (send_order (T := sim) sim_float_of_int sim_float_of_str
         (VAction PENDING) (VStr "BUY_LIMIT") "XAUUSD"
         (AFloat (Fin 0.1)) (AFloat NaN) (AFloat (Fin 5)) (AFloat (Fin 3))
         20 "" None (start (T := sim) sim_world))
  = Ret (reply false "Stop loss must be below the take profit") /\
  fst (send_order (T := sim) sim_float_of_int sim_float_of_str
         (VAction PENDING) (VStr "BUY_LIMIT") "XAUUSD"
         (AFloat (Fin 0.1)) (AStr "market") (AFloat (Fin 5)) (AFloat (Fin 3))
         20 "" None (start (T := sim) sim_world))
  = Raise ValueError /\
  fst (send_order (T := sim) sim_float_of_int sim_float_of_str
         (VAction PENDING) (VStr "BUY_LIMIT") "XAUUSD"
         (AStr "0.1") (AFloat (Fin 3000)) (AFloat (Fin 5)) (AFloat (Fin 3))
         20 "" None (start (T := sim) sim_world))
  = Raise (TypeError "'<=' not supported between instances of 'str' and 'int'").
Proof. repeat split. Qed.

End PyFloatFacts.

(* ====================================================================== *)
(** * The two models of [send_order] agree on finite numbers *)

Section Agreement.

Context {T : Terminal}.

Variable float_of_int : Z -> option PyFloat.num.
Variable float_of_str : string -> option PyFloat.num.

Lemma sl_tp_check_agrees o (price stop_loss take_profit : Q) :
  PyFloat.sl_tp_check o (PyFloat.Fin price) (PyFloat.Fin stop_loss)
    (PyFloat.Fin take_profit)
  = sl_tp_check o price stop_loss take_profit.
Proof. reflexivity. Qed.

Lemma pending_price_check_agrees o (price : Q) (tk : Tick) :
  PyFloat.pending_price_check o (PyFloat.Fin price) (embed_tick tk)
  = pending_price_check o price tk.
Proof. destruct o; reflexivity. Qed.

(** On finite float arguments a run of the float model against [embed T]
    has the result, the final world and the calls of the run of the model
    on finite numbers against [T]. *)
Lemma send_order_agrees (w : World T) (action order_type : pyval)
    (symbol : string) (volume price stop_loss take_profit : Q)
    (deviation : Z) (comment : string) (expiration : option Z) :
  let r := send_order action order_type symbol volume price stop_loss
             take_profit deviation comment expiration (start w) in
  let rf := PyFloat.send_order (T := embed T) float_of_int float_of_str
              action order_type symbol
              (PyFloat.AFloat (PyFloat.Fin volume))
              (PyFloat.AFloat (PyFloat.Fin price))
              (PyFloat.AFloat (PyFloat.Fin stop_loss))
              (PyFloat.AFloat (PyFloat.Fin take_profit))
              deviation comment expiration (PyFloat.start (T := embed T) w) in
  fst rf = fst r /\
  PyFloat.world (snd rf) = world (snd r) /\
  PyFloat.calls (snd rf) = flat_map embed_call (calls (snd r)).
Proof.
  intros r rf. unfold r, rf. clear r rf.
  destruct (Action_validate action) as [a | e] eqn:Ha.
  2: { rewrite (send_order_invalid_action _ _ _ _ _ _ _ _ _ _ _ e Ha).
       rewrite (PyFloatFacts.send_order_invalid_action_float
                  _ _ _ _ _ _ _ _ _ _ _ _ _ e Ha).
       repeat split. }
  destruct (OrderType_validate order_type) as [o | e] eqn:Ho.
  2: { rewrite (send_order_invalid_order_type _ _ _ _ _ _ _ _ _ _ _ a e Ha Ho).
       rewrite (PyFloatFacts.send_order_invalid_order_type_float
                  _ _ _ _ _ _ _ _ _ _ _ _ _ a e Ha Ho).
       repeat split. }
  destruct (fst (gw_get_symbols T symbol w)) as [| x l] eqn:Hsym.
  { rewrite (send_order_unknown_symbol w action order_type a o) by assumption.
    rewrite (PyFloatFacts.send_order_unknown_symbol_float (T := embed T)
               _ _ w action order_type a o) by assumption.
    repeat split. }
  assert (Hne : fst (gw_get_symbols T symbol w) <> [])
    by (rewrite Hsym; discriminate).
  destruct (fst (gw_symbol_select T symbol true (snd (gw_get_symbols T symbol w))))
    eqn:Hsel.
  2: { rewrite (send_order_not_selected w action order_type a o) by assumption.
       rewrite (PyFloatFacts.send_order_not_selected_float (T := embed T)
                  _ _ w action order_type a o) by assumption.
       repeat split. }
  assert (Hs : symbol_ok symbol w) by (split; assumption).
  assert (Hsf : PyFloat.symbol_ok (T := embed T) symbol w) by (split; assumption).
  rewrite (send_order_validated w action order_type a o) by assumption.
  rewrite (PyFloatFacts.send_order_validated_float (T := embed T)
             _ _ w action order_type a o) by assumption.
  rewrite PyFloatFacts.validate_numbers_floats.
  change (PyFloat.le (PyFloat.Fin volume) (PyFloat.Fin 0)
          || PyFloat.gt (PyFloat.Fin volume) (PyFloat.Fin 100))
    with (Qle_bool volume 0 || Qgt_bool volume 100).
  destruct (Qle_bool volume 0 || Qgt_bool volume 100); [repeat split |].
  unfold PyFloat.checks_and_dispatch.
  rewrite sl_tp_check_agrees.
  destruct (sl_tp_check o price stop_loss take_profit) as [msg |];
    [repeat split |].
  fold (effective_comment comment).
  destruct a; try solve [repeat split].
  - unfold dispatch, PyFloat.dispatch.
    destruct (negb (member_of o [BUY; SELL])); repeat split.
  - destruct (member_of o [BUY_LIMIT; SELL_LIMIT; BUY_STOP; SELL_STOP]) eqn:Hm.
    2: { unfold dispatch, PyFloat.dispatch. rewrite Hm. repeat split. }
    apply member_of_pending_inv in Hm.
    rewrite (pending_dispatch _ o) by assumption.
    rewrite (PyFloatFacts.pending_dispatch_float (T := embed T) _ o) by assumption.
    cbn [PyFloat.World PyFloat.gw_get_symbols PyFloat.gw_symbol_select
         PyFloat.gw_symbol_info_tick PyFloat.gw_order_send
         PyFloat.gw_last_error embed fst snd PyFloat.world PyFloat.checked
         world checked].
    destruct (fst (gw_symbol_info_tick T symbol
                     (snd (gw_symbol_select T symbol true
                             (snd (gw_get_symbols T symbol w)))))) as [tk |].
    + cbn [option_map]. rewrite pending_price_check_agrees.
      destruct (pending_price_check o price tk); repeat split.
    + repeat split.
Qed.

End Agreement.
